(** * ASEr.cluster: job files, submission, polling and cleaning

    A shallow embedding of [ASEr/cluster.py].  Python strings are Rocq
    strings (tool output is taken as already decoded ASCII text), the
    module globals [QUEUE] and [POOL] live in an explicit world record, and
    every function of the module is a computation in a small state and
    exception monad over that world.  External programs ([sbatch], [qsub],
    [squeue], [qstat]), [run.which], [os.path.abspath] and [os.listdir] are
    supplied by an environment record. *)

From Stdlib Require Import ZArith Ascii DecimalString.
From Stdlib Require DecimalPos.
From stdpp Require Import base gmap strings list.

Local Open Scope Z_scope.

(** ** Characters and string literals the source writes with escapes *)

Definition nl_char : ascii := "010"%char.
Definition tab_char : ascii := "009"%char.
Definition sp_char : ascii := " "%char.
Definition nl : string := String nl_char "".
Definition dquote : string := String "034"%char "".

Module PyStr.

(** [s.startswith(p)] *)
Fixpoint startswith (p s : string) : bool :=
  match p, s with
  | EmptyString, _ => true
  | String a p', String b s' => if decide (a = b) then startswith p' s' else false
  | String _ _, EmptyString => false
  end.

(** [s.endswith(e)] *)
Definition endswith (s e : string) : bool :=
  startswith (String.rev e) (String.rev s).

(** Characters removed by [str.rstrip()] with no argument (ASCII range). *)
Definition is_py_space (c : ascii) : bool :=
  let n := nat_of_ascii c in
  ((9 <=? n)%nat && (n <=? 13)%nat) || ((28 <=? n)%nat && (n <=? 32)%nat).

(** [s.rstrip()] *)
Fixpoint rstrip (s : string) : string :=
  match s with
  | EmptyString => EmptyString
  | String c s' =>
      match rstrip s' with
      | EmptyString => if is_py_space c then EmptyString else String c EmptyString
      | r => String c r
      end
  end.

(** [s.lstrip()] *)
Fixpoint lstrip (s : string) : string :=
  match s with
  | String c s' => if is_py_space c then lstrip s' else s
  | EmptyString => s
  end.

(** Put a character in front of the field that is currently open. *)
Definition cons_head (c : ascii) (l : list string) : list string :=
  match l with
  | [] => [String c ""]
  | h :: t => String c h :: t
  end.

(** [s.split(sep)] for a one-character separator. *)
Fixpoint split (sep : ascii) (s : string) : list string :=
  match s with
  | EmptyString => [""]
  | String c s' =>
      if decide (c = sep) then "" :: split sep s' else cons_head c (split sep s')
  end.

(** [sep.join(l)] *)
Fixpoint join (sep : string) (l : list string) : string :=
  match l with
  | [] => ""
  | [x] => x
  | x :: l' => x +:+ sep +:+ join sep l'
  end.

(** [re.split(r' +', s)]: [in_run] tells that the previous character
    belonged to a separator run. *)
Fixpoint re_split_spaces (in_run : bool) (s : string) : list string :=
  match s with
  | EmptyString => [""]
  | String c s' =>
      if decide (c = sp_char) then
        if in_run then re_split_spaces true s' else "" :: re_split_spaces true s'
      else cons_head c (re_split_spaces false s')
  end.

(** [re.split(r' {2,100}', s)]: a separator is a greedy run of 2 to 100
    blanks; [k] is the number of blanks the separator being read may still
    take. *)
Fixpoint re_split_wide (k : nat) (s : string) : list string :=
  match s with
  | EmptyString => [""]
  | String c s' =>
      if decide (c = sp_char) then
        match k with
        | S k' => re_split_wide k' s'
        | O =>
            match s' with
            | String c2 s'' =>
                if decide (c2 = sp_char) then "" :: re_split_wide 98 s''
                else cons_head c (re_split_wide 0 s')
            | EmptyString => cons_head c (re_split_wide 0 s')
            end
        end
      else cons_head c (re_split_wide 0 s')
  end.

(** [s[n]] on a string: the one-character string at index [n], or nothing
    where Python raises [IndexError]. *)
Fixpoint index (s : string) (n : nat) : option string :=
  match s, n with
  | EmptyString, _ => None
  | String c _, O => Some (String c "")
  | String _ s', S n' => index s' n'
  end.

(** [str(z)] for an integer. *)
Definition of_Z (z : Z) : string := NilZero.string_of_int (Z.to_int z).

(** *** [textwrap.dedent] *)

Definition is_blank (c : ascii) : bool :=
  bool_decide (c = sp_char) || bool_decide (c = tab_char).

Fixpoint all_blank (s : string) : bool :=
  match s with
  | EmptyString => true
  | String c s' => is_blank c && all_blank s'
  end.

(** [_whitespace_only_re.sub('', text)], line by line. *)
Definition blank_to_empty (line : string) : string :=
  if all_blank line then "" else line.

(** The group captured by [_leading_whitespace_re] on one line. *)
Fixpoint leading_blanks (line : string) : string :=
  match line with
  | EmptyString => ""
  | String c s' => if is_blank c then String c (leading_blanks s') else ""
  end.

Fixpoint common_prefix (a b : string) : string :=
  match a, b with
  | String x a', String y b' =>
      if decide (x = y) then String x (common_prefix a' b') else ""
  | _, _ => ""
  end.

(** One round of the loop over [indents] in [dedent]. *)
Definition margin_step (margin : option string) (indent : string) : option string :=
  match margin with
  | None => Some indent
  | Some m =>
      if startswith m indent then Some m
      else if startswith indent m then Some indent
      else Some (common_prefix m indent)
  end.

Fixpoint drop_prefix (p s : string) : string :=
  match p, s with
  | String a p', String b s' => if decide (a = b) then drop_prefix p' s' else s
  | _, _ => s
  end.

(** [re.sub(r'(?m)^' + margin, '', text)], line by line. *)
Definition strip_margin (m line : string) : string :=
  if startswith m line then drop_prefix m line else line.

Definition dedent (text : string) : string :=
  let lines := blank_to_empty <$> split nl_char text in
  let indents := leading_blanks <$> filter (λ l, l ≠ "") lines in
  match foldl margin_step None indents with
  | Some (String c m) => join nl (strip_margin (String c m) <$> lines)
  | _ => join nl lines
  end.

End PyStr.

(** ** Python values that reach the module's functions *)

(** A [multiprocessing.pool.ApplyResult]; the number stands for the object's
    identity. *)
Record apply_result := ApplyResult { ar_id : nat }.

Inductive atom :=
  | ANone
  | AStr (s : string)
  | AInt (z : Z)
  | AResult (r : apply_result).

(** An argument that may be one value, a list or a tuple. *)
Inductive pyarg :=
  | One (a : atom)
  | PyList (l : list atom)
  | PyTuple (l : list atom).

Global Instance apply_result_eq_dec : EqDecision apply_result.
Proof. solve_decision. Defined.
Global Instance atom_eq_dec : EqDecision atom.
Proof. solve_decision. Defined.

(** Truth value of a value in an [if]. *)
Definition atom_truthy (a : atom) : bool :=
  match a with
  | ANone => false
  | AStr s => bool_decide (s ≠ "")
  | AInt z => bool_decide (z ≠ 0)
  | AResult _ => true
  end.

Definition truthy (v : pyarg) : bool :=
  match v with
  | One a => atom_truthy a
  | PyList l | PyTuple l => bool_decide (l ≠ [])
  end.

(** [str(v)], also what ['{}'.format(v)] renders. *)
Definition py_str (a : atom) : string :=
  match a with
  | ANone => "None"
  | AStr s => s
  | AInt z => PyStr.of_Z z
  | AResult r =>
      "<multiprocessing.pool.ApplyResult object at " +:+
      PyStr.of_Z (Z.of_nat (ar_id r)) +:+ ">"
  end.

(** [int(s)] on a string: surrounding white space, an optional sign,
    decimal digits with single underscores between them. *)
Module PyInt.
(** The white space [int()] skips around the number: tab, line feed,
    vertical tab, form feed, carriage return and blank.  The separators
    0x1c-0x1f, which [str.strip()] removes, are not among them:
    [int('\x1c7')] raises [ValueError]. *)
Definition is_space (c : ascii) : bool :=
  let n := nat_of_ascii c in
  ((9 <=? n)%nat && (n <=? 13)%nat) || (n =? 32)%nat.

Fixpoint lstrip (s : string) : string :=
  match s with
  | String c s' => if is_space c then lstrip s' else s
  | EmptyString => s
  end.

Fixpoint rstrip (s : string) : string :=
  match s with
  | EmptyString => EmptyString
  | String c s' =>
      match rstrip s' with
      | EmptyString => if is_space c then EmptyString else String c EmptyString
      | r => String c r
      end
  end.

Fixpoint digits (acc : Z) (prev_digit : bool) (s : string) : option Z :=
  match s with
  | EmptyString => if prev_digit then Some acc else None
  | String c s' =>
      match Ascii.is_nat c with
      | Some d => digits (10 * acc + Z.of_nat d) true s'
      | None =>
          if bool_decide (c = "_"%char) && prev_digit
          then digits acc false s'
          else None
      end
  end.

Definition parse (s : string) : option Z :=
  match lstrip (rstrip s) with
  | String "-" r => Z.opp <$> digits 0 false r
  | String "+" r => digits 0 false r
  | t => digits 0 false t
  end.
End PyInt.

(** ** Exceptions, events and the world *)

Inductive exn :=
  | ClusterError (msg : string)
  | CalledProcessError
  | IndexError
  | ValueError
  | TypeError
  | FileNotFoundError
  | PyException (msg : string).

(** What the module does to the outside, in the order it happens. *)
Inductive event :=
  | EvLog (msg level : string)
  | EvSleep (secs : nat)
  | EvExec (argv : list string)
  | EvWrite (path content : string)
  | EvRemove (name : string)
  | EvPool (threads : option atom)
  | EvApplyAsync (command stdout stderr : string)
  | EvJobWait (r : apply_result).

Global Instance exn_eq_dec : EqDecision exn.
Proof. solve_decision. Defined.
Global Instance event_eq_dec : EqDecision event.
Proof. solve_decision. Defined.

Inductive node := RegularFile | Directory.

(** The worker pool held by the global [POOL]. *)
Record pool := Pool { pool_threads : option atom; pool_submitted : nat }.

Record world := World {
  QUEUE : string;                 (* the module global QUEUE *)
  POOL : option pool;             (* the module global POOL, None at import *)
  trace : list event;             (* events so far, oldest first *)
  nexec : nat;                    (* calls of check_output so far *)
  cwd : gmap string node          (* entries of the current directory *)
}.

(** The state of the module right after import. *)
Definition initial_world (dir : gmap string node) : world :=
  {| QUEUE := "normal"; POOL := None; trace := []; nexec := 0; cwd := dir |}.

(** What the module asks of its surroundings. *)
Record env := Env {
  which : string → bool;                       (* is run.which(prog) found *)
  abspath : string → string;                   (* os.path.abspath *)
  listdir : string → list string;              (* os.listdir *)
  listdir_error : string → option exn;         (* the error os.listdir raises
                                                  on the path instead of
                                                  returning (no such
                                                  directory, not a directory,
                                                  no permission), if any *)
  tool : nat → list string → option string     (* check_output: the output of
                                                  the n-th call, None when the
                                                  program exits non-zero *)
}.

(** Result of running a computation: a value, an exception, or the loop
    budget ran out before the computation finished. *)
Inductive outcome (A : Type) :=
  | Ok (a : A)
  | Raise (e : exn)
  | OutOfFuel.
Arguments Ok {A} a.
Arguments Raise {A} e.
Arguments OutOfFuel {A}.

Definition M (A : Type) : Type := world → outcome A * world.

Definition ret {A} (a : A) : M A := λ w, (Ok a, w).
Definition raise {A} (e : exn) : M A := λ w, (Raise e, w).
Definition out_of_fuel {A} : M A := λ w, (OutOfFuel, w).
Definition bind {A B} (m : M A) (k : A → M B) : M B :=
  λ w, match m w with
       | (Ok a, w') => k a w'
       | (Raise e, w') => (Raise e, w')
       | (OutOfFuel, w') => (OutOfFuel, w')
       end.
Definition lift {A} (o : outcome A) : M A := λ w, (o, w).

Declare Scope py_scope.
Delimit Scope py_scope with py.
Notation "'let*' x ':=' m 'in' k" := (bind m (λ x, k))
  (at level 10, x name, m at level 100, k at level 200) : py_scope.
Local Open Scope py_scope.

(** The same for computations that touch nothing. *)
Definition bind_pure {A B} (o : outcome A) (k : A → outcome B) : outcome B :=
  match o with
  | Ok a => k a
  | Raise e => Raise e
  | OutOfFuel => OutOfFuel
  end.
Notation "'let+' x ':=' o 'in' k" := (bind_pure o (λ x, k))
  (at level 10, x name, o at level 100, k at level 200) : py_scope.

(** [try: m except <caught>: handler] *)
Definition try_except {A} (m : M A) (caught : exn → bool) (handler : exn → M A) : M A :=
  λ w, match m w with
       | (Raise e, w') => if caught e then handler e w' else (Raise e, w')
       | r => r
       end.

Definition is_CalledProcessError (e : exn) : bool :=
  match e with CalledProcessError => true | _ => false end.

(** The world after further events. *)
Definition add_events (es : list event) (w : world) : world :=
  {| QUEUE := QUEUE w; POOL := POOL w; trace := trace w ++ es;
     nexec := nexec w; cwd := cwd w |}.

(** The world after one more call of [check_output]. *)
Definition add_exec (argv : list string) (w : world) : world :=
  {| QUEUE := QUEUE w; POOL := POOL w; trace := trace w ++ [EvExec argv];
     nexec := S (nexec w); cwd := cwd w |}.

Definition emit (e : event) : M unit := λ w, (Ok (), add_events [e] w).
Definition get_QUEUE : M string := λ w, (Ok (QUEUE w), w).
Definition set_QUEUE (q : string) : M unit :=
  λ w, (Ok (), {| QUEUE := q; POOL := POOL w; trace := trace w;
                  nexec := nexec w; cwd := cwd w |}).
Definition get_POOL : M (option pool) := λ w, (Ok (POOL w), w).
Definition set_POOL (p : pool) : M unit :=
  λ w, (Ok (), {| QUEUE := QUEUE w; POOL := Some p; trace := trace w;
                  nexec := nexec w; cwd := cwd w |}).

Definition sleep (secs : nat) : M unit := emit (EvSleep secs).
Definition log (msg level : string) : M unit := emit (EvLog msg level).

(** [for x in l: body x] *)
Fixpoint for_each {A} (l : list A) (body : A → M unit) : M unit :=
  match l with
  | [] => ret ()
  | x :: l' => let* _ := body x in for_each l' body
  end.

(** [l[n]] on a list, [IndexError] when out of range. *)
Definition list_item {A} (l : list A) (n : nat) : outcome A :=
  match l !! n with
  | Some x => Ok x
  | None => Raise IndexError
  end.

(** [s[n]] on a string. *)
Definition str_item (s : string) (n : nat) : outcome string :=
  match PyStr.index s n with
  | Some c => Ok c
  | None => Raise IndexError
  end.

(** ** The module's functions *)

Definition ALLOWED_QUEUES : list string := ["torque"; "slurm"; "normal"].

(** [check_queue()] *)
Definition check_queue : M unit :=
  let* q := get_QUEUE in
  if decide (q ∈ ALLOWED_QUEUES) then ret ()
  else raise (ClusterError ("QUEUE value " +:+ q +:+ " is not recognized, " +:+
                            "should be: normal, torque, or slurm")).

(** [os.path.join(a, b)] *)
Definition path_join (a b : string) : string :=
  if PyStr.startswith "/" b then b
  else if bool_decide (a = "") || PyStr.endswith a "/" then a +:+ b
  else a +:+ "/" +:+ b.

(** *** Polling: the pure part of one cycle *)

(** Lines 184-186: the three filters of the slurm branch. *)
Definition slurm_trim (complete failed all jobs : list string) : list string :=
  let jobs := filter (λ i, i ∉ all) jobs in
  let jobs := filter (λ i, i ∉ complete) jobs in
  filter (λ i, i ∉ failed) jobs.

(** [[i[0] for i in q if i[1] == code]] *)
Fixpoint slurm_select (code : string) (q : list string) : outcome (list string) :=
  match q with
  | [] => Ok []
  | i :: q' =>
      let+ st := str_item i 1 in
      if decide (st = code) then
        let+ h := str_item i 0 in
        let+ r := slurm_select code q' in
        Ok (h :: r)
      else slurm_select code q'
  end.

(** [[i[0] for i in q]] *)
Fixpoint slurm_all (q : list string) : outcome (list string) :=
  match q with
  | [] => Ok []
  | i :: q' =>
      let+ h := str_item i 0 in
      let+ r := slurm_all q' in
      Ok (h :: r)
  end.

(** Lines 177-186 once [check_output] has returned [out]: the tracked jobs
    after this cycle. *)
Definition slurm_poll (out : string) (jobs : list string) : outcome (list string) :=
  let q := PyStr.split ","%char (PyStr.rstrip out) in
  let+ complete := slurm_select "CD" q in
  let+ failed := slurm_select "F" q in
  let+ all := slurm_all q in
  Ok (slurm_trim complete failed all jobs).

(** [s.split(j)[0].split('.')[0]] for a row [j] of the qstat table. *)
Definition torque_job_id (j : string) : string :=
  match PyStr.re_split_spaces false j with
  | i0 :: _ =>
      match PyStr.split "."%char i0 with
      | h :: _ => h
      | [] => ""
      end
  | [] => ""
  end.

(** Lines 155-159: the IDs of the rows whose tenth field is ['C']. *)
Fixpoint torque_complete (rows : list string) : outcome (list string) :=
  match rows with
  | [] => Ok []
  | j :: rows' =>
      let+ st := list_item (PyStr.re_split_spaces false j) 9 in
      let+ r := torque_complete rows' in
      Ok (if decide (st = "C") then torque_job_id j :: r else r)
  end.

(** Line 161 *)
Definition torque_all (rows : list string) : list string :=
  torque_job_id <$> rows.

(** Lines 163-164: the two filters of the torque branch. *)
Definition torque_trim (complete all jobs : list string) : list string :=
  let jobs := filter (λ j, j ∈ all) jobs in
  filter (λ j, j ∉ complete) jobs.

(** Lines 144 and 151-164 once [check_output] has returned [out]. *)
Definition torque_poll (out : string) (jobs : list string) : outcome (list string) :=
  let q := PyStr.split nl_char (PyStr.rstrip out) in
  let+ header := list_item q 3 in
  let+ col := list_item (PyStr.re_split_wide 0 header) 9 in
  if decide (col = "S") then
    let+ complete := torque_complete (drop 5 q) in
    Ok (torque_trim complete (torque_all (drop 5 q)) jobs)
  else Raise (ClusterError "Unrecognized torque qstat format").

Section Cluster.
Context (E : env).

(** [check_output(argv).decode()]: raises [CalledProcessError] when the
    program exits non-zero. *)
Definition check_output (argv : list string) : M string :=
  λ w, match tool E (nexec w) argv with
       | Some out => (Ok out, add_exec argv w)
       | None => (Raise CalledProcessError, add_exec argv w)
       end.

(** [get_cluster_environment()] *)
Definition get_cluster_environment : M string :=
  let* _ := (if which E "sbatch" then set_QUEUE "slurm"
             else if which E "qsub" then set_QUEUE "torque"
             else set_QUEUE "local") in
  let* q := get_QUEUE in
  let* _ := (if bool_decide (q = "slurm") || bool_decide (q = "torque")
             then log (q +:+ " detected, using for cluster submissions") "debug"
             else log "No cluster environment detected, using multiprocessing"
                      "debug") in
  ret q.

(** *** wait *)

(** Lines 123-126 *)
Definition check_job_type (job : atom) : M unit :=
  match job with
  | AStr _ | AInt _ | AResult _ => ret ()
  | ANone =>
      raise (ClusterError ("job must be int, string, or ApplyResult, " +:+
                           "is <class 'NoneType'>"))
  end.

(** Lines 129-132 *)
Definition wait_normal_job (job : atom) : M unit :=
  match job with
  | AResult r => emit (EvJobWait r)
  | _ => raise (ClusterError "jobs must be ApplyResult objects")
  end.

(** Lines 141-167: the [while True] of the torque branch, at most [fuel]
    rounds. *)
Fixpoint wait_torque (fuel : nat) (jobs : list string) : M unit :=
  match fuel with
  | O => out_of_fuel
  | S fuel' =>
      let c := 0%nat in
      let* q :=
        try_except
          (let* out := check_output ["qstat"; "-a"] in ret (Some out))
          is_CalledProcessError
          (λ e, if decide (c = 5%nat) then raise e
                else let c := (c + 1)%nat in
                     let* _ := sleep 2 in ret None) in
      match q with
      | None => wait_torque fuel' jobs
      | Some out =>
          let* jobs := lift (torque_poll out jobs) in
          if decide (length jobs = 0%nat) then ret ()
          else let* _ := sleep 2 in wait_torque fuel' jobs
      end
  end.

(** Lines 175-189: the [while True] of the slurm branch. *)
Fixpoint wait_slurm (fuel : nat) (jobs : list string) : M unit :=
  match fuel with
  | O => out_of_fuel
  | S fuel' =>
      let* out := check_output ["squeue"; "-h"; "-o"; "'%A,%t'"] in
      let* jobs := lift (slurm_poll out jobs) in
      if decide (length jobs = 0%nat) then ret ()
      else let* _ := sleep 2 in wait_slurm fuel' jobs
  end.

(** [wait(jobs)]; [fuel] bounds the rounds of the polling loop. *)
Definition wait (fuel : nat) (jobs : pyarg) : M unit :=
  let* _ := check_queue in
  let jobs := match jobs with
              | PyList l | PyTuple l => l
              | One a => [a]
              end in
  let* _ := for_each jobs check_job_type in
  let* q := get_QUEUE in
  if decide (q = "normal") then for_each jobs wait_normal_job
  else if decide (q = "torque") then
    let* _ := sleep 5 in
    wait_torque fuel (py_str <$> jobs)
  else if decide (q = "slurm") then
    let* _ := sleep 2 in
    wait_slurm fuel (py_str <$> jobs)
  else ret ().

(** *** submit_file *)

(** Lines 254-259.  A value that is false in [if dependencies:] is left as
    it is and stays false in the later tests; the empty list stands for
    it. *)
Definition sanitize_dependencies (dependencies : pyarg) : outcome (list string) :=
  if truthy dependencies then
    let dependencies :=
      match dependencies with
      | One (AStr s) => PyList [AStr s]
      | One (AInt z) => PyList [AInt z]
      | d => d
      end in
    match dependencies with
    | PyList l | PyTuple l => Ok (py_str <$> l)
    | One _ => Raise (PyException "dependencies must be a list, int, or string.")
    end
  else Ok [].

Definition parse_int (s : string) : outcome Z :=
  match PyInt.parse s with
  | Some z => Ok z
  | None => Raise ValueError
  end.

(** [int(out.rstrip().split(' ')[-1])] *)
Definition slurm_job_id (out : string) : outcome Z :=
  match last (PyStr.split sp_char (PyStr.rstrip out)) with
  | Some t => parse_int t
  | None => Raise IndexError
  end.

(** [int(out.rstrip().split('.')[0])] *)
Definition torque_submit_id (out : string) : outcome Z :=
  let+ t := list_item (PyStr.split "."%char (PyStr.rstrip out)) 0 in
  parse_int t.

(** Lines 269-280 and 289-300: the submission loop, [count] as in the
    source. *)
Fixpoint submit_loop (fuel : nat) (args : list string)
    (job_id : string → outcome Z) (count : nat) : M Z :=
  match fuel with
  | O => out_of_fuel
  | S fuel' =>
      let* r :=
        try_except
          (let* out := check_output args in
           let* job := lift (job_id out) in
           ret (Some job))
          is_CalledProcessError
          (λ e, if decide (count = 5%nat) then raise e
                else let* _ := sleep 1 in ret None) in
      match r with
      | Some job => ret job
      | None => submit_loop fuel' args job_id (count + 1)
      end
  end.

(** [Pool(threads) if threads else Pool()] (line 304): the number of
    workers the new pool is given, [None] for one per processor.  The
    constructor tests [processes < 1]: it raises [ValueError] for a count
    below one and [TypeError] for a value that is not a number. *)
Definition pool_size (threads : atom) : outcome (option atom) :=
  if atom_truthy threads then
    match threads with
    | AInt n => if decide (n < 1) then Raise ValueError else Ok (Some threads)
    | _ => Raise TypeError
    end
  else Ok None.

(** [submit_file(script_file, name, dependencies, threads)] *)
Definition submit_file (fuel : nat) (script_file : string) (name : atom)
    (dependencies : pyarg) (threads : atom) : M atom :=
  let* _ := check_queue in
  let name := py_str name in
  let* dependencies := lift (sanitize_dependencies dependencies) in
  let* q := get_QUEUE in
  if decide (q = "slurm") then
    let args :=
      match dependencies with
      | [] => ["sbatch"; script_file]
      | _ => ["sbatch";
              "--dependency=afterok:" +:+ PyStr.join ":" dependencies;
              script_file]
      end in
    let* job := submit_loop fuel args slurm_job_id 0 in
    ret (AInt job)
  else if decide (q = "torque") then
    let args :=
      match dependencies with
      | [] => ["qsub"; script_file]
      | _ => ["qsub";
              "-W depend=" +:+
                PyStr.join "," ((λ d, "afterok:" +:+ d) <$> dependencies);
              script_file]
      end in
    let* job := submit_loop fuel args torque_submit_id 0 in
    ret (AInt job)
  else if decide (q = "normal") then
    let* p := get_POOL in
    let* p := match p with
              | Some p => ret p
              | None =>
                  let* size := lift (pool_size threads) in
                  let p := Pool size 0 in
                  let* _ := emit (EvPool (pool_threads p)) in
                  let* _ := set_POOL p in
                  ret p
              end in
    let command := "bash " +:+ script_file in
    let* _ := emit (EvApplyAsync command (name +:+ ".cluster.out")
                                 (name +:+ ".cluster.err")) in
    let* _ := set_POOL (Pool (pool_threads p) (S (pool_submitted p))) in
    ret (AResult (ApplyResult (pool_submitted p)))
  else ret ANone.

(** *** make_job_file *)

Definition module_line (module : atom) : string :=
  "module load " +:+ py_str module +:+ nl.

(** The text handed to [dedent] on lines 342-346, after [format]. *)
Definition preamble_text (usedir name : string) : string :=
  "        cd " +:+ usedir +:+ nl +:+
  "        date +'%d-%H:%M:%S'" +:+ nl +:+
  "        echo " +:+ dquote +:+ "Running " +:+ name +:+ dquote +:+ nl +:+
  "        ".

Definition preamble (usedir name : string) : string :=
  PyStr.dedent (preamble_text usedir name).

(** Lines 347-354 *)
Definition pstcmd : string :=
  PyStr.dedent
    ("        exitcode=$?" +:+ nl +:+
     "        echo Done" +:+ nl +:+
     "        date +'%d-%H:%M:%S'" +:+ nl +:+
     "        if [[ $exitcode != 0 ]]; then" +:+ nl +:+
     "            echo Exited with code: $? >&2" +:+ nl +:+
     "        fi" +:+ nl +:+
     "        ").

(** Lines 339-346 *)
Definition precmd (modules : list atom) (usedir name : string) : string :=
  foldl (λ acc module, acc +:+ module_line module) "" modules +:+
  preamble usedir name.

(** [outfile.write(fmt.format(v))] guarded by [if v:] *)
Definition optional_line (before : string) (v : atom) (after : string) : string :=
  if atom_truthy v then before +:+ py_str v +:+ after else "".

Definition sbatch_text (usedir name : string) (time cores mem partition : atom) : string :=
  "#!/bin/bash" +:+ nl +:+
  optional_line "#SBATCH -p " partition nl +:+
  "#SBATCH --ntasks 1" +:+ nl +:+
  "#SBATCH --cpus-per-task " +:+ py_str cores +:+ nl +:+
  optional_line "#SBATCH --time=" time nl +:+
  optional_line "#SBATCH --mem=" mem nl +:+
  "#SBATCH -o " +:+ name +:+ ".cluster.out" +:+ nl +:+
  "#SBATCH -e " +:+ name +:+ ".cluster.err" +:+ nl +:+
  "cd " +:+ usedir +:+ nl +:+
  "srun bash " +:+ path_join usedir name +:+ ".script" +:+ nl.

Definition slurm_script_text (command pre : string) : string :=
  "#!/bin/bash" +:+ nl +:+
  "mkdir -p $LOCAL_SCRATCH" +:+ nl +:+
  pre +:+ command +:+ nl +:+ pstcmd.

(** Lines 381-390: the directives of the qsub file. *)
Definition qsub_directives (name : string) (time cores mem partition : atom) : string :=
  "#!/bin/bash" +:+ nl +:+
  optional_line "#PBS -q " partition nl +:+
  "#PBS -l nodes=1:ppn=" +:+ py_str cores +:+ nl +:+
  optional_line "#PBS -l walltime=" time nl +:+
  optional_line "#PBS mem=" mem ("MB" +:+ nl) +:+
  "#PBS -o " +:+ name +:+ ".cluster.out" +:+ nl +:+
  "#PBS -e " +:+ name +:+ ".cluster.err" +:+ nl +:+ nl.

Definition qsub_text (command pre name : string) (time cores mem partition : atom) : string :=
  qsub_directives name time cores mem partition +:+
  "mkdir -p $LOCAL_SCRATCH" +:+ nl +:+
  pre +:+ command +:+ nl +:+ pstcmd.

Definition normal_text (command pre : string) : string :=
  "#!/bin/bash" +:+ nl +:+ pre +:+ command +:+ nl +:+ pstcmd.

(** [make_job_file(command, name, time, cores, mem, partition, modules,
    path)]; [path] is [None] or a string. *)
Definition make_job_file (command : string) (name : atom)
    (time cores mem partition : atom) (modules : pyarg)
    (path : option string) : M string :=
  let* _ := check_queue in
  let name := py_str name in
  let cores := if atom_truthy cores then cores else AInt 1 in
  let modules := match modules with
                 | One (AStr s) => PyList [AStr s]
                 | m => m
                 end in
  let usedir := match path with
                | Some (String c p) => abspath E (String c p)
                | _ => abspath E "."
                end in
  let* modules := match modules with
                  | PyList l | PyTuple l => ret l
                  | One _ => raise TypeError
                  end in
  let pre := precmd modules usedir name in
  let* q := get_QUEUE in
  if decide (q = "slurm") then
    let scrpt := path_join usedir (name +:+ ".cluster.sbatch") in
    let* _ := emit (EvWrite scrpt (sbatch_text usedir name time cores mem partition)) in
    let* _ := emit (EvWrite (path_join usedir (name +:+ ".script"))
                            (slurm_script_text command pre)) in
    ret scrpt
  else if decide (q = "torque") then
    let scrpt := path_join usedir (name +:+ ".cluster.qsub") in
    let* _ := emit (EvWrite scrpt (qsub_text command pre name time cores mem partition)) in
    ret scrpt
  else if decide (q = "normal") then
    let scrpt := path_join usedir (name +:+ ".cluster") in
    let* _ := emit (EvWrite scrpt (normal_text command pre)) in
    ret scrpt
  else raise (PyException "UnboundLocalError").

(** [submit(command, name, threads, time, cores, mem, partition, modules,
    path, dependencies)] *)
Definition submit (fuel : nat) (command : string) (name : atom)
    (threads time cores mem partition : atom) (modules : pyarg)
    (path : option string) (dependencies : pyarg) : M atom :=
  let* _ := check_queue in
  let* q := get_QUEUE in
  if bool_decide (q = "slurm") || bool_decide (q = "torque") then
    let* script := make_job_file command name time cores mem partition modules path in
    submit_file fuel script ANone dependencies ANone
  else if decide (q = "normal") then
    let* script := make_job_file command name ANone (AInt 1) ANone ANone (PyList []) None in
    submit_file fuel script name (One ANone) threads
  else ret ANone.

(** *** clean *)

(** The suffixes [clean] looks for, lines 428-434. *)
Definition extensions (q : string) : list string :=
  let extensions := [".cluster.err"; ".cluster.out"] in
  if decide (q = "normal") then extensions ++ [".cluster"]
  else if decide (q = "slurm") then extensions ++ [".cluster.sbatch"; ".cluster.script"]
  else if decide (q = "torque") then extensions ++ [".cluster.qsub"]
  else extensions.

(** [os.path.isfile(i)] for a bare name: looked up in the current
    directory. *)
Definition isfile (w : world) (i : string) : bool :=
  match cwd w !! i with
  | Some RegularFile => true
  | _ => false
  end.

(** [os.remove(f)] for a bare name: removes the entry of the current
    directory. *)
Definition os_remove (f : string) : M unit :=
  λ w, match cwd w !! f with
       | Some RegularFile =>
           (Ok (), {| QUEUE := QUEUE w; POOL := POOL w;
                      trace := trace w ++ [EvRemove f];
                      nexec := nexec w; cwd := delete f (cwd w) |})
       | Some Directory => (Raise (PyException "IsADirectoryError"), w)
       | None => (Raise FileNotFoundError, w)
       end.

(** Lines 445-448, the inner loop for one file. *)
Fixpoint clean_file (f : string) (exts : list string) (deleted : list string)
    : M (list string) :=
  match exts with
  | [] => ret deleted
  | extension :: exts' =>
      if PyStr.endswith f extension then
        let* _ := os_remove f in
        clean_file f exts' (deleted ++ [f])
      else clean_file f exts' deleted
  end.

(** Lines 444-448, the outer loop. *)
Fixpoint clean_files (files exts : list string) (deleted : list string)
    : M (list string) :=
  match files with
  | [] => ret deleted
  | f :: files' =>
      let* deleted := clean_file f exts deleted in
      clean_files files' exts deleted
  end.

(** [os.listdir(path)] *)
Definition os_listdir (path : string) : M (list string) :=
  match listdir_error E path with
  | Some e => raise e
  | None => ret (listdir E path)
  end.

(** [clean(directory)] *)
Definition clean (directory : string) : M (list string) :=
  let* _ := check_queue in
  let* q := get_QUEUE in
  let extensions := extensions q in
  let* names := os_listdir (abspath E directory) in
  let* files := (λ w, (Ok (filter (λ i, isfile w i = true) names), w)) in
  match files with
  | [] => let* _ := log "No files found." "debug" in ret []
  | _ => clean_files files extensions []
  end.
End Cluster.

(** The module's default arguments. *)
Definition no_modules : pyarg := PyList [].
Definition no_dependencies : pyarg := One ANone.

(** ** Scenarios used in the statements below *)

(** A host on which [run.which] finds neither [sbatch] nor [qsub]. *)
Definition no_scheduler_env (ab : string → string) (ls : string → list string)
    (tl : nat → list string → option string) : env :=
  {| which := λ _, false; abspath := ab; listdir := ls;
     listdir_error := λ _, None; tool := tl |}.

(** The world [get_cluster_environment()] leaves behind on such a host. *)
Definition detected_world ab ls tl (w : world) : world :=
  (get_cluster_environment (no_scheduler_env ab ls tl) w).2.

(** A host whose external programs exit non-zero on every call. *)
Definition failing_tool_env (wh : string → bool) (ab : string → string)
    (ls : string → list string) : env :=
  {| which := wh; abspath := ab; listdir := ls;
     listdir_error := λ _, None; tool := λ _ _, None |}.

(** What a submission that fails throughout leaves in the trace. *)
Definition failed_submission_trace (args : list string) : list event :=
  [EvExec args; EvSleep 1; EvExec args; EvSleep 1; EvExec args; EvSleep 1;
   EvExec args; EvSleep 1; EvExec args; EvSleep 1; EvExec args].

(** The number of program calls in a trace. *)
Definition is_exec (e : event) : bool :=
  match e with EvExec _ => true | _ => false end.
Definition count_exec (tr : list event) : nat :=
  length (filter (λ e, is_exec e = true) tr).

(** The files a trace writes, in order. *)
Definition written_files (tr : list event) : list (string * string) :=
  omap (λ e, match e with EvWrite path content => Some (path, content) | _ => None end) tr.

(** [os.path.basename(p)] *)
Definition basename (p : string) : string :=
  default "" (last (PyStr.split "/"%char p)).

(** A host without schedulers whose current directory is [/home/user]. *)
Definition home_env : env :=
  {| which := λ _, false; abspath := λ _, "/home/user"; listdir := λ _, [];
     listdir_error := λ _, None;
     tool := λ _ _, None |}.

(** The world after import with [QUEUE] set by hand, as the module's
    docstring allows. *)
Definition world_with_queue (q : string) : world :=
  {| QUEUE := q; POOL := None; trace := []; nexec := 0; cwd := ∅ |}.

(** The string has no line break in it. *)
Fixpoint no_newline (s : string) : bool :=
  match s with
  | EmptyString => true
  | String c s' => bool_decide (c ≠ nl_char) && no_newline s'
  end.

(** The rows of a [qstat -a] table as [wait] cuts them out: the lines from
    the sixth on. *)
Definition torque_rows (out : string) : list string :=
  drop 5 (PyStr.split nl_char (PyStr.rstrip out)).

(** The tenth field of a row, the state column. *)
Definition torque_row_state (row : string) : option string :=
  PyStr.re_split_spaces false row !! 9%nat.

(** A [qstat -a] table: five lines of heading, then one row per job. *)
Definition qstat_heading : list string :=
  [""; "head.cluster:";
   "                                                        Req'd    Req'd      Elap";
   "Job ID        Username  Queue  Jobname  SessID  NDS  TSK  Memory  Time  S  Time";
   "------------  --------  -----  -------  ------  ---  ---  ------  -----  -  -----"].

Definition qstat_row (id state : string) : string :=
  id +:+ ".head      alice     batch  job1     4242    1    1    --      01:00  " +:+
  state +:+ "  00:10".

Definition qstat_output (rows : list string) : string :=
  PyStr.join nl (qstat_heading ++ rows) +:+ nl.

(** A scheduler host whose status and submission programs print [out] on
    every call. *)
Definition steady_env (out : string) : env :=
  {| which := λ _, true; abspath := λ _, "/home/user"; listdir := λ _, [];
     listdir_error := λ _, None;
     tool := λ _ _, Some out |}.

(** A host whose first program call exits non-zero and whose later calls
    print [out]. *)
Definition flaky_env (out : string) : env :=
  {| which := λ _, true; abspath := λ _, "/home/user"; listdir := λ _, [];
     listdir_error := λ _, None;
     tool := λ n _, match n with O => None | S _ => Some out end |}.

(** What [squeue -h -o "'%A,%t'"] prints for jobs 100 and 101 in the given
    states, one line per job. *)
Definition squeue_output (state100 state101 : string) : string :=
  "'100," +:+ state100 +:+ "'" +:+ nl +:+ "'101," +:+ state101 +:+ "'" +:+ nl.

(** The listing of the scenario: first jobs 100 (running) and 101
    (completed), from the second query on job 100 alone. *)
Definition scenario_env : env :=
  {| which := λ _, true; abspath := λ _, "/home/user"; listdir := λ _, [];
     listdir_error := λ _, None;
     tool := λ n _, match n with
                    | O => Some (squeue_output "R" "CD")
                    | S _ => Some ("'100,R'" +:+ nl)
                    end |}.

Definition squeue_argv : list string := ["squeue"; "-h"; "-o"; "'%A,%t'"].

(** Is the value a [str] or an [int]. *)
Definition is_str_or_int (a : atom) : bool :=
  match a with
  | AStr _ | AInt _ => true
  | ANone | AResult _ => false
  end.

(** One [module load] line per module, in order. *)
Definition module_lines (modules : list atom) : string :=
  PyStr.join "" (module_line <$> modules).

(** Does the name end in one of the suffixes of the mode. *)
Definition has_extension (q : string) (f : string) : bool :=
  existsb (PyStr.endswith f) (extensions q).

(** The world after [os.remove] took the regular files [fs] out of the
    current directory. *)
Definition remove_all (fs : list string) (w : world) : world :=
  {| QUEUE := QUEUE w; POOL := POOL w; trace := trace w ++ (EvRemove <$> fs);
     nexec := nexec w; cwd := foldl (λ m f, delete f m) (cwd w) fs |}.

(** A host where [clean] is pointed at the directory [sub], which holds
    [a.cluster.out] and [notes.txt]. *)
Definition subdir_env : env :=
  {| which := λ _, false;
     abspath := λ d, "/home/user/" +:+ d;
     listdir := λ d, if decide (d = "/home/user/sub")
                     then ["a.cluster.out"; "notes.txt"] else [];
     listdir_error := λ _, None;
     tool := λ _ _, None |}.

(** Neither suffix ends in the other. *)
Definition incomparable (e e' : string) : Prop :=
  PyStr.endswith e e' = false ∧ PyStr.endswith e' e = false.

(** No two suffixes of the list can end the same name. *)
Fixpoint exclusive (exts : list string) : Prop :=
  match exts with
  | [] => True
  | e :: exts' => Forall (incomparable e) exts' ∧ exclusive exts'
  end.


(** ** Further notions used in the statements *)

(** The command line [submit_file] builds in mode [q] for the dependencies
    [deps], lines 262-267 and 282-287. *)
Definition submit_args (q : string) (deps : list string) (script : string) : list string :=
  if decide (q = "slurm") then
    match deps with
    | [] => ["sbatch"; script]
    | _ => ["sbatch"; "--dependency=afterok:" +:+ PyStr.join ":" deps; script]
    end
  else
    match deps with
    | [] => ["qsub"; script]
    | _ => ["qsub";
            "-W depend=" +:+ PyStr.join "," ((λ d, "afterok:" +:+ d) <$> deps);
            script]
    end.

(** How the job number is read from the program's output in mode [q],
    lines 272 and 292. *)
Definition submit_id (q : string) : string → outcome Z :=
  if decide (q = "slurm") then slurm_job_id else torque_submit_id.

(** [k] failed calls, each followed by a second of sleep, then one more
    call. *)
Definition retry_trace (k : nat) (args : list string) : list event :=
  concat (replicate k [EvExec args; EvSleep 1]) ++ [EvExec args].

(** The world after [k] more program calls that left the events [es]. *)
Definition after_calls (k : nat) (es : list event) (w : world) : world :=
  {| QUEUE := QUEUE w; POOL := POOL w; trace := trace w ++ es;
     nexec := k + nexec w; cwd := cwd w |}.

(** The world after a submission to the pool [p], which becomes or stays
    the module's pool. *)
Definition after_async (p : pool) (es : list event) (w : world) : world :=
  {| QUEUE := QUEUE w;
     POOL := Some (Pool (pool_threads p) (S (pool_submitted p)));
     trace := trace w ++ es; nexec := nexec w; cwd := cwd w |}.

(** The event of handing a script to the pool under the job name [name]. *)
Definition async_event (script : string) (name : atom) : event :=
  EvApplyAsync ("bash " +:+ script) (py_str name +:+ ".cluster.out")
               (py_str name +:+ ".cluster.err").

(** The pool [submit_file] creates when there is none, with the number of
    workers [Pool] accepted. *)
Definition new_pool (size : option atom) : pool := Pool size 0.

(** A value [wait] accepts as a job: a string, an integer or an
    [ApplyResult]. *)
Definition is_job (a : atom) : bool :=
  match a with
  | ANone => false
  | AStr _ | AInt _ | AResult _ => true
  end.

Definition qstat_argv : list string := ["qstat"; "-a"].

(** The lines of the status table as [wait] sees them. *)
Definition torque_lines (out : string) : list string :=
  PyStr.split nl_char (PyStr.rstrip out).

(** The columns of the heading line, the fourth line of the table. *)
Definition torque_header_columns (out : string) : option (list string) :=
  PyStr.re_split_wide 0 <$> (torque_lines out !! 3%nat).

(** A status table whose state column is headed [State] instead of [S]. *)
Definition odd_qstat_output : string :=
  PyStr.join nl
    [""; "head.cluster:"; "";
     "Job ID  Username  Queue  Jobname  SessID  NDS  TSK  Memory  Time  State  Time";
     "------  --------  -----  -------  ------  ---  ---  ------  ----  -----  ----";
     "100.head  alice  batch  job1  4242  1  1  --  01:00  R  00:10"] +:+ nl.

(** The current directory [clean] is tried on: two job files, a file of the
    user and a directory whose name ends like a job script. *)
Definition sample_cwd : gmap string node :=
  {[ "a.cluster.out" := RegularFile; "a.cluster" := RegularFile;
     "notes.txt" := RegularFile; "old.cluster" := Directory ]}.

(** A host whose listing of every directory is that of [sample_cwd]. *)
Definition cwd_env : env :=
  {| which := λ _, false; abspath := λ d, "/home/user/" +:+ d;
     listdir := λ _, ["a.cluster"; "a.cluster.out"; "notes.txt"; "old.cluster"];
     listdir_error := λ _, None;
     tool := λ _ _, None |}.


Definition sample_world : world :=
  {| QUEUE := "normal"; POOL := None; trace := []; nexec := 0; cwd := sample_cwd |}.


(** The scheduler [get_cluster_environment] picks when it finds one. *)
Definition detected_scheduler (E : env) : string :=
  if which E "sbatch" then "slurm" else "torque".

(** The number a row of decimal digits stands for, read from the left with
    [acc] as the value so far. *)
Fixpoint uint_value (acc : Z) (d : Decimal.uint) : Z :=
  match d with
  | Decimal.Nil => acc
  | Decimal.D0 l => uint_value (10 * acc + 0) l
  | Decimal.D1 l => uint_value (10 * acc + 1) l
  | Decimal.D2 l => uint_value (10 * acc + 2) l
  | Decimal.D3 l => uint_value (10 * acc + 3) l
  | Decimal.D4 l => uint_value (10 * acc + 4) l
  | Decimal.D5 l => uint_value (10 * acc + 5) l
  | Decimal.D6 l => uint_value (10 * acc + 6) l
  | Decimal.D7 l => uint_value (10 * acc + 7) l
  | Decimal.D8 l => uint_value (10 * acc + 8) l
  | Decimal.D9 l => uint_value (10 * acc + 9) l
  end.

(** A character that is neither white space nor a dot. *)
Definition plain_char (c : ascii) : bool :=
  negb (PyStr.is_py_space c) && bool_decide (c ≠ "."%char).

Fixpoint plain (s : string) : bool :=
  match s with
  | EmptyString => true
  | String c s' => plain_char c && plain s'
  end.


(** * bin/GetGeneASEbyReads.py: SNP tables and the phase of a read *)

Module GetGeneASE.

(** [s.strip()] *)
Definition strip (s : string) : string := PyStr.lstrip (PyStr.rstrip s).

(** [s.split()] with no argument: the words between runs of white space. *)
Fixpoint split_ws (s : string) : list string :=
  match s with
  | EmptyString => []
  | String c s' =>
      if PyStr.is_py_space c then split_ws s'
      else
        match s' with
        | EmptyString => [String c ""]
        | String c' _ =>
            if PyStr.is_py_space c' then String c "" :: split_ws s'
            else PyStr.cons_head c (split_ws s')
        end
  end.

(** [l.index(x)] on a list of strings; nothing where Python raises
    [ValueError]. *)
Fixpoint index_of (x : string) (l : list string) : option nat :=
  match l with
  | [] => None
  | y :: l' => if decide (y = x) then Some 0%nat else S <$> index_of x l'
  end.

(** Lines 59-61: the dictionary built from [true_hets.tsv], keyed by the
    tuple of the words of each line, every value [True]. *)
Definition true_hets_dict (lines : list string) : gmap (list string) bool :=
  foldl (λ m line, <[split_ws (strip line) := true]> m) ∅ lines.

(** Lines 66-68: one line of the bed file. *)
Definition snp_line (true_hets : gmap (list string) bool) (snps : gmap string (gmap Z (list string)))
    (line : string) : outcome (gmap string (gmap Z (list string))) :=
  match split_ws (strip line) with
  | [chrom; _; start; refalt] =>
      if default true (true_hets !! [chrom; start]) then
        let alleles := PyStr.split "|"%char refalt in
        match PyInt.parse start with
        | Some pos => Ok (<[chrom := <[pos := alleles]> (default ∅ (snps !! chrom))]> snps)
        | None => Raise ValueError
        end
      else Ok snps
  | _ => Raise ValueError
  end.

(** Lines 65-68: the loop over the lines. *)
Fixpoint snp_lines (true_hets : gmap (list string) bool) (snps : gmap string (gmap Z (list string)))
    (lines : list string) : outcome (gmap string (gmap Z (list string))) :=
  match lines with
  | [] => Ok snps
  | line :: lines' =>
      let+ snps := snp_line true_hets snps line in
      snp_lines true_hets snps lines'
  end.

(** [get_snps(snpfile)].  [true_hets_file] holds the lines of the file
    [true_hets.tsv] beside [snpfile] when it exists, [snp_file] the lines of
    [snpfile] when it exists.  The result comes with the lines printed. *)
Definition get_snps (snpfile : string) (true_hets_file snp_file : option (list string))
    : list string * outcome (gmap string (gmap Z (list string))) :=
  let '(printed, true_hets) :=
    match true_hets_file with
    | Some lines => (["using true hets"], true_hets_dict lines)
    | None => ([], ∅)
    end in
  if PyStr.endswith snpfile ".bed" then
    match snp_file with
    | Some lines => (printed, snp_lines true_hets ∅ lines)
    | None => (printed, Raise FileNotFoundError)
    end
  else (printed, Ok ∅).

(** What [get_phase] reads of an aligned read: the pairs of read position
    and reference position given by [get_aligned_pairs(matches_only=True)],
    the base qualities and the bases. *)
Record aligned_read := AlignedRead {
  aligned_pairs : list (nat * Z);
  query_qualities : list Z;
  read_seq : string
}.

(** Lines 36-50: the loop of [get_phase] from the pairs still to visit and
    the phase found so far. *)
Fixpoint get_phase_from (read : aligned_read) (snps : gmap Z (list string))
    (pairs : list (nat * Z)) (phase : option Z) : outcome (option Z) :=
  match pairs with
  | [] => Ok phase
  | (read_pos, ref_pos) :: pairs' =>
      match snps !! (ref_pos + 1) with
      | None => get_phase_from read snps pairs' phase
      | Some alleles =>
          let+ quality := list_item (query_qualities read) read_pos in
          if bool_decide (30 ≤ quality) then
            let+ base := str_item (read_seq read) read_pos in
            match index_of base alleles with
            | None => Ok (Some 0)
            | Some i =>
                let new_phase := -1 + 2 * Z.of_nat i in
                match phase with
                | None => get_phase_from read snps pairs' (Some new_phase)
                | Some p =>
                    if decide (new_phase ≠ p) then Ok (Some 0)
                    else get_phase_from read snps pairs' phase
                end
            end
          else get_phase_from read snps pairs' phase
      end
  end.

(** [get_phase(read, snps)] *)
Definition get_phase (read : aligned_read) (snps : gmap Z (list string)) : outcome (option Z) :=
  get_phase_from read snps (aligned_pairs read) None.

(** The pair looks at a SNP with a base quality of 30 or more. *)
Definition informative (read : aligned_read) (snps : gmap Z (list string)) (pair : nat * Z) : Prop :=
  ∃ alleles quality,
    snps !! (pair.2 + 1) = Some alleles ∧
    query_qualities read !! pair.1 = Some quality ∧ 30 ≤ quality.

(** The place of the read's base among the alleles of the SNP the pair
    looks at. *)
Definition allele_of (read : aligned_read) (snps : gmap Z (list string)) (pair : nat * Z) : option nat :=
  match snps !! (pair.2 + 1), PyStr.index (read_seq read) pair.1 with
  | Some alleles, Some base => index_of base alleles
  | _, _ => None
  end.

End GetGeneASE.

Module GetGeneASEProps.
Import GetGeneASE.

(** The pair does not count for the phase: no SNP under it, or a base
    quality below 30. *)
Definition skipped (read : aligned_read) (snps : gmap Z (list string)) (pair : nat * Z) : Prop :=
  snps !! (pair.2 + 1) = None ∨
  ∃ quality, query_qualities read !! pair.1 = Some quality ∧ quality < 30.

(** No index is out of range: the read has a quality at every pair that
    looks at a SNP. *)
Definition qualities_cover (read : aligned_read) (snps : gmap Z (list string)) (pairs : list (nat * Z)) : Prop :=
  ∀ pair, pair ∈ pairs → is_Some (snps !! (pair.2 + 1)) →
    is_Some (query_qualities read !! pair.1).


(** Every value of the dictionary is [True]. *)
Definition all_true (m : gmap (list string) bool) : Prop :=
  ∀ k b, m !! k = Some b → b = true.

End GetGeneASEProps.

(** A read of four bases over three SNPs, the third base of low quality. *)
Definition sample_read : GetGeneASE.aligned_read :=
  GetGeneASE.AlignedRead
    [(0%nat, 5388); (1%nat, 5389); (2%nat, 5390); (3%nat, 5402)] [40; 40; 12; 35] "GTCG".

Definition sample_snps : gmap Z (list string) :=
  {[ 5390 := ["A"; "T"]; 5391 := ["G"; "C"]; 5403 := ["C"; "G"] ]}.


(** * Properties *)

(** ** The string functions on examples *)

Example split_ex : PyStr.split ","%char "a,b,,c" = ["a"; "b"; ""; "c"].
Proof. reflexivity. Qed.
Example re_split_ex : PyStr.re_split_spaces false " a  b " = [""; "a"; "b"; ""].
Proof. reflexivity. Qed.
Example re_split_wide_ex : PyStr.re_split_wide 0 "Job ID   User  S" = ["Job ID"; "User"; "S"].
Proof. reflexivity. Qed.
Example rstrip_ex : PyStr.rstrip ("a b " +:+ nl +:+ " ") = "a b".
Proof. vm_compute. reflexivity. Qed.
Example of_Z_ex : PyStr.of_Z 120 = "120" ∧ PyStr.of_Z (-7) = "-7" ∧ PyStr.of_Z 0 = "0".
Proof. vm_compute. done. Qed.
Example dedent_ex :
  PyStr.dedent ("    a" +:+ nl +:+ "      b" +:+ nl +:+ "    ") = "a" +:+ nl +:+ "  b" +:+ nl.
Proof. vm_compute. reflexivity. Qed.

Example py_int_ex :
  PyInt.parse "4711" = Some 4711 ∧ PyInt.parse "job" = None ∧
  PyInt.parse "1_0" = Some 10 ∧ PyInt.parse "1__0" = None ∧ PyInt.parse "" = None.
Proof. vm_compute. done. Qed.

(** ** Strings *)

Lemma app_cons c s t : String c s +:+ t = String c (s +:+ t).
Proof. reflexivity. Qed.
Lemma app_nil t : "" +:+ t = t.
Proof. reflexivity. Qed.

Lemma str_app_assoc a b c : (a +:+ b) +:+ c = a +:+ (b +:+ c).
Proof. induction a as [|x a IH]; [done|]. rewrite !app_cons. by rewrite IH. Qed.

Lemma split_line a b :
  no_newline a = true →
  PyStr.split nl_char (a +:+ String nl_char b) = a :: PyStr.split nl_char b.
Proof.
  induction a as [|c a IH]; intros Ha.
  - reflexivity.
  - cbn [no_newline] in Ha. apply andb_prop in Ha as [Hc Ha].
    apply bool_decide_eq_true in Hc.
    rewrite app_cons. cbn [PyStr.split]. rewrite decide_False by done.
    rewrite IH by done. reflexivity.
Qed.

Lemma no_newline_app a b :
  no_newline a = true → no_newline b = true → no_newline (a +:+ b) = true.
Proof.
  induction a as [|c a IH]; intros Ha Hb; [done|].
  rewrite app_cons. cbn [no_newline] in *.
  apply andb_prop in Ha as [Hc Ha]. rewrite Hc. cbn [andb]. auto.
Qed.

Lemma nl_app t : nl +:+ t = String nl_char t.
Proof. reflexivity. Qed.

(** [dedent] takes the eight blanks off the three lines of the pre-amble
    when neither the directory nor the name breaks a line. *)
Lemma preamble_dedented usedir name :
  no_newline usedir = true → no_newline name = true →
  preamble usedir name =
  "cd " +:+ usedir +:+ nl +:+ "date +'%d-%H:%M:%S'" +:+ nl +:+
  "echo " +:+ dquote +:+ "Running " +:+ name +:+ dquote +:+ nl.
Proof.
  intros Hu Hn. unfold preamble, preamble_text, PyStr.dedent.
  assert (Hl : PyStr.split nl_char
                 ("        cd " +:+ usedir +:+ nl +:+
                  "        date +'%d-%H:%M:%S'" +:+ nl +:+
                  "        echo " +:+ dquote +:+ "Running " +:+ name +:+ dquote +:+ nl +:+
                  "        ")
               = ["        cd " +:+ usedir;
                  "        date +'%d-%H:%M:%S'";
                  "        echo " +:+ dquote +:+ "Running " +:+ name +:+ dquote;
                  "        "]).
  { rewrite !nl_app.
    rewrite <- (str_app_assoc "        cd " usedir).
    rewrite split_line by (apply no_newline_app; done).
    rewrite split_line by done.
    rewrite <- !str_app_assoc.
    rewrite split_line. 2:{ repeat (apply no_newline_app; try done). }
    rewrite !str_app_assoc. reflexivity. }
  rewrite Hl. clear Hl.
  set (l1 := "        cd " +:+ usedir).
  set (l3 := "        echo " +:+ dquote +:+ "Running " +:+ name +:+ dquote).
  assert (Hb : PyStr.blank_to_empty <$> [l1; "        date +'%d-%H:%M:%S'"; l3; "        "]
               = [l1; "        date +'%d-%H:%M:%S'"; l3; ""]) by reflexivity.
  rewrite Hb. clear Hb.
  assert (Hm : foldl PyStr.margin_step None
                 (PyStr.leading_blanks <$>
                    filter (λ l, l ≠ "") [l1; "        date +'%d-%H:%M:%S'"; l3; ""])
               = Some "        ") by reflexivity.
  rewrite Hm. clear Hm.
  assert (Hs : PyStr.strip_margin "        " <$> [l1; "        date +'%d-%H:%M:%S'"; l3; ""]
               = ["cd " +:+ usedir; "date +'%d-%H:%M:%S'";
                  "echo " +:+ dquote +:+ "Running " +:+ name +:+ dquote; ""]) by reflexivity.
  rewrite Hs. clear Hs. cbn [PyStr.join].
  rewrite !str_app_assoc. reflexivity.
Qed.

Lemma pstcmd_text :
  pstcmd = "exitcode=$?
echo Done
date +'%d-%H:%M:%S'
if [[ $exitcode != 0 ]]; then
    echo Exited with code: $? >&2
fi
".
Proof. vm_compute. reflexivity. Qed.

(** ** Running the monad *)

Section MonadLaws.
Context {A B : Type}.
Implicit Types (k : A → M B) (w : world).

Lemma bind_ok (m : M A) k w a w' : m w = (Ok a, w') → bind m k w = k a w'.
Proof. intros H. unfold bind. by rewrite H. Qed.

Lemma bind_raise (m : M A) k w e w' :
  m w = (Raise e, w') → bind m k w = (Raise e, w').
Proof. intros H. unfold bind. by rewrite H. Qed.

Lemma bind_out_of_fuel (m : M A) k w w' :
  m w = (OutOfFuel, w') → bind m k w = (OutOfFuel, w').
Proof. intros H. unfold bind. by rewrite H. Qed.

Lemma bind_ret (a : A) k w : bind (ret a) k w = k a w.
Proof. reflexivity. Qed.

Lemma bind_lift_ok (a : A) k w : bind (lift (Ok a)) k w = k a w.
Proof. reflexivity. Qed.

Lemma bind_lift_raise e k w : bind (lift (Raise e)) k w = (Raise e, w).
Proof. reflexivity. Qed.
End MonadLaws.

Lemma bind_get_QUEUE {B} (k : string → M B) w : bind get_QUEUE k w = k (QUEUE w) w.
Proof. reflexivity. Qed.

Lemma bind_emit {B} e (k : unit → M B) w : bind (emit e) k w = k () (add_events [e] w).
Proof. reflexivity. Qed.

Lemma bind_sleep {B} secs (k : unit → M B) w :
  bind (sleep secs) k w = k () (add_events [EvSleep secs] w).
Proof. reflexivity. Qed.

(** ** Backend selection *)

Lemma allowed_queue_cases q :
  q ∈ ALLOWED_QUEUES ↔ q = "torque" ∨ q = "slurm" ∨ q = "normal".
Proof. unfold ALLOWED_QUEUES. rewrite !elem_of_cons, elem_of_nil. tauto. Qed.

Lemma local_not_allowed : "local" ∉ ALLOWED_QUEUES.
Proof. rewrite allowed_queue_cases. intros [H|[H|H]]; discriminate H. Qed.

(** An operation that starts with [check_queue()] stops there when [QUEUE]
    is not one of the allowed values, and leaves the world as it was. *)
Lemma check_queue_rejects w :
  QUEUE w ∉ ALLOWED_QUEUES →
  ∃ msg, ∀ B (k : unit → M B), bind check_queue k w = (Raise (ClusterError msg), w).
Proof.
  intros Hq. eexists. intros B k. unfold check_queue, bind, get_QUEUE.
  destruct (decide (QUEUE w ∈ ALLOWED_QUEUES)); [done|]. reflexivity.
Qed.

Lemma check_queue_accepts w B (k : unit → M B) :
  QUEUE w ∈ ALLOWED_QUEUES → bind check_queue k w = k () w.
Proof.
  intros Hq. unfold check_queue, bind, get_QUEUE.
  destruct (decide (QUEUE w ∈ ALLOWED_QUEUES)); [reflexivity|done].
Qed.

(** C1 (fails on the code): with neither [sbatch] nor [qsub] on the host,
    [get_cluster_environment] records ['local'], a value that is not in
    [ALLOWED_QUEUES]; from then on [make_job_file], [submit], [submit_file],
    [wait] and [clean] all raise [ClusterError] in [check_queue]. *)
Theorem C1_detected_local_is_rejected ab ls tl (w : world) :
  (get_cluster_environment (no_scheduler_env ab ls tl) w).1 = Ok "local" ∧
  QUEUE (detected_world ab ls tl w) = "local" ∧
  (∀ command name time cores mem partition modules path, ∃ msg,
     (make_job_file (no_scheduler_env ab ls tl) command name time cores mem
        partition modules path (detected_world ab ls tl w)).1
     = Raise (ClusterError msg)) ∧
  (∀ fuel command name threads time cores mem partition modules path deps, ∃ msg,
     (submit (no_scheduler_env ab ls tl) fuel command name threads time cores
        mem partition modules path deps (detected_world ab ls tl w)).1
     = Raise (ClusterError msg)) ∧
  (∀ fuel script name deps threads, ∃ msg,
     (submit_file (no_scheduler_env ab ls tl) fuel script name deps threads
        (detected_world ab ls tl w)).1
     = Raise (ClusterError msg)) ∧
  (∀ fuel jobs, ∃ msg,
     (wait (no_scheduler_env ab ls tl) fuel jobs (detected_world ab ls tl w)).1
     = Raise (ClusterError msg)) ∧
  (∀ directory, ∃ msg,
     (clean (no_scheduler_env ab ls tl) directory (detected_world ab ls tl w)).1
     = Raise (ClusterError msg)).
Proof.
  assert (Hq : QUEUE (detected_world ab ls tl w) ∉ ALLOWED_QUEUES)
    by exact local_not_allowed.
  destruct (check_queue_rejects _ Hq) as [msg Hmsg].
  split; [reflexivity|]. split; [reflexivity|].
  repeat split; intros; exists msg.
  - unfold make_job_file. by rewrite Hmsg.
  - unfold submit. by rewrite Hmsg.
  - unfold submit_file. by rewrite Hmsg.
  - unfold wait. by rewrite Hmsg.
  - unfold clean. by rewrite Hmsg.
Qed.

(** ** Submission *)

Lemma add_events_app es1 es2 w :
  add_events es2 (add_events es1 w) = add_events (es1 ++ es2) w.
Proof. unfold add_events. simpl. by rewrite app_assoc. Qed.

Lemma add_events_exec argv es w :
  add_events es (add_exec argv w) =
  {| QUEUE := QUEUE w; POOL := POOL w; trace := trace w ++ EvExec argv :: es;
     nexec := S (nexec w); cwd := cwd w |}.
Proof. unfold add_events, add_exec. simpl. by rewrite <- app_assoc. Qed.

(** A failed call below the limit: one second of sleep, then the next round
    with the counter advanced. *)
Lemma submit_loop_retry E fuel args job_id count w :
  tool E (nexec w) args = None → count ≠ 5%nat →
  submit_loop E (S fuel) args job_id count w =
  submit_loop E fuel args job_id (count + 1)
    (add_events [EvSleep 1] (add_exec args w)).
Proof.
  intros Hfail Hcount. simpl. unfold bind at 1. unfold try_except.
  unfold bind at 1. unfold check_output. rewrite Hfail. simpl.
  destruct (decide (count = 5%nat)); [done|]. reflexivity.
Qed.

(** A failed call at the limit: the exception leaves the loop. *)
Lemma submit_loop_give_up E fuel args job_id w :
  tool E (nexec w) args = None →
  submit_loop E (S fuel) args job_id 5 w =
  (Raise CalledProcessError, add_exec args w).
Proof.
  intros Hfail. simpl. unfold bind at 1. unfold try_except.
  unfold bind at 1. unfold check_output. rewrite Hfail. reflexivity.
Qed.

Lemma submit_loop_always_failing wh ab ls fuel args job_id w :
  submit_loop (failing_tool_env wh ab ls) (6 + fuel) args job_id 0 w =
  (Raise CalledProcessError,
   {| QUEUE := QUEUE w; POOL := POOL w;
      trace := trace w ++ failed_submission_trace args;
      nexec := 6 + nexec w; cwd := cwd w |}).
Proof.
  change (6 + fuel)%nat with (S (S (S (S (S (S fuel)))))).
  do 5 (rewrite submit_loop_retry by done).
  rewrite submit_loop_give_up by done.
  rewrite !add_events_exec. cbn [QUEUE POOL trace nexec cwd].
  unfold failed_submission_trace, add_exec. cbn [QUEUE POOL trace nexec cwd].
  repeat (rewrite <- app_assoc; cbn [app]).
  reflexivity.
Qed.

Example failed_submission_counts args :
  count_exec (failed_submission_trace args) = 6%nat ∧
  length (filter (λ e, e = EvSleep 1) (failed_submission_trace args)) = 5%nat.
Proof. split; reflexivity. Qed.

(** C4 (fails on the code): against a submission program that exits non-zero
    on every call, [submit_file] on either scheduler calls the program six
    times, not five, with five one-second sleeps in between, and then
    re-raises [CalledProcessError]; any budget of at least six rounds shows
    it. *)
Theorem C4_failing_submission_six_calls wh ab ls fuel script name threads p tr n dir :
  submit_file (failing_tool_env wh ab ls) (6 + fuel) script name no_dependencies
    threads (World "slurm" p tr n dir)
  = (Raise CalledProcessError,
     World "slurm" p (tr ++ failed_submission_trace ["sbatch"; script]) (6 + n) dir) ∧
  submit_file (failing_tool_env wh ab ls) (6 + fuel) script name no_dependencies
    threads (World "torque" p tr n dir)
  = (Raise CalledProcessError,
     World "torque" p (tr ++ failed_submission_trace ["qsub"; script]) (6 + n) dir) ∧
  count_exec (failed_submission_trace ["sbatch"; script]) = 6%nat ∧
  count_exec (failed_submission_trace ["qsub"; script]) = 6%nat.
Proof.
  split; [|split; [|split; apply failed_submission_counts]].
  - unfold submit_file. rewrite check_queue_accepts
      by (apply allowed_queue_cases; simpl; auto).
    change (sanitize_dependencies no_dependencies) with (Ok [] : outcome (list string)).
    rewrite bind_lift_ok, bind_get_QUEUE. cbn [QUEUE].
    rewrite decide_True by done.
    erewrite bind_raise by apply submit_loop_always_failing.
    reflexivity.
  - unfold submit_file. rewrite check_queue_accepts
      by (apply allowed_queue_cases; simpl; auto).
    change (sanitize_dependencies no_dependencies) with (Ok [] : outcome (list string)).
    rewrite bind_lift_ok, bind_get_QUEUE. cbn [QUEUE].
    rewrite decide_False by done. rewrite decide_True by done.
    erewrite bind_raise by apply submit_loop_always_failing.
    reflexivity.
Qed.

(** ** Job files *)

Lemma make_job_file_slurm E command name time cores mem partition modules p tr n dir :
  make_job_file E command (AStr name) time cores mem partition (PyList modules) None
    (World "slurm" p tr n dir)
  = (Ok (path_join (abspath E ".") (name +:+ ".cluster.sbatch")),
     World "slurm" p
       (tr ++ [EvWrite (path_join (abspath E ".") (name +:+ ".cluster.sbatch"))
                 (sbatch_text (abspath E ".") name time
                    (if atom_truthy cores then cores else AInt 1) mem partition);
               EvWrite (path_join (abspath E ".") (name +:+ ".script"))
                 (slurm_script_text command (precmd modules (abspath E ".") name))])
       n dir).
Proof.
  unfold make_job_file. rewrite check_queue_accepts
    by (apply allowed_queue_cases; simpl; auto).
  unfold bind, ret, get_QUEUE, emit, add_events. simpl.
  rewrite <- app_assoc. reflexivity.
Qed.

(** C5 (fails on the code): in slurm mode [make_job_file] writes
    [<name>.cluster.sbatch] and a companion named [<name>.script], without
    the [.cluster] part, and the sbatch file launches the companion under
    that name; shown for every name and on [name = job1],
    [command = echo hi] in [/home/user]. *)
Theorem C5_slurm_companion_lacks_cluster_prefix :
  (∀ E command name time cores mem partition modules p n dir,
     (written_files (trace (make_job_file E command (AStr name) time cores mem
        partition (PyList modules) None (World "slurm" p [] n dir)).2)).*1
     = [path_join (abspath E ".") (name +:+ ".cluster.sbatch");
        path_join (abspath E ".") (name +:+ ".script")]) ∧
  written_files (trace (make_job_file home_env "echo hi" (AStr "job1") ANone
     (AInt 1) ANone ANone no_modules None (world_with_queue "slurm")).2)
  = [("/home/user/job1.cluster.sbatch",
      "#!/bin/bash
#SBATCH --ntasks 1
#SBATCH --cpus-per-task 1
#SBATCH -o job1.cluster.out
#SBATCH -e job1.cluster.err
cd /home/user
srun bash /home/user/job1.script
");
     ("/home/user/job1.script",
      "#!/bin/bash
mkdir -p $LOCAL_SCRATCH
cd /home/user
date +'%d-%H:%M:%S'
echo " +:+ dquote +:+ "Running job1" +:+ dquote +:+ "
echo hi
exitcode=$?
echo Done
date +'%d-%H:%M:%S'
if [[ $exitcode != 0 ]]; then
    echo Exited with code: $? >&2
fi
")] ∧
  basename "/home/user/job1.script" = "job1.script" ∧
  PyStr.startswith "job1.cluster" "job1.script" = false.
Proof.
  split; [|split; [|split]].
  - intros. rewrite make_job_file_slurm. reflexivity.
  - vm_compute. reflexivity.
  - vm_compute. reflexivity.
  - reflexivity.
Qed.

Lemma make_job_file_torque E command name time cores mem partition modules p tr n dir :
  make_job_file E command (AStr name) time cores mem partition (PyList modules) None
    (World "torque" p tr n dir)
  = (Ok (path_join (abspath E ".") (name +:+ ".cluster.qsub")),
     World "torque" p
       (tr ++ [EvWrite (path_join (abspath E ".") (name +:+ ".cluster.qsub"))
                 (qsub_text command (precmd modules (abspath E ".") name) name time
                    (if atom_truthy cores then cores else AInt 1) mem partition)])
       n dir).
Proof.
  unfold make_job_file. rewrite check_queue_accepts
    by (apply allowed_queue_cases; simpl; auto).
  reflexivity.
Qed.

Lemma make_job_file_normal E command name time cores mem partition modules p tr n dir :
  make_job_file E command (AStr name) time cores mem partition (PyList modules) None
    (World "normal" p tr n dir)
  = (Ok (path_join (abspath E ".") (name +:+ ".cluster")),
     World "normal" p
       (tr ++ [EvWrite (path_join (abspath E ".") (name +:+ ".cluster"))
                 (normal_text command (precmd modules (abspath E ".") name))])
       n dir).
Proof.
  unfold make_job_file. rewrite check_queue_accepts
    by (apply allowed_queue_cases; simpl; auto).
  reflexivity.
Qed.

(** C9: in normal mode, [make_job_file("echo hi", "job1")] writes one file,
    [job1.cluster] in the current directory, holding the shebang line, the
    block that changes directory, prints the time and announces the job, the
    command, and the block that keeps the exit code, prints the time and
    reports a non-zero exit on the error stream, in this order and nothing
    else.  The path of the current directory is taken to be free of line
    breaks. *)
Theorem C9_local_job1_script E p tr n dir :
  no_newline (abspath E ".") = true →
  make_job_file E "echo hi" (AStr "job1") ANone (AInt 1) ANone ANone no_modules None
    (World "normal" p tr n dir)
  = (Ok (path_join (abspath E ".") "job1.cluster"),
     World "normal" p
       (tr ++ [EvWrite (path_join (abspath E ".") "job1.cluster")
                 ("#!/bin/bash
" +:+ "cd " +:+ abspath E "." +:+ "
date +'%d-%H:%M:%S'
echo " +:+ dquote +:+ "Running job1" +:+ dquote +:+ "
" +:+ "echo hi
" +:+ "exitcode=$?
echo Done
date +'%d-%H:%M:%S'
if [[ $exitcode != 0 ]]; then
    echo Exited with code: $? >&2
fi
")])
       n dir).
Proof.
  intros Hdir. unfold no_modules. rewrite make_job_file_normal.
  unfold normal_text, precmd. cbn [foldl]. rewrite app_nil.
  rewrite preamble_dedented by done. rewrite pstcmd_text.
  do 4 f_equal. rewrite !str_app_assoc. reflexivity.
Qed.

Lemma C9_local_job1_script_witness :
  no_newline (abspath home_env ".") = true ∧
  make_job_file home_env "echo hi" (AStr "job1") ANone (AInt 1) ANone ANone
    no_modules None (World "normal" None [] 0 ∅)
  = (Ok (path_join (abspath home_env ".") "job1.cluster"),
     World "normal" None
       ([] ++ [EvWrite (path_join (abspath home_env ".") "job1.cluster")
                 ("#!/bin/bash
" +:+ "cd " +:+ abspath home_env "." +:+ "
date +'%d-%H:%M:%S'
echo " +:+ dquote +:+ "Running job1" +:+ dquote +:+ "
" +:+ "echo hi
" +:+ "exitcode=$?
echo Done
date +'%d-%H:%M:%S'
if [[ $exitcode != 0 ]]; then
    echo Exited with code: $? >&2
fi
")])
       0 ∅).
Proof.
  split; [reflexivity|].
  apply (C9_local_job1_script home_env None [] 0%nat ∅). reflexivity.
Defined.

(** ** Polling *)

Lemma torque_complete_spec rows complete :
  torque_complete rows = Ok complete →
  ∀ j, j ∈ complete ↔
       ∃ row, row ∈ rows ∧ torque_job_id row = j ∧ torque_row_state row = Some "C".
Proof.
  revert complete. induction rows as [|row rows IH]; intros complete Hc j.
  - injection Hc as <-. split; [by intros ?%elem_of_nil|].
    intros (r & Hr & _). by apply elem_of_nil in Hr.
  - cbn [torque_complete] in Hc. unfold list_item in Hc.
    destruct (PyStr.re_split_spaces false row !! 9%nat) as [st|] eqn:Hst;
      [|discriminate Hc].
    cbn [bind_pure] in Hc.
    destruct (torque_complete rows) as [r| |] eqn:Hr; try discriminate Hc.
    cbn [bind_pure] in Hc. injection Hc as <-.
    specialize (IH r eq_refl j).
    destruct (decide (st = "C")) as [->|Hne].
    + rewrite elem_of_cons, IH. split.
      * intros [->|(r' & Hin & Hid & Hs)].
        -- exists row. split; [left|]. done.
        -- exists r'. split; [by right|done].
      * intros (r' & [->|Hin]%elem_of_cons & Hid & Hs); [by left|].
        right. by exists r'.
    + rewrite IH. split.
      * intros (r' & Hin & Hid & Hs). exists r'. split; [by right|done].
      * intros (r' & [->|Hin]%elem_of_cons & Hid & Hs).
        -- unfold torque_row_state in Hs. rewrite Hst in Hs. by injection Hs.
        -- by exists r'.
Qed.

Lemma torque_trim_spec complete all jobs j :
  j ∈ torque_trim complete all jobs ↔ j ∈ jobs ∧ j ∈ all ∧ (j ∉ complete).
Proof. unfold torque_trim. rewrite !list_elem_of_filter. tauto. Qed.

Lemma slurm_trim_spec complete failed all jobs j :
  j ∈ slurm_trim complete failed all jobs ↔
  j ∈ jobs ∧ (j ∉ all) ∧ (j ∉ complete) ∧ (j ∉ failed).
Proof. unfold slurm_trim. rewrite !list_elem_of_filter. tauto. Qed.

(** C3 (as amended): after a poll cycle of the torque branch a tracked job
    is still tracked exactly when the table lists it and does not show it in
    state [C]; a job the table no longer lists is dropped, like a completed
    one. *)
Theorem C3_torque_keeps_listed_unfinished out jobs jobs' :
  torque_poll out jobs = Ok jobs' →
  ∀ j, j ∈ jobs' ↔
       j ∈ jobs ∧
       (∃ row, row ∈ torque_rows out ∧ torque_job_id row = j) ∧
       ¬ (∃ row, row ∈ torque_rows out ∧ torque_job_id row = j ∧
                 torque_row_state row = Some "C").
Proof.
  unfold torque_poll. fold (torque_rows out).
  destruct (list_item _ 3) as [header| |]; try discriminate. cbn [bind_pure].
  destruct (list_item _ 9) as [col| |]; try discriminate. cbn [bind_pure].
  destruct (decide (col = "S")); [|discriminate].
  destruct (torque_complete (torque_rows out)) as [complete| |] eqn:Hc;
    try discriminate.
  cbn [bind_pure]. intros [= <-] j.
  rewrite torque_trim_spec, (torque_complete_spec _ _ Hc j).
  unfold torque_all. rewrite list_elem_of_fmap.
  split.
  - intros (Hj & (row & -> & Hrow) & Hn). eauto.
  - intros (Hj & (row & Hrow & <-) & Hn). eauto.
Qed.

Lemma C3_torque_keeps_listed_unfinished_witness :
  torque_poll (qstat_output [qstat_row "100" "R"; qstat_row "102" "C"])
    ["100"; "101"; "102"] = Ok ["100"] ∧
  ∀ j, j ∈ ["100"] ↔
       j ∈ ["100"; "101"; "102"] ∧
       (∃ row,
          row ∈ torque_rows (qstat_output [qstat_row "100" "R"; qstat_row "102" "C"]) ∧
          torque_job_id row = j) ∧
       ¬ (∃ row,
            row ∈ torque_rows (qstat_output [qstat_row "100" "R"; qstat_row "102" "C"]) ∧
            torque_job_id row = j ∧ torque_row_state row = Some "C").
Proof.
  assert (H : torque_poll (qstat_output [qstat_row "100" "R"; qstat_row "102" "C"])
                ["100"; "101"; "102"] = Ok ["100"]) by (vm_compute; reflexivity).
  split; [exact H|].
  exact (C3_torque_keeps_listed_unfinished _ _ _ H).
Defined.

(** C3 (as stated, refuted): the table lists job 100 only; the tracked job
    101, which the table does not list, is gone after the cycle. *)
Lemma C3_unlisted_job_is_dropped :
  ¬ (∀ out jobs jobs' j,
       torque_poll out jobs = Ok jobs' →
       j ∈ jobs →
       ¬ (∃ row, row ∈ torque_rows out ∧ torque_job_id row = j) →
       j ∈ jobs').
Proof.
  intros H.
  specialize (H (qstat_output [qstat_row "100" "R"]) ["100"; "101"] ["100"] "101").
  assert (Hin : "101" ∈ ["100"]).
  { apply H.
    - vm_compute. reflexivity.
    - set_solver.
    - intros (row & Hrow & Hid). vm_compute in Hrow.
      apply list_elem_of_singleton in Hrow. subst row. vm_compute in Hid. discriminate Hid. }
  apply list_elem_of_singleton in Hin. discriminate Hin.
Qed.

(** The same on [wait]: with job 101 tracked and absent from the table,
    [wait] returns after the first query. *)
Example wait_torque_returns_for_unlisted_job :
  wait (steady_env (qstat_output [qstat_row "100" "R"])) 1 (PyList [AStr "101"])
    (world_with_queue "torque")
  = (Ok (), World "torque" None [EvSleep 5; EvExec ["qstat"; "-a"]] 1 ∅).
Proof. vm_compute. reflexivity. Qed.

(** C6 (as stated, refuted): the first status query exits non-zero, yet
    [wait] does not raise: it queries again and returns. *)
Lemma C6_failed_query_does_not_propagate :
  tool (flaky_env (qstat_output [qstat_row "100" "C"])) 0 ["qstat"; "-a"] = None ∧
  wait (flaky_env (qstat_output [qstat_row "100" "C"])) 2 (PyList [AStr "100"])
    (world_with_queue "torque")
  = (Ok (),
     World "torque" None
       [EvSleep 5; EvExec ["qstat"; "-a"]; EvSleep 2; EvExec ["qstat"; "-a"]] 2 ∅).
Proof. split; [reflexivity|]. vm_compute. reflexivity. Qed.

(** A cycle of the slurm branch that leaves the tracked jobs as they are and
    not empty goes on to the next cycle; with a status program that prints
    the same from now on, [wait_slurm] uses up any budget. *)
Lemma wait_slurm_stuck E out jobs fuel w :
  (∀ n, (nexec w ≤ n)%nat → tool E n squeue_argv = Some out) →
  slurm_poll out jobs = Ok jobs → jobs ≠ [] →
  (wait_slurm E fuel jobs w).1 = OutOfFuel.
Proof.
  intros Htool Hpoll Hne. revert w Htool.
  induction fuel as [|fuel IH]; intros w Htool; [reflexivity|].
  cbn [wait_slurm]. fold squeue_argv.
  erewrite bind_ok by (unfold check_output; rewrite Htool by lia; reflexivity).
  rewrite Hpoll, bind_lift_ok.
  destruct (decide (length jobs = 0%nat)) as [Hlen|_].
  { by apply nil_length_inv in Hlen. }
  rewrite bind_sleep. apply IH.
  intros n Hn. apply Htool. cbn [nexec add_events add_exec] in Hn. lia.
Qed.

Lemma wait_slurm_branch E fuel jobs p tr n dir :
  wait E fuel (PyList (AStr <$> jobs)) (World "slurm" p tr n dir)
  = wait_slurm E fuel jobs (World "slurm" p (tr ++ [EvSleep 2]) n dir).
Proof.
  unfold wait.
  rewrite check_queue_accepts by (apply allowed_queue_cases; simpl; auto).
  assert (Hty : ∀ w, for_each (AStr <$> jobs) check_job_type w = (Ok (), w)).
  { induction jobs as [|j jobs IH]; intros w; [reflexivity|].
    cbn [fmap list_fmap for_each check_job_type]. rewrite bind_ret. apply IH. }
  erewrite bind_ok by apply Hty.
  rewrite bind_get_QUEUE. cbn [QUEUE].
  rewrite decide_False by done. rewrite decide_False by done.
  rewrite decide_True by done.
  rewrite bind_sleep.
  replace (py_str <$> (AStr <$> jobs)) with jobs; [reflexivity|].
  rewrite <- list_fmap_compose. symmetry. apply list_fmap_id.
Qed.

(** C2 (fails on the code): with jobs 100 and 101 tracked, a cycle of the
    slurm branch that sees 101 in state [CD] removes nothing; in the
    scenario [wait] never returns, nor does it when both jobs stay listed as
    [CD]; an empty listing raises [IndexError]; and the filter on the listed
    IDs keeps the absent job and drops the listed one, whatever the lists. *)
Theorem C2_slurm_wait_does_not_track_states :
  slurm_poll (squeue_output "R" "CD") ["100"; "101"] = Ok ["100"; "101"] ∧
  (∀ fuel,
     (wait scenario_env fuel (PyList [AStr "100"; AStr "101"])
        (world_with_queue "slurm")).1 = OutOfFuel) ∧
  (∀ fuel,
     (wait (steady_env (squeue_output "CD" "CD")) fuel
        (PyList [AStr "100"; AStr "101"]) (world_with_queue "slurm")).1
     = OutOfFuel) ∧
  wait (steady_env "") 1 (PyList [AStr "100"; AStr "101"]) (world_with_queue "slurm")
  = (Raise IndexError, World "slurm" None [EvSleep 2; EvExec squeue_argv] 1 ∅) ∧
  slurm_trim [] [] ["100"] ["100"; "101"] = ["101"] ∧
  (∀ complete failed all jobs j,
     j ∈ slurm_trim complete failed all jobs ↔
     j ∈ jobs ∧ (j ∉ all) ∧ (j ∉ complete) ∧ (j ∉ failed)).
Proof.
  split; [vm_compute; reflexivity|].
  split; [|split; [|split; [vm_compute; reflexivity|]]].
  3: { split; [vm_compute; reflexivity|]. intros. apply slurm_trim_spec. }
  - intros fuel. unfold world_with_queue.
    rewrite (wait_slurm_branch scenario_env fuel ["100"; "101"]).
    destruct fuel as [|fuel]; [reflexivity|].
    cbn [wait_slurm]. erewrite bind_ok by reflexivity.
    erewrite bind_ok by (vm_compute; reflexivity).
    rewrite decide_False by done. rewrite bind_sleep.
    apply (wait_slurm_stuck _ ("'100,R'" +:+ nl)).
    + intros [|n] Hn; [cbn in Hn; lia|reflexivity].
    + vm_compute. reflexivity.
    + done.
  - intros fuel. unfold world_with_queue.
    rewrite (wait_slurm_branch _ fuel ["100"; "101"]).
    apply (wait_slurm_stuck _ (squeue_output "CD" "CD")).
    + reflexivity.
    + vm_compute. reflexivity.
    + done.
Qed.

(** ** Single values in place of lists *)

Lemma sanitize_single d :
  is_str_or_int d = true → atom_truthy d = true →
  sanitize_dependencies (One d) = sanitize_dependencies (PyList [d]).
Proof.
  intros Hty Htr. unfold sanitize_dependencies. cbn [truthy]. rewrite Htr.
  rewrite bool_decide_eq_true_2 by done.
  destruct d; try discriminate Hty; reflexivity.
Qed.

(** C10 (as amended): [wait] treats a value that is neither list nor tuple
    as the list of that one value, and [submit_file] treats a single
    dependency that is a non-empty string or a non-zero integer as the list
    of that one dependency. *)
Theorem C10_single_value_as_list E fuel script name threads (a d : atom) w :
  is_str_or_int d = true → atom_truthy d = true →
  wait E fuel (One a) w = wait E fuel (PyList [a]) w ∧
  submit_file E fuel script name (One d) threads w
  = submit_file E fuel script name (PyList [d]) threads w.
Proof.
  intros Hty Htr. split; [reflexivity|].
  unfold submit_file. by rewrite sanitize_single.
Qed.

Lemma C10_single_value_as_list_witness :
  is_str_or_int (AInt 42) = true ∧ atom_truthy (AInt 42) = true ∧
  wait (steady_env "Submitted batch job 7") 3 (One (AInt 41)) (world_with_queue "slurm")
  = wait (steady_env "Submitted batch job 7") 3 (PyList [AInt 41]) (world_with_queue "slurm") ∧
  submit_file (steady_env "Submitted batch job 7") 3 "job.sbatch" ANone (One (AInt 42))
    ANone (world_with_queue "slurm")
  = submit_file (steady_env "Submitted batch job 7") 3 "job.sbatch" ANone
      (PyList [AInt 42]) ANone (world_with_queue "slurm").
Proof.
  split; [reflexivity|]. split; [reflexivity|].
  apply (C10_single_value_as_list (steady_env "Submitted batch job 7") 3 "job.sbatch"
           ANone ANone (AInt 41) (AInt 42) (world_with_queue "slurm")); reflexivity.
Defined.

(** C10 (as stated, refuted): the single dependency [0] is dropped by the
    test [if dependencies:], the list [[0]] is not. *)
Lemma C10_zero_dependency_is_dropped :
  submit_file (steady_env "Submitted batch job 7") 1 "job.sbatch" ANone (One (AInt 0))
    ANone (world_with_queue "slurm")
  = (Ok (AInt 7), World "slurm" None [EvExec ["sbatch"; "job.sbatch"]] 1 ∅) ∧
  submit_file (steady_env "Submitted batch job 7") 1 "job.sbatch" ANone (PyList [AInt 0])
    ANone (world_with_queue "slurm")
  = (Ok (AInt 7),
     World "slurm" None [EvExec ["sbatch"; "--dependency=afterok:0"; "job.sbatch"]] 1 ∅) ∧
  submit_file (steady_env "Submitted batch job 7") 1 "job.sbatch" ANone (One (AInt 0))
    ANone (world_with_queue "slurm")
  ≠ submit_file (steady_env "Submitted batch job 7") 1 "job.sbatch" ANone (PyList [AInt 0])
      ANone (world_with_queue "slurm").
Proof.
  assert (H1 : submit_file (steady_env "Submitted batch job 7") 1 "job.sbatch" ANone
                 (One (AInt 0)) ANone (world_with_queue "slurm")
               = (Ok (AInt 7), World "slurm" None [EvExec ["sbatch"; "job.sbatch"]] 1 ∅))
    by (vm_compute; reflexivity).
  assert (H2 : submit_file (steady_env "Submitted batch job 7") 1 "job.sbatch" ANone
                 (PyList [AInt 0]) ANone (world_with_queue "slurm")
               = (Ok (AInt 7),
                  World "slurm" None
                    [EvExec ["sbatch"; "--dependency=afterok:0"; "job.sbatch"]] 1 ∅))
    by (vm_compute; reflexivity).
  split; [exact H1|]. split; [exact H2|].
  rewrite H1, H2. intros [= H]. 
Qed.

(** ** Module lines *)

Lemma str_app_nil_r s : s +:+ "" = s.
Proof. induction s as [|c s IH]; [done|]. rewrite app_cons. by rewrite IH. Qed.

Lemma module_lines_foldl acc modules :
  foldl (λ acc module, acc +:+ module_line module) acc modules
  = acc +:+ module_lines modules.
Proof.
  revert acc. induction modules as [|m modules IH]; intros acc.
  - cbn. by rewrite str_app_nil_r.
  - cbn [foldl]. rewrite IH. rewrite str_app_assoc. f_equal.
    unfold module_lines. cbn [fmap list_fmap PyStr.join].
    destruct modules as [|m' modules]; [by rewrite str_app_nil_r|].
    cbn [fmap list_fmap]. by rewrite app_nil.
Qed.

Lemma precmd_modules modules usedir name :
  precmd modules usedir name = module_lines modules +:+ preamble usedir name.
Proof. unfold precmd. rewrite module_lines_foldl. by rewrite app_nil. Qed.

Lemma submit_normal_writes E fuel command name threads time cores mem partition
    modules path deps p n dir :
  written_files (trace (submit E fuel command (AStr name) threads time cores mem
     partition modules path deps (World "normal" p [] n dir)).2)
  = [(path_join (abspath E ".") (name +:+ ".cluster"),
      normal_text command (precmd [] (abspath E ".") name))].
Proof.
  unfold submit.
  rewrite check_queue_accepts by (apply allowed_queue_cases; simpl; auto).
  rewrite bind_get_QUEUE. cbn [QUEUE].
  rewrite bool_decide_eq_false_2 by done. rewrite bool_decide_eq_false_2 by done.
  cbn [orb]. rewrite decide_True by done.
  erewrite bind_ok by apply make_job_file_normal.
  destruct p as [pl|]; [reflexivity|].
  unfold submit_file.
  rewrite check_queue_accepts by (apply allowed_queue_cases; simpl; auto).
  cbn [sanitize_dependencies truthy atom_truthy].
  rewrite bind_lift_ok, bind_get_QUEUE. cbn [QUEUE].
  rewrite decide_False by done. rewrite decide_False by done.
  rewrite decide_True by done.
  unfold bind at 1. unfold get_POOL at 1. cbn [POOL].
  unfold bind at 1. unfold bind at 1. unfold lift at 1.
  destruct (pool_size threads) as [size|e|]; reflexivity.
Qed.

Example module_lines_ex :
  module_lines [AStr "gcc"; AStr "samtools"] = "module load gcc
module load samtools
".
Proof. vm_compute. reflexivity. Qed.

(** C8 (as amended): [make_job_file] puts one [module load] line per
    module, in order, right before the pre-amble of the script that carries
    the command, in slurm, torque and normal mode alike; [submit] in normal
    mode calls [make_job_file] without the module list, so the script it
    builds has no such line. *)
Theorem C8_module_lines_before_preamble E command name time cores mem partition
    modules p n dir :
  written_files (trace (make_job_file E command (AStr name) time cores mem
     partition (PyList modules) None (World "slurm" p [] n dir)).2)
  = [(path_join (abspath E ".") (name +:+ ".cluster.sbatch"),
      sbatch_text (abspath E ".") name time
        (if atom_truthy cores then cores else AInt 1) mem partition);
     (path_join (abspath E ".") (name +:+ ".script"),
      "#!/bin/bash" +:+ nl +:+ "mkdir -p $LOCAL_SCRATCH" +:+ nl +:+
      module_lines modules +:+ preamble (abspath E ".") name +:+
      command +:+ nl +:+ pstcmd)] ∧
  written_files (trace (make_job_file E command (AStr name) time cores mem
     partition (PyList modules) None (World "torque" p [] n dir)).2)
  = [(path_join (abspath E ".") (name +:+ ".cluster.qsub"),
      qsub_directives name time (if atom_truthy cores then cores else AInt 1)
        mem partition +:+
      "mkdir -p $LOCAL_SCRATCH" +:+ nl +:+
      module_lines modules +:+ preamble (abspath E ".") name +:+
      command +:+ nl +:+ pstcmd)] ∧
  written_files (trace (make_job_file E command (AStr name) time cores mem
     partition (PyList modules) None (World "normal" p [] n dir)).2)
  = [(path_join (abspath E ".") (name +:+ ".cluster"),
      "#!/bin/bash" +:+ nl +:+
      module_lines modules +:+ preamble (abspath E ".") name +:+
      command +:+ nl +:+ pstcmd)] ∧
  (∀ fuel threads deps,
     written_files (trace (submit E fuel command (AStr name) threads time cores
        mem partition (PyList modules) None deps (World "normal" p [] n dir)).2)
     = [(path_join (abspath E ".") (name +:+ ".cluster"),
         "#!/bin/bash" +:+ nl +:+ preamble (abspath E ".") name +:+
         command +:+ nl +:+ pstcmd)]).
Proof.
  split; [|split; [|split]].
  - rewrite make_job_file_slurm. unfold slurm_script_text.
    rewrite precmd_modules, !str_app_assoc. reflexivity.
  - rewrite make_job_file_torque. unfold qsub_text.
    rewrite precmd_modules, !str_app_assoc. reflexivity.
  - rewrite make_job_file_normal. unfold normal_text.
    rewrite precmd_modules, !str_app_assoc. reflexivity.
  - intros fuel threads deps. rewrite submit_normal_writes. unfold normal_text.
    rewrite precmd_modules. reflexivity.
Qed.

(** C8 (as stated, refuted): in normal mode [make_job_file] with the module
    list [[gcc]] writes a [module load gcc] line into the script. *)
Lemma C8_local_script_has_module_lines :
  written_files (trace (make_job_file home_env "echo hi" (AStr "job1") ANone
     (AInt 1) ANone ANone (PyList [AStr "gcc"]) None (world_with_queue "normal")).2)
  = [("/home/user/job1.cluster",
      "#!/bin/bash
module load gcc
cd /home/user
date +'%d-%H:%M:%S'
echo " +:+ dquote +:+ "Running job1" +:+ dquote +:+ "
echo hi
exitcode=$?
echo Done
date +'%d-%H:%M:%S'
if [[ $exitcode != 0 ]]; then
    echo Exited with code: $? >&2
fi
")].
Proof. vm_compute. reflexivity. Qed.

(** ** Cleaning *)

Lemma startswith_comparable a b s :
  PyStr.startswith a s = true → PyStr.startswith b s = true →
  PyStr.startswith a b = true ∨ PyStr.startswith b a = true.
Proof.
  revert a b. induction s as [|z s IH]; intros [|x a] [|y b] Ha Hb;
    try (by left); try (by right); try discriminate.
  cbn [PyStr.startswith] in *.
  destruct (decide (x = z)) as [->|]; [|discriminate].
  destruct (decide (y = z)) as [->|]; [|discriminate].
  rewrite !decide_True by done. by apply IH.
Qed.

Lemma incomparable_exclusive f e e' :
  incomparable e e' → PyStr.endswith f e = true → PyStr.endswith f e' = false.
Proof.
  intros [H1 H2] He. destruct (PyStr.endswith f e') eqn:He'; [|done].
  unfold PyStr.endswith in *.
  destruct (startswith_comparable _ _ _ He He') as [H|H]; congruence.
Qed.

Lemma extensions_exclusive q : exclusive (extensions q).
Proof.
  unfold extensions.
  repeat case_decide; cbn; repeat split; repeat constructor.
Qed.

Lemma clean_file_no_match f exts deleted w :
  Forall (λ e, PyStr.endswith f e = false) exts →
  clean_file f exts deleted w = (Ok deleted, w).
Proof.
  revert deleted. induction exts as [|e exts IH]; intros deleted Hno; [reflexivity|].
  inversion Hno as [|? ? He Hrest]; subst.
  cbn [clean_file]. rewrite He. by apply IH.
Qed.

Lemma os_remove_file f w :
  cwd w !! f = Some RegularFile → os_remove f w = (Ok (), remove_all [f] w).
Proof. intros Hf. unfold os_remove. rewrite Hf. reflexivity. Qed.

(** One file: removed once if a suffix matches, untouched otherwise. *)
Lemma clean_file_spec f exts deleted w :
  exclusive exts → cwd w !! f = Some RegularFile →
  clean_file f exts deleted w =
  if existsb (PyStr.endswith f) exts
  then (Ok (deleted ++ [f]), remove_all [f] w)
  else (Ok deleted, w).
Proof.
  revert deleted. induction exts as [|e exts IH]; intros deleted Hex Hf; [reflexivity|].
  destruct Hex as [Hinc Hex]. cbn [clean_file existsb].
  destruct (PyStr.endswith f e) eqn:He; cbn [orb].
  - erewrite bind_ok by (by apply os_remove_file).
    apply clean_file_no_match.
    eapply Forall_impl; [exact Hinc|]. intros e' He'.
    by eapply incomparable_exclusive.
  - by apply IH.
Qed.

Lemma remove_all_cons f fs w :
  remove_all fs (remove_all [f] w) = remove_all (f :: fs) w.
Proof.
  unfold remove_all. cbn [QUEUE POOL trace nexec cwd foldl fmap list_fmap].
  by rewrite <- app_assoc.
Qed.

Lemma remove_all_nil w : remove_all [] w = w.
Proof. destruct w. unfold remove_all. cbn. by rewrite app_nil_r. Qed.

(** The outer loop: every listed regular file with a matching suffix is
    removed, once, and reported; the others stay. *)
Lemma clean_files_spec files exts deleted w :
  exclusive exts → NoDup files →
  Forall (λ f, cwd w !! f = Some RegularFile) files →
  clean_files files exts deleted w =
  (Ok (deleted ++ filter (λ f, existsb (PyStr.endswith f) exts = true) files),
   remove_all (filter (λ f, existsb (PyStr.endswith f) exts = true) files) w).
Proof.
  intros Hex. revert deleted w.
  induction files as [|f files IH]; intros deleted w Hnd Hreg.
  - cbn. by rewrite app_nil_r, remove_all_nil.
  - apply NoDup_cons in Hnd as [Hnotin Hnd].
    apply Forall_cons in Hreg as [Hf Hreg].
    cbn [clean_files].
    pose proof (clean_file_spec f exts deleted w Hex Hf) as Hcf.
    destruct (existsb (PyStr.endswith f) exts) eqn:Hm.
    + erewrite bind_ok by exact Hcf.
      rewrite (filter_cons_True (λ f, existsb (PyStr.endswith f) exts = true)) by exact Hm.
      rewrite IH; [|done|].
      * rewrite remove_all_cons, <- app_assoc. reflexivity.
      * rewrite Forall_forall in Hreg |- *. intros f' Hf'.
        cbn [remove_all cwd foldl]. rewrite lookup_delete_ne by (intros ->; done).
        by apply Hreg.
    + erewrite bind_ok by exact Hcf.
      rewrite (filter_cons_False (λ f, existsb (PyStr.endswith f) exts = true)) by (by rewrite Hm).
      by apply IH.
Qed.

Lemma lookup_remove_all fs w k :
  cwd (remove_all fs w) !! k = if decide (k ∈ fs) then None else cwd w !! k.
Proof.
  unfold remove_all. cbn [cwd]. generalize (cwd w) as m.
  induction fs as [|f fs IH]; intros m.
  - cbn [foldl]. rewrite decide_False by apply not_elem_of_nil. reflexivity.
  - cbn [foldl]. rewrite IH.
    destruct (decide (k ∈ fs)) as [Hin|Hnin].
    + rewrite decide_True by (rewrite elem_of_cons; auto). reflexivity.
    + destruct (decide (k = f)) as [->|Hne].
      * rewrite decide_True by (rewrite elem_of_cons; auto). apply lookup_delete_eq.
      * rewrite decide_False by (rewrite elem_of_cons; tauto). by apply lookup_delete_ne.
Qed.


(** What [clean] does when [os.listdir] returns, for any listing without
    repeated names: it removes from the current directory, and reports, the
    listed names that are regular files of the current directory and end in
    a suffix of the mode. *)
Theorem clean_spec E directory w :
  QUEUE w ∈ ALLOWED_QUEUES →
  listdir_error E (abspath E directory) = None →
  NoDup (listdir E (abspath E directory)) →
  clean E directory w =
  match filter (λ i, isfile w i = true) (listdir E (abspath E directory)) with
  | [] => (Ok [], add_events [EvLog "No files found." "debug"] w)
  | files =>
      (Ok (filter (λ f, has_extension (QUEUE w) f = true) files),
       remove_all (filter (λ f, has_extension (QUEUE w) f = true) files) w)
  end.
Proof.
  intros Hq Hok Hnd. unfold clean.
  rewrite (check_queue_accepts _ _ _ Hq), bind_get_QUEUE.
  unfold os_listdir. rewrite Hok, bind_ret.
  erewrite bind_ok by reflexivity.
  assert (Hnd' : NoDup (filter (λ i, isfile w i = true) (listdir E (abspath E directory))))
    by (by apply NoDup_filter).
  assert (Hreg : Forall (λ f, cwd w !! f = Some RegularFile)
                   (filter (λ i, isfile w i = true) (listdir E (abspath E directory)))).
  { apply Forall_forall. intros f [Hf _]%list_elem_of_filter.
    unfold isfile in Hf. destruct (cwd w !! f) as [[]|]; done. }
  destruct (filter _ _) as [|f files] eqn:Hfiles; [reflexivity|].
  rewrite clean_files_spec; [reflexivity|apply extensions_exclusive|done|done].
Qed.


(** C7 (fails on the code): [clean] lists the directory it is given but
    tests and removes the names in the current directory.  Asked to clean
    [sub], which holds [a.cluster.out], it deletes nothing when the current
    directory has no file of that name, and deletes the current directory's
    own [a.cluster.out] when it has one. *)
Theorem C7_clean_ignores_its_directory :
  listdir subdir_env (abspath subdir_env "sub") = ["a.cluster.out"; "notes.txt"] ∧
  has_extension "normal" "a.cluster.out" = true ∧
  clean subdir_env "sub" (world_with_queue "normal")
  = (Ok [], World "normal" None [EvLog "No files found." "debug"] 0 ∅) ∧
  clean subdir_env "sub"
    (World "normal" None [] 0
       {[ "a.cluster.out" := RegularFile; "b.cluster.out" := RegularFile ]})
  = (Ok ["a.cluster.out"],
     World "normal" None [EvRemove "a.cluster.out"] 0
       {[ "b.cluster.out" := RegularFile ]}).
Proof.
  split; [reflexivity|]. split; [reflexivity|]. split; [reflexivity|].
  rewrite clean_spec.
  - vm_compute. reflexivity.
  - apply allowed_queue_cases. cbn. auto.
  - reflexivity.
  - apply (bool_decide_unpack _). by vm_compute.
Qed.

(** * Further properties of the module *)

(** ** An unusable QUEUE *)

(** X1: with a [QUEUE] outside [ALLOWED_QUEUES], every operation raises
    [ClusterError] at once and leaves the world as it found it: nothing is
    written, run, slept or removed. *)
Theorem X1_invalid_queue_fails_fast E w :
  QUEUE w ∉ ALLOWED_QUEUES →
  ∃ msg,
    (∀ command name time cores mem partition modules path,
       make_job_file E command name time cores mem partition modules path w
       = (Raise (ClusterError msg), w)) ∧
    (∀ fuel command name threads time cores mem partition modules path deps,
       submit E fuel command name threads time cores mem partition modules path deps w
       = (Raise (ClusterError msg), w)) ∧
    (∀ fuel script name deps threads,
       submit_file E fuel script name deps threads w = (Raise (ClusterError msg), w)) ∧
    (∀ fuel jobs, wait E fuel jobs w = (Raise (ClusterError msg), w)) ∧
    (∀ directory, clean E directory w = (Raise (ClusterError msg), w)).
Proof.
  intros Hq. destruct (check_queue_rejects _ Hq) as [msg Hmsg]. exists msg.
  repeat split; intros.
  - unfold make_job_file. apply Hmsg.
  - unfold submit. apply Hmsg.
  - unfold submit_file. apply Hmsg.
  - unfold wait. apply Hmsg.
  - unfold clean. apply Hmsg.
Qed.

Lemma X1_invalid_queue_fails_fast_witness :
  (QUEUE (world_with_queue "pbs") ∉ ALLOWED_QUEUES) ∧
  ∃ msg,
    (∀ command name time cores mem partition modules path,
       make_job_file home_env command name time cores mem partition modules path
         (world_with_queue "pbs")
       = (Raise (ClusterError msg), world_with_queue "pbs")) ∧
    (∀ fuel command name threads time cores mem partition modules path deps,
       submit home_env fuel command name threads time cores mem partition modules
         path deps (world_with_queue "pbs")
       = (Raise (ClusterError msg), world_with_queue "pbs")) ∧
    (∀ fuel script name deps threads,
       submit_file home_env fuel script name deps threads (world_with_queue "pbs")
       = (Raise (ClusterError msg), world_with_queue "pbs")) ∧
    (∀ fuel jobs,
       wait home_env fuel jobs (world_with_queue "pbs")
       = (Raise (ClusterError msg), world_with_queue "pbs")) ∧
    (∀ directory,
       clean home_env directory (world_with_queue "pbs")
       = (Raise (ClusterError msg), world_with_queue "pbs")).
Proof.
  assert (Hq : QUEUE (world_with_queue "pbs") ∉ ALLOWED_QUEUES).
  { rewrite allowed_queue_cases. intros [H|[H|H]]; discriminate H. }
  split; [exact Hq|].
  exact (X1_invalid_queue_fails_fast home_env (world_with_queue "pbs") Hq).
Defined.

(** ** Submission: retries, parsing, dependencies, the pool *)

Lemma after_calls_exec k es args w :
  add_exec args (after_calls k es w) = after_calls (S k) (es ++ [EvExec args]) w.
Proof. unfold add_exec, after_calls. cbn. by rewrite app_assoc. Qed.

Lemma after_calls_events k es es' w :
  add_events es' (after_calls k es w) = after_calls k (es ++ es') w.
Proof. unfold add_events, after_calls. cbn. by rewrite app_assoc. Qed.

Lemma after_calls_0 w : after_calls 0 [] w = w.
Proof. destruct w. unfold after_calls. cbn. by rewrite app_nil_r. Qed.

(** A call that succeeds and whose output parses ends the loop. *)
Lemma submit_loop_success E fuel args job_id count w out z :
  tool E (nexec w) args = Some out → job_id out = Ok z →
  submit_loop E (S fuel) args job_id count w = (Ok z, add_exec args w).
Proof.
  intros Hout Hz. cbn [submit_loop]. unfold bind at 1. unfold try_except.
  unfold bind at 1. unfold check_output. rewrite Hout.
  unfold bind, lift, ret. rewrite Hz. reflexivity.
Qed.


Lemma submit_loop_after_failures E k : ∀ fuel args job_id count w out z,
  (count + k ≤ 5)%nat →
  (∀ i, (i < k)%nat → tool E (nexec w + i) args = None) →
  tool E (nexec w + k) args = Some out → job_id out = Ok z →
  submit_loop E (S k + fuel) args job_id count w
  = (Ok z, after_calls (S k) (retry_trace k args) w).
Proof.
  induction k as [|k IH]; intros fuel args job_id count w out z Hk Hfail Hout Hz.
  - rewrite Nat.add_0_r in Hout.
    rewrite (submit_loop_success _ _ _ _ _ _ _ _ Hout Hz).
    rewrite <- (after_calls_0 w) at 1. by rewrite after_calls_exec.
  - change (S (S k) + fuel)%nat with (S (S k + fuel)).
    rewrite submit_loop_retry; [| |lia].
    2: { rewrite <- (Nat.add_0_r (nexec w)). apply Hfail. lia. }
    rewrite (IH fuel args job_id (count + 1)%nat _ out z).
    + unfold after_calls, add_events, add_exec, retry_trace.
      cbn [QUEUE POOL trace nexec cwd replicate concat].
      f_equal. f_equal; [|lia].
      rewrite <- !app_assoc. reflexivity.
    + lia.
    + intros i Hi. cbn [nexec add_events add_exec].
      replace (S (nexec w) + i)%nat with (nexec w + S i)%nat by lia.
      apply Hfail. lia.
    + cbn [nexec add_events add_exec].
      replace (S (nexec w) + k)%nat with (nexec w + S k)%nat by lia. exact Hout.
    + exact Hz.
Qed.

(** In the two scheduler modes [submit_file] is the submission loop on the
    command line for the cleaned dependencies. *)
Lemma submit_file_scheduler E fuel script name d threads w deps :
  QUEUE w = "slurm" ∨ QUEUE w = "torque" →
  sanitize_dependencies d = Ok deps →
  submit_file E fuel script name d threads w
  = bind (submit_loop E fuel (submit_args (QUEUE w) deps script)
            (submit_id (QUEUE w)) 0)
         (λ job, ret (AInt job)) w.
Proof.
  intros Hq Hd. unfold submit_file.
  rewrite check_queue_accepts by (apply allowed_queue_cases; tauto).
  rewrite Hd, bind_lift_ok, bind_get_QUEUE.
  unfold submit_args, submit_id.
  destruct Hq as [Hq|Hq]; rewrite Hq.
  - rewrite !decide_True by done. by destruct deps.
  - rewrite !decide_False by done. rewrite decide_True by done. by destruct deps.
Qed.

(** X2: in slurm or torque mode, when the submission program exits non-zero
    on its first [k] calls, [k] at most five, and then prints a job number,
    [submit_file] returns that number after [k + 1] calls and [k] one-second
    sleeps. *)
Theorem X2_submit_succeeds_after_failures E k fuel script name d threads w deps out z :
  QUEUE w = "slurm" ∨ QUEUE w = "torque" →
  sanitize_dependencies d = Ok deps →
  (k ≤ 5)%nat →
  (∀ i, (i < k)%nat →
        tool E (nexec w + i) (submit_args (QUEUE w) deps script) = None) →
  tool E (nexec w + k) (submit_args (QUEUE w) deps script) = Some out →
  submit_id (QUEUE w) out = Ok z →
  submit_file E (S k + fuel) script name d threads w
  = (Ok (AInt z),
     after_calls (S k) (retry_trace k (submit_args (QUEUE w) deps script)) w).
Proof.
  intros Hq Hd Hk Hfail Hout Hz.
  rewrite (submit_file_scheduler _ _ _ _ _ _ _ deps Hq Hd).
  erewrite bind_ok; [reflexivity|].
  by eapply submit_loop_after_failures.
Qed.

Lemma X2_submit_succeeds_after_failures_witness :
  (QUEUE (world_with_queue "slurm") = "slurm" ∨
   QUEUE (world_with_queue "slurm") = "torque") ∧
  sanitize_dependencies (PyList [AInt 12; AStr "13"]) = Ok ["12"; "13"] ∧
  submit_file (flaky_env "Submitted batch job 4711") (2 + 0) "job1.cluster.sbatch"
    ANone (PyList [AInt 12; AStr "13"]) ANone (world_with_queue "slurm")
  = (Ok (AInt 4711),
     after_calls 2
       (retry_trace 1 (submit_args (QUEUE (world_with_queue "slurm")) ["12"; "13"]
                         "job1.cluster.sbatch"))
       (world_with_queue "slurm")) ∧
  retry_trace 1 (submit_args "slurm" ["12"; "13"] "job1.cluster.sbatch")
  = [EvExec ["sbatch"; "--dependency=afterok:12:13"; "job1.cluster.sbatch"];
     EvSleep 1;
     EvExec ["sbatch"; "--dependency=afterok:12:13"; "job1.cluster.sbatch"]].
Proof.
  split; [by left|]. split; [by vm_compute|]. split; [|by vm_compute].
  apply (X2_submit_succeeds_after_failures (flaky_env "Submitted batch job 4711")
           1 0 "job1.cluster.sbatch" ANone (PyList [AInt 12; AStr "13"]) ANone
           (world_with_queue "slurm") ["12"; "13"] "Submitted batch job 4711" 4711).
  - by left.
  - by vm_compute.
  - lia.
  - intros [|i] Hi; [reflexivity|lia].
  - reflexivity.
  - by vm_compute.
Defined.






(** X4: a dependency argument that is false in Python ([None], [0], the
    empty string, list or tuple) is the same as no dependency argument. *)
Theorem X4_false_dependencies_mean_none E fuel script name d threads w :
  truthy d = false →
  submit_file E fuel script name d threads w
  = submit_file E fuel script name no_dependencies threads w.
Proof.
  intros Hd. unfold submit_file, sanitize_dependencies. rewrite Hd. reflexivity.
Qed.

Lemma X4_false_dependencies_mean_none_witness :
  truthy (PyTuple []) = false ∧
  submit_file (steady_env "Submitted batch job 7") 1 "job1.cluster.sbatch" ANone
    (PyTuple []) ANone (world_with_queue "slurm")
  = submit_file (steady_env "Submitted batch job 7") 1 "job1.cluster.sbatch" ANone
      no_dependencies ANone (world_with_queue "slurm").
Proof.
  split; [reflexivity|].
  apply (X4_false_dependencies_mean_none (steady_env "Submitted batch job 7") 1
           "job1.cluster.sbatch" ANone (PyTuple []) ANone (world_with_queue "slurm")).
  reflexivity.
Defined.

(** X5: a dependency argument that is an [ApplyResult] (true in Python, and
    neither string, integer, list nor tuple) makes [submit_file] raise
    [Exception] in every mode, the normal one included, before anything is
    run or submitted. *)
Theorem X5_malformed_dependency_raises E fuel script name r threads w :
  QUEUE w ∈ ALLOWED_QUEUES →
  submit_file E fuel script name (One (AResult r)) threads w
  = (Raise (PyException "dependencies must be a list, int, or string."), w).
Proof.
  intros Hq. unfold submit_file. rewrite (check_queue_accepts _ _ _ Hq).
  reflexivity.
Qed.

Lemma X5_malformed_dependency_raises_witness :
  QUEUE (world_with_queue "normal") ∈ ALLOWED_QUEUES ∧
  submit_file home_env 1 "job1.cluster" (AStr "job1") (One (AResult (ApplyResult 0)))
    ANone (world_with_queue "normal")
  = (Raise (PyException "dependencies must be a list, int, or string."),
     world_with_queue "normal").
Proof.
  assert (Hq : QUEUE (world_with_queue "normal") ∈ ALLOWED_QUEUES).
  { apply allowed_queue_cases. cbn. auto. }
  split; [exact Hq|].
  exact (X5_malformed_dependency_raises home_env 1 "job1.cluster" (AStr "job1")
           (ApplyResult 0) ANone (world_with_queue "normal") Hq).
Defined.

(** What [Pool] makes of the thread count. *)
Lemma pool_size_cases threads :
  match threads with
  | ANone => pool_size threads = Ok None
  | AInt n => if decide (n = 0) then pool_size threads = Ok None
              else if decide (n < 0) then pool_size threads = Raise ValueError
              else pool_size threads = Ok (Some threads)
  | AStr s => if decide (s = "") then pool_size threads = Ok None
              else pool_size threads = Raise TypeError
  | AResult _ => pool_size threads = Raise TypeError
  end.
Proof.
  destruct threads as [|s|n|r]; [reflexivity| | |reflexivity].
  - destruct s; reflexivity.
  - unfold pool_size. cbn [atom_truthy].
    destruct (decide (n = 0)) as [->|Hn]; [reflexivity|].
    rewrite bool_decide_eq_true_2 by done.
    destruct (decide (n < 0)); [rewrite decide_True by lia|rewrite decide_False by lia];
      reflexivity.
Qed.

Lemma submit_file_normal_first E fuel script name d threads w deps size :
  QUEUE w = "normal" → POOL w = None → sanitize_dependencies d = Ok deps →
  pool_size threads = Ok size →
  submit_file E fuel script name d threads w
  = (Ok (AResult (ApplyResult 0)),
     after_async (new_pool size) [EvPool size; async_event script name] w).
Proof.
  intros Hq Hp Hd Hsize. unfold submit_file.
  rewrite check_queue_accepts by (apply allowed_queue_cases; tauto).
  rewrite Hd, bind_lift_ok, bind_get_QUEUE, Hq.
  rewrite decide_False by done. rewrite decide_False by done.
  rewrite decide_True by done.
  unfold bind, get_POOL, lift, emit, set_POOL, ret, add_events, after_async, async_event.
  rewrite Hp, Hsize. cbn [QUEUE POOL trace nexec cwd pool_threads pool_submitted new_pool].
  rewrite <- app_assoc. rewrite Hq. reflexivity.
Qed.

Lemma submit_file_normal_refused E fuel script name d threads w deps e :
  QUEUE w = "normal" → POOL w = None → sanitize_dependencies d = Ok deps →
  pool_size threads = Raise e →
  submit_file E fuel script name d threads w = (Raise e, w).
Proof.
  intros Hq Hp Hd Hsize. unfold submit_file.
  rewrite check_queue_accepts by (apply allowed_queue_cases; tauto).
  rewrite Hd, bind_lift_ok, bind_get_QUEUE, Hq.
  rewrite decide_False by done. rewrite decide_False by done.
  rewrite decide_True by done.
  unfold bind, get_POOL, lift. rewrite Hp, Hsize. reflexivity.
Qed.

Lemma submit_file_normal_next E fuel script name d threads w deps p :
  QUEUE w = "normal" → POOL w = Some p → sanitize_dependencies d = Ok deps →
  submit_file E fuel script name d threads w
  = (Ok (AResult (ApplyResult (pool_submitted p))),
     after_async p [async_event script name] w).
Proof.
  intros Hq Hp Hd. unfold submit_file.
  rewrite check_queue_accepts by (apply allowed_queue_cases; tauto).
  rewrite Hd, bind_lift_ok, bind_get_QUEUE, Hq.
  rewrite decide_False by done. rewrite decide_False by done.
  rewrite decide_True by done.
  unfold bind, get_POOL, emit, set_POOL, ret, add_events, after_async, async_event.
  rewrite Hp. cbn [QUEUE POOL trace nexec cwd pool_threads pool_submitted].
  rewrite Hq. reflexivity.
Qed.

(** X6: in normal mode the worker pool is made once.  When [Pool] accepts
    the thread count of the first [submit_file] (none, or an integer of at
    least one), that call creates the pool with it and returns the handle
    0; a second [submit_file] creates nothing, ignores its own thread
    count, hands its script to the same pool and returns the handle 1; each
    script runs as [bash <script>] with output in [<name>.cluster.out] and
    [<name>.cluster.err].  When [Pool] refuses the thread count, the first
    [submit_file] raises that error: no pool is kept, nothing is handed
    over and no handle is returned. *)
Theorem X6_pool_is_created_once E fuel1 fuel2 script1 script2 name1 name2
    threads1 threads2 w :
  QUEUE w = "normal" → POOL w = None →
  (∀ size, pool_size threads1 = Ok size →
     submit_file E fuel1 script1 name1 no_dependencies threads1 w
     = (Ok (AResult (ApplyResult 0)),
        after_async (new_pool size) [EvPool size; async_event script1 name1] w) ∧
     submit_file E fuel2 script2 name2 no_dependencies threads2
       (after_async (new_pool size) [EvPool size; async_event script1 name1] w)
     = (Ok (AResult (ApplyResult 1)),
        {| QUEUE := "normal";
           POOL := Some (Pool size 2);
           trace := trace w ++ [EvPool size; async_event script1 name1;
                                async_event script2 name2];
           nexec := nexec w; cwd := cwd w |})) ∧
  (∀ e, pool_size threads1 = Raise e →
     submit_file E fuel1 script1 name1 no_dependencies threads1 w = (Raise e, w)).
Proof.
  intros Hq Hp. split.
  - intros size Hsize. split.
    + by apply (submit_file_normal_first _ _ _ _ _ _ _ []).
    + rewrite (submit_file_normal_next _ _ _ _ _ _ _ [] (Pool size 1)); [|done..].
      unfold after_async. cbn [QUEUE POOL trace nexec cwd pool_threads pool_submitted].
      rewrite Hq, <- app_assoc. reflexivity.
  - intros e Hsize. by apply (submit_file_normal_refused _ _ _ _ _ _ _ []).
Qed.

Lemma X6_pool_is_created_once_witness :
  QUEUE (world_with_queue "normal") = "normal" ∧
  POOL (world_with_queue "normal") = None ∧
  submit_file home_env 0 "a.cluster" (AStr "a") no_dependencies (AInt 4)
    (world_with_queue "normal")
  = (Ok (AResult (ApplyResult 0)),
     World "normal" (Some (Pool (Some (AInt 4)) 1))
       [EvPool (Some (AInt 4));
        EvApplyAsync "bash a.cluster" "a.cluster.out" "a.cluster.err"] 0 ∅) ∧
  submit_file home_env 0 "b.cluster" (AStr "b") no_dependencies (AInt 8)
    (World "normal" (Some (Pool (Some (AInt 4)) 1))
       [EvPool (Some (AInt 4));
        EvApplyAsync "bash a.cluster" "a.cluster.out" "a.cluster.err"] 0 ∅)
  = (Ok (AResult (ApplyResult 1)),
     World "normal" (Some (Pool (Some (AInt 4)) 2))
       [EvPool (Some (AInt 4));
        EvApplyAsync "bash a.cluster" "a.cluster.out" "a.cluster.err";
        EvApplyAsync "bash b.cluster" "b.cluster.out" "b.cluster.err"] 0 ∅) ∧
  submit_file home_env 0 "a.cluster" (AStr "a") no_dependencies (AInt (-1))
    (world_with_queue "normal")
  = (Raise ValueError, world_with_queue "normal") ∧
  submit_file home_env 0 "a.cluster" (AStr "a") no_dependencies (AStr "four")
    (world_with_queue "normal")
  = (Raise TypeError, world_with_queue "normal").
Proof.
  split; [reflexivity|]. split; [reflexivity|].
  split; [|split; [|split]].
  - apply (proj1 (X6_pool_is_created_once home_env 0 0 "a.cluster" "b.cluster"
                    (AStr "a") (AStr "b") (AInt 4) (AInt 8) (world_with_queue "normal")
                    eq_refl eq_refl) (Some (AInt 4)) eq_refl).
  - apply (proj1 (X6_pool_is_created_once home_env 0 0 "a.cluster" "b.cluster"
                    (AStr "a") (AStr "b") (AInt 4) (AInt 8) (world_with_queue "normal")
                    eq_refl eq_refl) (Some (AInt 4)) eq_refl).
  - apply (proj2 (X6_pool_is_created_once home_env 0 0 "a.cluster" "b.cluster"
                    (AStr "a") (AStr "b") (AInt (-1)) (AInt 8) (world_with_queue "normal")
                    eq_refl eq_refl) ValueError eq_refl).
  - apply (proj2 (X6_pool_is_created_once home_env 0 0 "a.cluster" "b.cluster"
                    (AStr "a") (AStr "b") (AStr "four") (AInt 8) (world_with_queue "normal")
                    eq_refl eq_refl) TypeError eq_refl).
Defined.

(** ** Waiting *)

Lemma check_job_types_ok jobs w :
  Forall (λ a, is_job a = true) jobs →
  for_each jobs check_job_type w = (Ok (), w).
Proof.
  induction 1 as [|a jobs Ha _ IH]; [reflexivity|].
  cbn [for_each]. destruct a; try discriminate Ha; cbn [check_job_type];
    rewrite bind_ret; apply IH.
Qed.

Lemma check_job_types_none jobs w :
  ANone ∈ jobs →
  for_each jobs check_job_type w
  = (Raise (ClusterError ("job must be int, string, or ApplyResult, " +:+
                          "is <class 'NoneType'>")), w).
Proof.
  induction jobs as [|a jobs IH]; intros Hin; [by apply elem_of_nil in Hin|].
  cbn [for_each]. destruct a; cbn [check_job_type].
  - reflexivity.
  - rewrite bind_ret. apply IH. by apply elem_of_cons in Hin as [?|?].
  - rewrite bind_ret. apply IH. by apply elem_of_cons in Hin as [?|?].
  - rewrite bind_ret. apply IH. by apply elem_of_cons in Hin as [?|?].
Qed.

(** The jobs [wait] works on: the list or tuple itself, or the one value. *)
Lemma wait_unfold E fuel jobs w :
  QUEUE w ∈ ALLOWED_QUEUES → Forall (λ a, is_job a = true) jobs →
  wait E fuel (PyList jobs) w
  = (if decide (QUEUE w = "normal") then for_each jobs wait_normal_job
     else if decide (QUEUE w = "torque") then
       bind (sleep 5) (λ _, wait_torque E fuel (py_str <$> jobs))
     else bind (sleep 2) (λ _, wait_slurm E fuel (py_str <$> jobs))) w.
Proof.
  intros Hq Hjobs. unfold wait. rewrite (check_queue_accepts _ _ _ Hq).
  erewrite bind_ok by (by apply check_job_types_ok).
  rewrite bind_get_QUEUE.
  apply allowed_queue_cases in Hq as [Hq|[Hq|Hq]]; rewrite Hq;
    repeat (rewrite decide_False by done); repeat (rewrite decide_True by done);
    reflexivity.
Qed.

(** X7: a job that is [None] makes [wait] raise [ClusterError] before it
    sleeps, queries or blocks on anything, wherever the [None] stands in the
    list and whatever the mode. *)
Theorem X7_wait_rejects_none_first E fuel jobs w :
  QUEUE w ∈ ALLOWED_QUEUES → ANone ∈ jobs →
  wait E fuel (PyList jobs) w
  = (Raise (ClusterError ("job must be int, string, or ApplyResult, " +:+
                          "is <class 'NoneType'>")), w).
Proof.
  intros Hq Hin. unfold wait. rewrite (check_queue_accepts _ _ _ Hq).
  erewrite bind_raise; [reflexivity|]. by apply check_job_types_none.
Qed.

Lemma X7_wait_rejects_none_first_witness :
  QUEUE (world_with_queue "torque") ∈ ALLOWED_QUEUES ∧
  ANone ∈ [AInt 100; ANone] ∧
  wait (steady_env "") 3 (PyList [AInt 100; ANone]) (world_with_queue "torque")
  = (Raise (ClusterError ("job must be int, string, or ApplyResult, " +:+
                          "is <class 'NoneType'>")), world_with_queue "torque").
Proof.
  assert (Hq : QUEUE (world_with_queue "torque") ∈ ALLOWED_QUEUES).
  { apply allowed_queue_cases. cbn. auto. }
  assert (Hin : ANone ∈ [AInt 100; ANone]).
  { apply elem_of_cons. right. apply elem_of_cons. by left. }
  split; [exact Hq|]. split; [exact Hin|].
  exact (X7_wait_rejects_none_first (steady_env "") 3 [AInt 100; ANone]
           (world_with_queue "torque") Hq Hin).
Defined.

Lemma wait_normal_results rs w :
  for_each (AResult <$> rs) wait_normal_job w
  = (Ok (), add_events (EvJobWait <$> rs) w).
Proof.
  revert w. induction rs as [|r rs IH]; intros w.
  - destruct w. unfold add_events. cbn. by rewrite app_nil_r.
  - cbn [fmap list_fmap for_each wait_normal_job]. rewrite bind_emit, IH.
    rewrite add_events_app. reflexivity.
Qed.

Lemma is_job_results rs : Forall (λ a, is_job a = true) (AResult <$> rs).
Proof. apply Forall_fmap, Forall_forall. done. Qed.

(** X8: in normal mode [wait] blocks on each [ApplyResult] in the order
    given and returns, whatever the loop budget; it neither sleeps nor runs
    a program.  With no job at all it returns at once. *)
Theorem X8_wait_normal_blocks_in_order E fuel rs w :
  QUEUE w = "normal" →
  wait E fuel (PyList (AResult <$> rs)) w
  = (Ok (), add_events (EvJobWait <$> rs) w).
Proof.
  intros Hq. rewrite wait_unfold.
  - rewrite Hq, decide_True by done. apply wait_normal_results.
  - apply allowed_queue_cases. tauto.
  - apply is_job_results.
Qed.

Lemma X8_wait_normal_blocks_in_order_witness :
  QUEUE (world_with_queue "normal") = "normal" ∧
  wait home_env 0 (PyList (AResult <$> [ApplyResult 0; ApplyResult 1]))
    (world_with_queue "normal")
  = (Ok (),
     add_events (EvJobWait <$> [ApplyResult 0; ApplyResult 1])
       (world_with_queue "normal")).
Proof.
  split; [reflexivity|].
  apply (X8_wait_normal_blocks_in_order home_env 0 [ApplyResult 0; ApplyResult 1]
           (world_with_queue "normal")).
  reflexivity.
Defined.

(** X9: in normal mode a job that is a string or an integer (a scheduler job
    number) makes [wait] raise [ClusterError], but only after it has blocked
    on the [ApplyResult]s that stand before it. *)
Theorem X9_wait_normal_rejects_job_numbers E fuel rs a rest w :
  QUEUE w = "normal" → is_str_or_int a = true →
  Forall (λ a, is_job a = true) rest →
  wait E fuel (PyList ((AResult <$> rs) ++ a :: rest)) w
  = (Raise (ClusterError "jobs must be ApplyResult objects"),
     add_events (EvJobWait <$> rs) w).
Proof.
  intros Hq Ha Hrest. rewrite wait_unfold.
  - rewrite Hq, decide_True by done. clear Hq. revert w.
    induction rs as [|r rs IH]; intros w.
    + cbn [fmap list_fmap app for_each].
      destruct a; try discriminate Ha;
        destruct w; unfold add_events; cbn; by rewrite app_nil_r.
    + cbn [fmap list_fmap app for_each wait_normal_job].
      rewrite bind_emit, IH, add_events_app. reflexivity.
  - apply allowed_queue_cases. tauto.
  - apply Forall_app. split; [apply is_job_results|].
    apply Forall_cons. split; [by destruct a|done].
Qed.

Lemma X9_wait_normal_rejects_job_numbers_witness :
  QUEUE (world_with_queue "normal") = "normal" ∧
  is_str_or_int (AInt 4711) = true ∧
  Forall (λ a, is_job a = true) [AResult (ApplyResult 1)] ∧
  wait home_env 0
    (PyList ((AResult <$> [ApplyResult 0]) ++ AInt 4711 :: [AResult (ApplyResult 1)]))
    (world_with_queue "normal")
  = (Raise (ClusterError "jobs must be ApplyResult objects"),
     add_events (EvJobWait <$> [ApplyResult 0]) (world_with_queue "normal")).
Proof.
  assert (Hrest : Forall (λ a, is_job a = true) [AResult (ApplyResult 1)]).
  { repeat constructor. }
  split; [reflexivity|]. split; [reflexivity|]. split; [exact Hrest|].
  apply (X9_wait_normal_rejects_job_numbers home_env 0 [ApplyResult 0] (AInt 4711)
           [AResult (ApplyResult 1)] (world_with_queue "normal"));
    [reflexivity|reflexivity|exact Hrest].
Defined.

(** One round of the torque loop whose query succeeds. *)
Lemma wait_torque_round E fuel jobs w out :
  tool E (nexec w) qstat_argv = Some out →
  wait_torque E (S fuel) jobs w
  = match torque_poll out jobs with
    | Ok [] => (Ok (), add_exec qstat_argv w)
    | Ok jobs' =>
        wait_torque E fuel jobs' (add_events [EvSleep 2] (add_exec qstat_argv w))
    | Raise e => (Raise e, add_exec qstat_argv w)
    | OutOfFuel => (OutOfFuel, add_exec qstat_argv w)
    end.
Proof.
  intros Hout. cbn [wait_torque]. fold qstat_argv.
  unfold bind at 1. unfold try_except. unfold bind at 1. unfold check_output.
  rewrite Hout. cbn [ret].
  destruct (torque_poll out jobs) as [[|j jobs']| |]; reflexivity.
Qed.

Lemma torque_complete_error rows e : torque_complete rows = Raise e → e = IndexError.
Proof.
  induction rows as [|j rows IH]; [discriminate|].
  cbn [torque_complete]. unfold list_item.
  destruct (PyStr.re_split_spaces false j !! 9%nat); cbn [bind_pure]; [|congruence].
  destruct (torque_complete rows); cbn [bind_pure]; [discriminate|auto|discriminate].
Qed.

Lemma torque_complete_fuel rows : torque_complete rows ≠ OutOfFuel.
Proof.
  induction rows as [|j rows IH]; [discriminate|].
  cbn [torque_complete]. unfold list_item.
  destruct (PyStr.re_split_spaces false j !! 9%nat); cbn [bind_pure]; [|discriminate].
  destruct (torque_complete rows); cbn [bind_pure]; [discriminate|discriminate|done].
Qed.

(** What a cycle of the torque branch can raise, and when. *)
Lemma torque_poll_error out jobs e :
  torque_poll out jobs = Raise e →
  e = IndexError ∨
  (e = ClusterError "Unrecognized torque qstat format" ∧
   ∃ cols col, torque_header_columns out = Some cols ∧
               cols !! 9%nat = Some col ∧ col ≠ "S").
Proof.
  unfold torque_poll, torque_header_columns. fold (torque_lines out).
  unfold list_item.
  destruct (torque_lines out !! 3%nat) as [header|]; cbn [bind_pure fmap option_fmap option_map];
    [|intros [= <-]; by left].
  destruct (PyStr.re_split_wide 0 header !! 9%nat) as [col|] eqn:Hcol; cbn [bind_pure];
    [|intros [= <-]; by left].
  destruct (decide (col = "S")).
  - destruct (torque_complete _) eqn:Hc; cbn [bind_pure]; try discriminate.
    intros [= <-]. left. by eapply torque_complete_error.
  - intros [= <-]. right. split; [done|]. eauto.
Qed.

Lemma torque_poll_fuel out jobs : torque_poll out jobs ≠ OutOfFuel.
Proof.
  unfold torque_poll, list_item.
  destruct (_ !! 3%nat); cbn [bind_pure]; [|discriminate].
  destruct (_ !! 9%nat); cbn [bind_pure]; [|discriminate].
  destruct (decide _); [|discriminate].
  destruct (torque_complete _) eqn:Hc; cbn [bind_pure]; try discriminate.
  by apply torque_complete_fuel in Hc.
Qed.

Lemma torque_poll_short out jobs :
  (length (torque_lines out) < 4)%nat → torque_poll out jobs = Raise IndexError.
Proof.
  intros Hlen. unfold torque_poll. fold (torque_lines out). unfold list_item.
  rewrite (lookup_ge_None_2 (torque_lines out) 3) by lia. reflexivity.
Qed.

Lemma torque_poll_header out jobs cols :
  torque_header_columns out = Some cols →
  torque_poll out jobs =
  match cols !! 9%nat with
  | None => Raise IndexError
  | Some col =>
      if decide (col = "S") then
        bind_pure (torque_complete (torque_rows out))
          (λ complete, Ok (torque_trim complete (torque_all (torque_rows out)) jobs))
      else Raise (ClusterError "Unrecognized torque qstat format")
  end.
Proof.
  unfold torque_header_columns, torque_poll. fold (torque_lines out).
  unfold list_item, torque_rows. fold (torque_lines out).
  destruct (torque_lines out !! 3%nat) as [header|];
    cbn [fmap option_fmap option_map bind_pure]; [|discriminate].
  intros [= <-]. destruct (_ !! 9%nat); reflexivity.
Qed.

(** In torque mode [wait] sleeps five seconds and enters the loop. *)
Lemma wait_torque_branch E fuel jobs w :
  QUEUE w = "torque" → Forall (λ a, is_job a = true) jobs →
  wait E fuel (PyList jobs) w
  = wait_torque E fuel (py_str <$> jobs) (add_events [EvSleep 5] w).
Proof.
  intros Hq Hjobs. rewrite wait_unfold; [|apply allowed_queue_cases; tauto|done].
  rewrite Hq, decide_False by done. rewrite decide_True by done.
  apply bind_sleep.
Qed.

(** X10: a status table of fewer than four lines, such as the empty output
    of [qstat -a] when no job is queued, makes [wait] raise [IndexError] at
    its first query, also when the list of jobs is empty. *)
Theorem X10_wait_torque_short_table E fuel jobs w out :
  QUEUE w = "torque" → Forall (λ a, is_job a = true) jobs →
  tool E (nexec w) qstat_argv = Some out →
  (length (torque_lines out) < 4)%nat →
  wait E (S fuel) (PyList jobs) w
  = (Raise IndexError, after_calls 1 [EvSleep 5; EvExec qstat_argv] w).
Proof.
  intros Hq Hjobs Hout Hlen. rewrite (wait_torque_branch _ _ _ _ Hq Hjobs).
  rewrite (wait_torque_round _ _ _ _ out) by exact Hout.
  rewrite torque_poll_short by exact Hlen.
  unfold add_exec, add_events, after_calls. cbn. by rewrite <- app_assoc.
Qed.

Lemma X10_wait_torque_short_table_witness :
  QUEUE (world_with_queue "torque") = "torque" ∧
  Forall (λ a, is_job a = true) [] ∧
  tool (steady_env "") (nexec (world_with_queue "torque")) qstat_argv = Some "" ∧
  (length (torque_lines "") < 4)%nat ∧
  wait (steady_env "") 1 (PyList []) (world_with_queue "torque")
  = (Raise IndexError,
     after_calls 1 [EvSleep 5; EvExec qstat_argv] (world_with_queue "torque")).
Proof.
  assert (Hlen : (length (torque_lines "") < 4)%nat) by (vm_compute; lia).
  split; [reflexivity|]. split; [constructor|]. split; [reflexivity|].
  split; [exact Hlen|].
  apply (X10_wait_torque_short_table (steady_env "") 0 [] (world_with_queue "torque") "");
    [reflexivity|constructor|reflexivity|exact Hlen].
Defined.

(** X11: the heading check of the torque branch.  If the fourth line of the
    table has a tenth column that is not [S], [wait] raises [ClusterError]
    at that query; if it has fewer than ten columns, [wait] raises
    [IndexError].  Either way there is no retry. *)
Theorem X11_wait_torque_heading_check E fuel jobs w out cols :
  QUEUE w = "torque" → Forall (λ a, is_job a = true) jobs →
  tool E (nexec w) qstat_argv = Some out →
  torque_header_columns out = Some cols →
  cols !! 9%nat ≠ Some "S" →
  wait E (S fuel) (PyList jobs) w
  = (Raise (match cols !! 9%nat with
            | Some _ => ClusterError "Unrecognized torque qstat format"
            | None => IndexError
            end),
     after_calls 1 [EvSleep 5; EvExec qstat_argv] w).
Proof.
  intros Hq Hjobs Hout Hcols Hcol. rewrite (wait_torque_branch _ _ _ _ Hq Hjobs).
  rewrite (wait_torque_round _ _ _ _ out) by exact Hout.
  rewrite (torque_poll_header _ _ _ Hcols).
  destruct (cols !! 9%nat) as [col|].
  - rewrite decide_False by congruence.
    unfold add_exec, add_events, after_calls. cbn. by rewrite <- app_assoc.
  - unfold add_exec, add_events, after_calls. cbn. by rewrite <- app_assoc.
Qed.

Lemma X11_wait_torque_heading_check_witness :
  QUEUE (world_with_queue "torque") = "torque" ∧
  Forall (λ a, is_job a = true) [AInt 100] ∧
  tool (steady_env odd_qstat_output) (nexec (world_with_queue "torque")) qstat_argv
  = Some odd_qstat_output ∧
  torque_header_columns odd_qstat_output
  = Some ["Job ID"; "Username"; "Queue"; "Jobname"; "SessID"; "NDS"; "TSK";
          "Memory"; "Time"; "State"; "Time"] ∧
  wait (steady_env odd_qstat_output) 1 (PyList [AInt 100]) (world_with_queue "torque")
  = (Raise (ClusterError "Unrecognized torque qstat format"),
     after_calls 1 [EvSleep 5; EvExec qstat_argv] (world_with_queue "torque")).
Proof.
  assert (Hjobs : Forall (λ a, is_job a = true) [AInt 100]) by (repeat constructor).
  assert (Hcols : torque_header_columns odd_qstat_output
                  = Some ["Job ID"; "Username"; "Queue"; "Jobname"; "SessID"; "NDS";
                          "TSK"; "Memory"; "Time"; "State"; "Time"])
    by (vm_compute; reflexivity).
  split; [reflexivity|]. split; [exact Hjobs|]. split; [reflexivity|].
  split; [exact Hcols|].
  apply (X11_wait_torque_heading_check (steady_env odd_qstat_output) 0 [AInt 100]
           (world_with_queue "torque") odd_qstat_output _ eq_refl Hjobs eq_refl Hcols).
  cbn. discriminate.
Defined.

(** ** The torque loop and a failing status program *)

(** One round of the torque loop whose query fails. *)
Lemma wait_torque_failed_round E fuel jobs w :
  tool E (nexec w) qstat_argv = None →
  wait_torque E (S fuel) jobs w
  = wait_torque E fuel jobs (add_events [EvSleep 2] (add_exec qstat_argv w)).
Proof.
  intros Hfail. cbn [wait_torque]. fold qstat_argv.
  unfold bind at 1. unfold try_except. unfold bind at 1. unfold check_output.
  rewrite Hfail. reflexivity.
Qed.

(** A run of [k] rounds whose queries fail: each is followed by two seconds
    of sleep and leaves the tracked jobs as they are. *)
Lemma wait_torque_failed_rounds E k : ∀ fuel jobs w,
  (∀ i, (i < k)%nat → tool E (nexec w + i) qstat_argv = None) →
  wait_torque E (k + fuel) jobs w
  = wait_torque E fuel jobs
      (after_calls k (concat (replicate k [EvExec qstat_argv; EvSleep 2])) w).
Proof.
  induction k as [|k IH]; intros fuel jobs w Hfail.
  - cbn [Nat.add replicate concat]. by rewrite after_calls_0.
  - change (S k + fuel)%nat with (S (k + fuel)).
    rewrite wait_torque_failed_round.
    2: { rewrite <- (Nat.add_0_r (nexec w)). apply Hfail. lia. }
    rewrite IH.
    + f_equal. unfold after_calls, add_events, add_exec.
      cbn [QUEUE POOL trace nexec cwd replicate concat].
      f_equal; [|lia]. rewrite <- !app_assoc. reflexivity.
    + intros i Hi. cbn [nexec add_events add_exec].
      replace (S (nexec w) + i)%nat with (nexec w + S i)%nat by lia. apply Hfail. lia.
Qed.

(** C6 (as amended): in a poll cycle of the torque branch a status query
    that exits non-zero is caught: [wait] sleeps two seconds and queries
    again with the tracked jobs unchanged.  After a run of at most five
    failed queries followed by a reply, [wait] carries on from that reply
    as it does when no query has failed: it returns when the reply leaves
    no tracked job, goes on polling with the jobs the reply leaves, or
    raises the error of reading the reply; the failed queries raise
    nothing. *)
Theorem C6_torque_failed_query_is_retried E k fuel jobs w out :
  (k ≤ 5)%nat →
  (∀ i, (i < k)%nat → tool E (nexec w + i) ["qstat"; "-a"] = None) →
  tool E (nexec w + k) ["qstat"; "-a"] = Some out →
  wait_torque E (k + S fuel) jobs w
  = match torque_poll out jobs with
    | Ok [] =>
        (Ok (),
         after_calls (S k)
           (concat (replicate k [EvExec ["qstat"; "-a"]; EvSleep 2]) ++
            [EvExec ["qstat"; "-a"]]) w)
    | Ok jobs' =>
        wait_torque E fuel jobs'
          (after_calls (S k)
             (concat (replicate k [EvExec ["qstat"; "-a"]; EvSleep 2]) ++
              [EvExec ["qstat"; "-a"]; EvSleep 2]) w)
    | Raise e =>
        (Raise e,
         after_calls (S k)
           (concat (replicate k [EvExec ["qstat"; "-a"]; EvSleep 2]) ++
            [EvExec ["qstat"; "-a"]]) w)
    | OutOfFuel =>
        (OutOfFuel,
         after_calls (S k)
           (concat (replicate k [EvExec ["qstat"; "-a"]; EvSleep 2]) ++
            [EvExec ["qstat"; "-a"]]) w)
    end.
Proof.
  intros _ Hfail Hout. fold qstat_argv in *.
  rewrite (wait_torque_failed_rounds E k (S fuel) jobs w Hfail).
  rewrite (wait_torque_round _ _ _ _ out)
    by (unfold after_calls; cbn [nexec]; rewrite Nat.add_comm; exact Hout).
  rewrite after_calls_exec.
  destruct (torque_poll out jobs) as [[|j jobs']|e|]; try reflexivity.
  rewrite after_calls_events, <- app_assoc. reflexivity.
Qed.

Lemma C6_torque_failed_query_is_retried_witness :
  (1 ≤ 5)%nat ∧
  (∀ i, (i < 1)%nat →
     tool (flaky_env (qstat_output [qstat_row "100" "C"]))
       (nexec (world_with_queue "torque") + i) ["qstat"; "-a"] = None) ∧
  tool (flaky_env (qstat_output [qstat_row "100" "C"]))
    (nexec (world_with_queue "torque") + 1) ["qstat"; "-a"]
  = Some (qstat_output [qstat_row "100" "C"]) ∧
  wait_torque (flaky_env (qstat_output [qstat_row "100" "C"])) (1 + 1) ["100"]
    (world_with_queue "torque")
  = (Ok (),
     World "torque" None
       [EvExec ["qstat"; "-a"]; EvSleep 2; EvExec ["qstat"; "-a"]] 2 ∅).
Proof.
  assert (Hfail : ∀ i, (i < 1)%nat →
            tool (flaky_env (qstat_output [qstat_row "100" "C"]))
              (nexec (world_with_queue "torque") + i) ["qstat"; "-a"] = None).
  { intros [|i] Hi; [reflexivity|lia]. }
  split; [lia|]. split; [exact Hfail|]. split; [reflexivity|].
  etrans.
  - apply (C6_torque_failed_query_is_retried
             (flaky_env (qstat_output [qstat_row "100" "C"])) 1 0 ["100"]
             (world_with_queue "torque") (qstat_output [qstat_row "100" "C"]));
      [lia|exact Hfail|reflexivity].
  - vm_compute. reflexivity.
Defined.

Lemma wait_torque_never_gives_up E fuel : ∀ jobs w,
  (wait_torque E fuel jobs w).1 ≠ Raise CalledProcessError.
Proof.
  induction fuel as [|fuel IH]; intros jobs w; [discriminate|].
  destruct (tool E (nexec w) qstat_argv) as [out|] eqn:Hout.
  - rewrite (wait_torque_round _ _ _ _ out Hout).
    destruct (torque_poll out jobs) as [[|j jobs']|e|] eqn:Hpoll; cbn [fst];
      try discriminate; [apply IH|].
    intros [= ->]. apply torque_poll_error in Hpoll as [H|[H _]]; discriminate H.
  - rewrite wait_torque_failed_round by exact Hout. apply IH.
Qed.

(** X12: in torque mode [wait] never raises [CalledProcessError], whatever
    the status program does and however long the loop runs: a failed query
    is always followed by another one. *)
Theorem X12_wait_torque_never_raises_query_failure E fuel jobs w :
  QUEUE w = "torque" →
  (wait E fuel jobs w).1 ≠ Raise CalledProcessError.
Proof.
  intros Hq. unfold wait.
  rewrite check_queue_accepts by (apply allowed_queue_cases; tauto).
  set (js := match jobs with PyList l | PyTuple l => l | One a => [a] end).
  destruct (for_each js check_job_type w) as [[[]|e|] w'] eqn:Hty.
  - erewrite bind_ok by exact Hty.
    assert (Hw : w' = w).
    { clear -Hty. revert w Hty. induction js as [|a js IH]; intros w Hty.
      - by injection Hty.
      - cbn [for_each] in Hty. destruct a; cbn [check_job_type] in Hty;
          try discriminate Hty; rewrite bind_ret in Hty; by apply IH. }
    subst w'. rewrite bind_get_QUEUE, Hq.
    rewrite decide_False by done. rewrite decide_True by done.
    rewrite bind_sleep. apply wait_torque_never_gives_up.
  - erewrite bind_raise by exact Hty. cbn [fst]. intros [= ->].
    clear -Hty. revert w Hty. induction js as [|a js IH]; intros w Hty.
    + discriminate Hty.
    + cbn [for_each] in Hty. destruct a; cbn [check_job_type] in Hty;
        try discriminate Hty; rewrite bind_ret in Hty; by eapply IH.
  - erewrite bind_out_of_fuel by exact Hty. discriminate.
Qed.

Lemma X12_wait_torque_never_raises_query_failure_witness :
  QUEUE (world_with_queue "torque") = "torque" ∧
  (wait (failing_tool_env (λ _, true) (λ d, d) (λ _, [])) 9 (One (AInt 100))
     (world_with_queue "torque")).1 ≠ Raise CalledProcessError.
Proof.
  split; [reflexivity|].
  apply (X12_wait_torque_never_raises_query_failure
           (failing_tool_env (λ _, true) (λ d, d) (λ _, [])) 9 (One (AInt 100))
           (world_with_queue "torque")).
  reflexivity.
Defined.

Lemma wait_torque_always_failing E fuel : ∀ jobs w,
  (∀ n, tool E n qstat_argv = None) →
  wait_torque E fuel jobs w
  = (OutOfFuel,
     after_calls fuel (concat (replicate fuel [EvExec qstat_argv; EvSleep 2])) w).
Proof.
  induction fuel as [|fuel IH]; intros jobs w Hfail.
  - cbn. by rewrite after_calls_0.
  - rewrite wait_torque_failed_round by apply Hfail. rewrite IH by exact Hfail.
    unfold after_calls, add_events, add_exec.
    cbn [QUEUE POOL trace nexec cwd replicate concat].
    f_equal. f_equal; [|lia]. rewrite <- !app_assoc. reflexivity.
Qed.

(** X13: with a status program that exits non-zero on every call, [wait]
    in torque mode neither returns nor raises: after the first five seconds
    it alternates one query and two seconds of sleep for as many rounds as
    it is given. *)
Theorem X13_wait_torque_polls_failing_program_forever E fuel jobs w :
  QUEUE w = "torque" → Forall (λ a, is_job a = true) jobs →
  (∀ n, tool E n qstat_argv = None) →
  wait E fuel (PyList jobs) w
  = (OutOfFuel,
     after_calls fuel
       (EvSleep 5 :: concat (replicate fuel [EvExec qstat_argv; EvSleep 2])) w).
Proof.
  intros Hq Hjobs Hfail. rewrite (wait_torque_branch _ _ _ _ Hq Hjobs).
  rewrite wait_torque_always_failing by exact Hfail.
  unfold after_calls, add_events. cbn [QUEUE POOL trace nexec cwd].
  by rewrite <- app_assoc.
Qed.

Lemma X13_wait_torque_polls_failing_program_forever_witness :
  QUEUE (world_with_queue "torque") = "torque" ∧
  Forall (λ a, is_job a = true) [AInt 100] ∧
  (∀ n, tool (failing_tool_env (λ _, true) (λ d, d) (λ _, [])) n qstat_argv = None) ∧
  wait (failing_tool_env (λ _, true) (λ d, d) (λ _, [])) 3 (PyList [AInt 100])
    (world_with_queue "torque")
  = (OutOfFuel,
     after_calls 3
       (EvSleep 5 :: concat (replicate 3 [EvExec qstat_argv; EvSleep 2]))
       (world_with_queue "torque")).
Proof.
  assert (Hjobs : Forall (λ a, is_job a = true) [AInt 100]) by (repeat constructor).
  split; [reflexivity|]. split; [exact Hjobs|]. split; [reflexivity|].
  apply (X13_wait_torque_polls_failing_program_forever
           (failing_tool_env (λ _, true) (λ d, d) (λ _, [])) 3 [AInt 100]
           (world_with_queue "torque") eq_refl Hjobs).
  reflexivity.
Defined.

(** ** The slurm loop *)

Lemma wait_slurm_branch_jobs E fuel jobs w :
  QUEUE w = "slurm" → Forall (λ a, is_job a = true) jobs →
  wait E fuel (PyList jobs) w
  = wait_slurm E fuel (py_str <$> jobs) (add_events [EvSleep 2] w).
Proof.
  intros Hq Hjobs. rewrite wait_unfold; [|apply allowed_queue_cases; tauto|done].
  rewrite Hq, decide_False by done. rewrite decide_False by done.
  apply bind_sleep.
Qed.

(** X14: in slurm mode a status query that exits non-zero is not caught:
    [wait] raises [CalledProcessError] at that query. *)
Theorem X14_wait_slurm_query_failure_propagates E fuel jobs w :
  QUEUE w = "slurm" → Forall (λ a, is_job a = true) jobs →
  tool E (nexec w) squeue_argv = None →
  wait E (S fuel) (PyList jobs) w
  = (Raise CalledProcessError, after_calls 1 [EvSleep 2; EvExec squeue_argv] w).
Proof.
  intros Hq Hjobs Hfail. rewrite (wait_slurm_branch_jobs _ _ _ _ Hq Hjobs).
  cbn [wait_slurm]. fold squeue_argv.
  erewrite bind_raise.
  2: { unfold check_output. cbn [nexec add_events]. rewrite Hfail. reflexivity. }
  unfold add_exec, add_events, after_calls. cbn. by rewrite <- app_assoc.
Qed.

Lemma X14_wait_slurm_query_failure_propagates_witness :
  QUEUE (world_with_queue "slurm") = "slurm" ∧
  Forall (λ a, is_job a = true) [AInt 100] ∧
  tool (flaky_env "") (nexec (world_with_queue "slurm")) squeue_argv = None ∧
  wait (flaky_env "") 1 (PyList [AInt 100]) (world_with_queue "slurm")
  = (Raise CalledProcessError,
     after_calls 1 [EvSleep 2; EvExec squeue_argv] (world_with_queue "slurm")).
Proof.
  assert (Hjobs : Forall (λ a, is_job a = true) [AInt 100]) by (repeat constructor).
  split; [reflexivity|]. split; [exact Hjobs|]. split; [reflexivity|].
  apply (X14_wait_slurm_query_failure_propagates (flaky_env "") 0 [AInt 100]
           (world_with_queue "slurm") eq_refl Hjobs).
  reflexivity.
Defined.

Lemma str_item_length s n c : str_item s n = Ok c → String.length c = 1%nat.
Proof.
  unfold str_item. revert n. induction s as [|x s IH]; intros [|n]; cbn; try discriminate.
  - by intros [= <-].
  - apply IH.
Qed.

Lemma slurm_select_length code q l :
  slurm_select code q = Ok l → Forall (λ c, String.length c = 1%nat) l.
Proof.
  revert l. induction q as [|i q IH]; intros l; cbn [slurm_select].
  - by intros [= <-].
  - destruct (str_item i 1) as [st| |]; cbn [bind_pure]; try discriminate.
    destruct (decide (st = code)); [|apply IH].
    destruct (str_item i 0) as [h| |] eqn:Hh; cbn [bind_pure]; try discriminate.
    destruct (slurm_select code q) as [r| |]; cbn [bind_pure]; try discriminate.
    intros [= <-]. constructor; [by eapply str_item_length|by apply IH].
Qed.

Lemma slurm_all_length q l :
  slurm_all q = Ok l → Forall (λ c, String.length c = 1%nat) l.
Proof.
  revert l. induction q as [|i q IH]; intros l; cbn [slurm_all].
  - by intros [= <-].
  - destruct (str_item i 0) as [h| |] eqn:Hh; cbn [bind_pure]; try discriminate.
    destruct (slurm_all q) as [r| |]; cbn [bind_pure]; try discriminate.
    intros [= <-]. constructor; [by eapply str_item_length|by apply IH].
Qed.

Lemma filter_keeps_all {A} (P : A → Prop) `{!∀ x, Decision (P x)} (l : list A) :
  Forall P l → filter P l = l.
Proof.
  induction 1 as [|x l Hx _ IH]; [reflexivity|].
  rewrite filter_cons_True by done. by rewrite IH.
Qed.

(** A cycle of the slurm branch compares the tracked IDs with single
    characters only, so an ID of any other length stays tracked. *)
Lemma slurm_poll_keeps_long_ids out jobs jobs' :
  Forall (λ j, String.length j ≠ 1%nat) jobs →
  slurm_poll out jobs = Ok jobs' → jobs' = jobs.
Proof.
  intros Hlong. unfold slurm_poll.
  destruct (slurm_select "CD" _) as [complete| |] eqn:Hc; cbn [bind_pure]; try discriminate.
  destruct (slurm_select "F" _) as [failed| |] eqn:Hf; cbn [bind_pure]; try discriminate.
  destruct (slurm_all _) as [all| |] eqn:Ha; cbn [bind_pure]; try discriminate.
  intros [= <-].
  apply slurm_select_length in Hc, Hf. apply slurm_all_length in Ha.
  assert (Hnot : ∀ l : list string,
            Forall (λ c, String.length c = 1%nat) l → Forall (λ j, j ∉ l) jobs).
  { intros l Hl. eapply Forall_impl; [exact Hlong|]. intros j Hj Hin.
    rewrite Forall_forall in Hl. apply Hj. by apply Hl. }
  unfold slurm_trim.
  rewrite (filter_keeps_all (λ i, i ∉ all)) by auto.
  rewrite (filter_keeps_all (λ i, i ∉ complete)) by auto.
  by rewrite (filter_keeps_all (λ i, i ∉ failed)) by auto.
Qed.

Lemma slurm_poll_fuel out jobs : slurm_poll out jobs ≠ OutOfFuel.
Proof.
  assert (Hsel : ∀ code q, slurm_select code q ≠ OutOfFuel).
  { intros code q. induction q as [|i q IH]; cbn [slurm_select]; [discriminate|].
    unfold str_item. destruct (PyStr.index i 1); cbn [bind_pure]; [|discriminate].
    destruct (decide _); [|done].
    destruct (PyStr.index i 0); cbn [bind_pure]; [|discriminate].
    destruct (slurm_select code q); cbn [bind_pure]; done. }
  assert (Hall : ∀ q, slurm_all q ≠ OutOfFuel).
  { intros q. induction q as [|i q IH]; cbn [slurm_all]; [discriminate|].
    unfold str_item. destruct (PyStr.index i 0); cbn [bind_pure]; [|discriminate].
    destruct (slurm_all q); cbn [bind_pure]; done. }
  unfold slurm_poll.
  destruct (slurm_select "CD" _) eqn:H1; cbn [bind_pure]; try discriminate;
    [|by apply Hsel in H1].
  destruct (slurm_select "F" _) eqn:H2; cbn [bind_pure]; try discriminate;
    [|by apply Hsel in H2].
  destruct (slurm_all _) eqn:H3; cbn [bind_pure]; try discriminate.
  by apply Hall in H3.
Qed.

Lemma wait_slurm_never_returns E fuel jobs : ∀ w,
  jobs ≠ [] → Forall (λ j, String.length j ≠ 1%nat) jobs →
  (wait_slurm E fuel jobs w).1 ≠ Ok ().
Proof.
  intros w Hne Hlong. revert w.
  induction fuel as [|fuel IH]; intros w; [discriminate|].
  cbn [wait_slurm]. fold squeue_argv.
  unfold bind at 1. unfold check_output.
  destruct (tool E (nexec w) squeue_argv) as [out|]; [|discriminate].
  destruct (slurm_poll out jobs) as [jobs'|e|] eqn:Hpoll.
  - apply slurm_poll_keeps_long_ids in Hpoll as ->; [|done].
    rewrite bind_lift_ok.
    destruct (decide (length jobs = 0%nat)) as [Hlen|_].
    { by apply nil_length_inv in Hlen. }
    rewrite bind_sleep. apply IH.
  - rewrite bind_lift_raise. discriminate.
  - by apply slurm_poll_fuel in Hpoll.
Qed.

(** X15: in slurm mode [wait] never returns for a non-empty list of job
    numbers of two or more characters, whatever [squeue] prints: the loop
    compares them with single characters of the output, so none is ever
    removed; [wait] can only raise or go on polling. *)
Theorem X15_wait_slurm_never_returns E fuel jobs w :
  QUEUE w = "slurm" → jobs ≠ [] →
  Forall (λ a, is_job a = true ∧ String.length (py_str a) ≠ 1%nat) jobs →
  (wait E fuel (PyList jobs) w).1 ≠ Ok ().
Proof.
  intros Hq Hne Hjobs.
  rewrite wait_slurm_branch_jobs; [|done|].
  - apply wait_slurm_never_returns.
    + by destruct jobs.
    + apply Forall_fmap. eapply Forall_impl; [exact Hjobs|]. by intros a [_ Ha].
  - eapply Forall_impl; [exact Hjobs|]. by intros a [Ha _].
Qed.

Lemma X15_wait_slurm_never_returns_witness :
  QUEUE (world_with_queue "slurm") = "slurm" ∧
  [AInt 100; AInt 101] ≠ [] ∧
  Forall (λ a, is_job a = true ∧ String.length (py_str a) ≠ 1%nat) [AInt 100; AInt 101] ∧
  (wait (steady_env (squeue_output "CD" "CD")) 50 (PyList [AInt 100; AInt 101])
     (world_with_queue "slurm")).1 ≠ Ok ().
Proof.
  assert (Hjobs : Forall (λ a, is_job a = true ∧ String.length (py_str a) ≠ 1%nat)
                    [AInt 100; AInt 101]).
  { repeat constructor; vm_compute; lia. }
  split; [reflexivity|]. split; [discriminate|]. split; [exact Hjobs|].
  apply (X15_wait_slurm_never_returns (steady_env (squeue_output "CD" "CD")) 50
           [AInt 100; AInt 101] (world_with_queue "slurm") eq_refl); [discriminate|exact Hjobs].
Defined.

(** ** What polling does to the tracked jobs *)

(** X16: a poll cycle, of either scheduler, never adds a job to the tracked
    list and never reorders it: what is tracked afterwards is a sublist of
    what was tracked before. *)
Theorem X16_poll_only_shrinks out jobs jobs' :
  torque_poll out jobs = Ok jobs' ∨ slurm_poll out jobs = Ok jobs' →
  jobs' `sublist_of` jobs.
Proof.
  intros [H|H].
  - unfold torque_poll, list_item in H.
    destruct (_ !! 3%nat); cbn [bind_pure] in H; [|discriminate].
    destruct (_ !! 9%nat); cbn [bind_pure] in H; [|discriminate].
    destruct (decide _); [|discriminate].
    destruct (torque_complete _); cbn [bind_pure] in H; try discriminate.
    injection H as <-. unfold torque_trim.
    etrans; apply sublist_filter.
  - unfold slurm_poll in H.
    destruct (slurm_select "CD" _); cbn [bind_pure] in H; try discriminate.
    destruct (slurm_select "F" _); cbn [bind_pure] in H; try discriminate.
    destruct (slurm_all _); cbn [bind_pure] in H; try discriminate.
    injection H as <-. unfold slurm_trim.
    etrans; [apply sublist_filter|]. etrans; apply sublist_filter.
Qed.

Lemma X16_poll_only_shrinks_witness :
  (torque_poll (qstat_output [qstat_row "100" "R"; qstat_row "102" "C"])
     ["100"; "101"; "102"] = Ok ["100"] ∨
   slurm_poll (qstat_output [qstat_row "100" "R"; qstat_row "102" "C"])
     ["100"; "101"; "102"] = Ok ["100"]) ∧
  ["100"] `sublist_of` ["100"; "101"; "102"].
Proof.
  assert (H : torque_poll (qstat_output [qstat_row "100" "R"; qstat_row "102" "C"])
                ["100"; "101"; "102"] = Ok ["100"]) by (vm_compute; reflexivity).
  split; [by left|].
  apply (X16_poll_only_shrinks
           (qstat_output [qstat_row "100" "R"; qstat_row "102" "C"])
           ["100"; "101"; "102"] ["100"]).
  left. exact H.
Defined.

Lemma wait_torque_unchanged_rounds E k : ∀ fuel jobs w running finished,
  jobs ≠ [] →
  (∀ i, (i < k)%nat → tool E (nexec w + i) qstat_argv = Some running) →
  tool E (nexec w + k) qstat_argv = Some finished →
  torque_poll running jobs = Ok jobs →
  torque_poll finished jobs = Ok [] →
  wait_torque E (S k + fuel) jobs w
  = (Ok (),
     after_calls (S k)
       (concat (replicate k [EvExec qstat_argv; EvSleep 2]) ++ [EvExec qstat_argv]) w).
Proof.
  induction k as [|k IH]; intros fuel jobs w running finished Hne Hrun Hfin Hsame Hdone.
  - rewrite Nat.add_0_r in Hfin.
    rewrite (wait_torque_round _ _ _ _ finished Hfin), Hdone.
    unfold add_exec, after_calls. cbn. reflexivity.
  - change (S (S k) + fuel)%nat with (S (S k + fuel)).
    rewrite (wait_torque_round _ _ _ _ running).
    2: { rewrite <- (Nat.add_0_r (nexec w)). apply Hrun. lia. }
    rewrite Hsame. destruct jobs as [|j jobs]; [done|].
    rewrite (IH fuel (j :: jobs) _ running finished); try done.
    + unfold after_calls, add_events, add_exec.
      cbn [QUEUE POOL trace nexec cwd replicate concat].
      f_equal. f_equal; [|lia]. rewrite <- !app_assoc. reflexivity.
    + intros i Hi. cbn [nexec add_events add_exec].
      replace (S (nexec w) + i)%nat with (nexec w + S i)%nat by lia. apply Hrun. lia.
    + cbn [nexec add_events add_exec].
      replace (S (nexec w) + k)%nat with (nexec w + S k)%nat by lia. exact Hfin.
Qed.

(** X17: the polling schedule of the torque branch.  If the first [k]
    status tables leave the tracked jobs as they are and the next one leaves
    none, [wait] returns at that query, having slept five seconds before the
    first query and two seconds after each of the [k] earlier ones. *)
Theorem X17_wait_torque_polls_until_done E k fuel jobs w running finished :
  QUEUE w = "torque" → jobs ≠ [] → Forall (λ a, is_job a = true) jobs →
  (∀ i, (i < k)%nat → tool E (nexec w + i) qstat_argv = Some running) →
  tool E (nexec w + k) qstat_argv = Some finished →
  torque_poll running (py_str <$> jobs) = Ok (py_str <$> jobs) →
  torque_poll finished (py_str <$> jobs) = Ok [] →
  wait E (S k + fuel) (PyList jobs) w
  = (Ok (),
     after_calls (S k)
       (EvSleep 5 :: concat (replicate k [EvExec qstat_argv; EvSleep 2]) ++
        [EvExec qstat_argv]) w).
Proof.
  intros Hq Hne Hjobs Hrun Hfin Hsame Hdone.
  rewrite (wait_torque_branch _ _ _ _ Hq Hjobs).
  rewrite (wait_torque_unchanged_rounds E k fuel _ _ running finished);
    try done.
  - unfold after_calls, add_events. cbn [QUEUE POOL trace nexec cwd].
    by rewrite <- app_assoc.
  - by destruct jobs.
Qed.

Lemma X17_wait_torque_polls_until_done_witness :
  QUEUE (world_with_queue "torque") = "torque" ∧
  [AInt 100] ≠ [] ∧
  Forall (λ a, is_job a = true) [AInt 100] ∧
  torque_poll (qstat_output [qstat_row "100" "R"]) (py_str <$> [AInt 100])
  = Ok (py_str <$> [AInt 100]) ∧
  torque_poll (qstat_output [qstat_row "100" "C"]) (py_str <$> [AInt 100]) = Ok [] ∧
  wait {| which := λ _, true; abspath := λ d, d; listdir := λ _, [];
          listdir_error := λ _, None;
          tool := λ n _, if decide (n < 2)%nat
                         then Some (qstat_output [qstat_row "100" "R"])
                         else Some (qstat_output [qstat_row "100" "C"]) |}
    (S 2 + 0) (PyList [AInt 100]) (world_with_queue "torque")
  = (Ok (),
     after_calls (S 2)
       (EvSleep 5 :: concat (replicate 2 [EvExec qstat_argv; EvSleep 2]) ++
        [EvExec qstat_argv]) (world_with_queue "torque")).
Proof.
  assert (Hjobs : Forall (λ a, is_job a = true) [AInt 100]) by (repeat constructor).
  assert (Hrun : torque_poll (qstat_output [qstat_row "100" "R"]) (py_str <$> [AInt 100])
                 = Ok (py_str <$> [AInt 100])) by (vm_compute; reflexivity).
  assert (Hfin : torque_poll (qstat_output [qstat_row "100" "C"]) (py_str <$> [AInt 100])
                 = Ok []) by (vm_compute; reflexivity).
  split; [reflexivity|]. split; [discriminate|]. split; [exact Hjobs|].
  split; [exact Hrun|]. split; [exact Hfin|].
  apply (X17_wait_torque_polls_until_done _ 2 0 [AInt 100] (world_with_queue "torque")
           (qstat_output [qstat_row "100" "R"]) (qstat_output [qstat_row "100" "C"])
           eq_refl); [discriminate|exact Hjobs| |reflexivity|exact Hrun|exact Hfin].
  intros i Hi. cbn [tool nexec world_with_queue]. rewrite decide_True by lia. reflexivity.
Defined.

(** ** Cleaning: safety, the default directory, repetition *)

Lemma clean_outcome E directory w :
  QUEUE w ∈ ALLOWED_QUEUES →
  listdir_error E (abspath E directory) = None →
  NoDup (listdir E (abspath E directory)) →
  ∃ deleted w',
    clean E directory w = (Ok deleted, w') ∧
    NoDup deleted ∧
    (∀ f, f ∈ deleted →
          f ∈ listdir E (abspath E directory) ∧
          cwd w !! f = Some RegularFile ∧
          has_extension (QUEUE w) f = true) ∧
    (∀ f, cwd w' !! f = if decide (f ∈ deleted) then None else cwd w !! f) ∧
    QUEUE w' = QUEUE w ∧ POOL w' = POOL w ∧ nexec w' = nexec w.
Proof.
  intros Hq Hok Hnd. rewrite (clean_spec E directory w Hq Hok Hnd).
  assert (Hreg : ∀ f, f ∈ filter (λ i, isfile w i = true) (listdir E (abspath E directory)) →
                      f ∈ listdir E (abspath E directory) ∧ cwd w !! f = Some RegularFile).
  { intros f [Hf Hin]%list_elem_of_filter. split; [done|].
    unfold isfile in Hf. by destruct (cwd w !! f) as [[]|]. }
  destruct (filter (λ i, isfile w i = true) _) as [|f0 files] eqn:Heq.
  - exists [], (add_events [EvLog "No files found." "debug"] w).
    split; [reflexivity|]. split; [constructor|]. split.
    + by intros f ?%elem_of_nil.
    + split; [|done]. intros f. by rewrite decide_False by apply not_elem_of_nil.
  - eexists _, _. split; [reflexivity|]. split.
    + apply NoDup_filter. rewrite <- Heq. by apply NoDup_filter.
    + split; [|split; [|done]].
      * intros f [Hext Hin]%list_elem_of_filter.
        destruct (Hreg f Hin) as [? ?]. done.
      * intros f. apply lookup_remove_all.
Qed.



Example clean_sample :
  clean cwd_env "." sample_world
  = (Ok ["a.cluster"; "a.cluster.out"],
     {| QUEUE := "normal"; POOL := None;
        trace := [EvRemove "a.cluster"; EvRemove "a.cluster.out"]; nexec := 0;
        cwd := {[ "notes.txt" := RegularFile; "old.cluster" := Directory ]} |}).
Proof.
  rewrite clean_spec.
  - vm_compute. reflexivity.
  - apply allowed_queue_cases. cbn. auto.
  - reflexivity.
  - apply (bool_decide_unpack _). by vm_compute.
Qed.



(** X20: running [clean] again deletes nothing.  After a first [clean], a
    second one on a listing that holds no new names returns the empty list
    and leaves the current directory as the first one left it; [os.listdir]
    returns a listing both times. *)
Theorem X20_clean_twice E E' directory directory' w :
  QUEUE w ∈ ALLOWED_QUEUES →
  listdir_error E (abspath E directory) = None →
  listdir_error E' (abspath E' directory') = None →
  NoDup (listdir E (abspath E directory)) →
  NoDup (listdir E' (abspath E' directory')) →
  listdir E' (abspath E' directory') ⊆ listdir E (abspath E directory) →
  ∃ w'', clean E' directory' (clean E directory w).2 = (Ok [], w'') ∧
         cwd w'' = cwd (clean E directory w).2.
Proof.
  intros Hq Hok Hok' Hnd Hnd' Hsub.
  destruct (clean_outcome E directory w Hq Hok Hnd)
    as (deleted & w' & Hclean & _ & Hdel & Hcwd & Hq' & _).
  rewrite Hclean. cbn [snd].
  assert (Hqw' : QUEUE w' ∈ ALLOWED_QUEUES) by (by rewrite Hq').
  rewrite (clean_spec E' directory' w' Hqw' Hok' Hnd').
  assert (Hnone : filter (λ f, has_extension (QUEUE w') f = true)
                    (filter (λ i, isfile w' i = true)
                       (listdir E' (abspath E' directory'))) = []).
  { apply elem_of_nil_inv. intros f [Hext [Hfile Hin]%list_elem_of_filter]%list_elem_of_filter.
    unfold isfile in Hfile. rewrite Hcwd in Hfile.
    destruct (decide (f ∈ deleted)) as [|Hnotin]; [done|].
    apply Hnotin.
    assert (Hw : clean E directory w = (Ok deleted, w')) by exact Hclean.
    rewrite (clean_spec E directory w Hq Hok Hnd) in Hw.
    assert (Hfiles : f ∈ filter (λ i, isfile w i = true) (listdir E (abspath E directory))).
    { apply list_elem_of_filter. split; [exact Hfile|]. by apply Hsub. }
    destruct (filter (λ i, isfile w i = true) _) as [|f0 files] eqn:Heq.
    - by apply elem_of_nil in Hfiles.
    - injection Hw as <- _. apply list_elem_of_filter. split; [|done].
      by rewrite <- Hq'. }
  destruct (filter (λ i, isfile w' i = true) _) as [|f0 files] eqn:Heq.
  - eexists. split; [reflexivity|]. reflexivity.
  - cbv beta iota zeta. rewrite Hnone. eexists. split; [reflexivity|].
    cbn [remove_all cwd foldl]. reflexivity.
Qed.

Lemma X20_clean_twice_witness :
  QUEUE sample_world ∈ ALLOWED_QUEUES ∧
  listdir_error cwd_env (abspath cwd_env ".") = None ∧
  NoDup (listdir cwd_env (abspath cwd_env ".")) ∧
  listdir cwd_env (abspath cwd_env ".") ⊆ listdir cwd_env (abspath cwd_env ".") ∧
  ∃ w'', clean cwd_env "." (clean cwd_env "." sample_world).2 = (Ok [], w'') ∧
         cwd w'' = cwd (clean cwd_env "." sample_world).2.
Proof.
  assert (Hq : QUEUE sample_world ∈ ALLOWED_QUEUES).
  { apply allowed_queue_cases. cbn. auto. }
  assert (Hnd : NoDup (listdir cwd_env (abspath cwd_env "."))).
  { apply (bool_decide_unpack _). by vm_compute. }
  split; [exact Hq|]. split; [reflexivity|]. split; [exact Hnd|]. split; [done|].
  exact (X20_clean_twice cwd_env cwd_env "." "." sample_world Hq eq_refl eq_refl
           Hnd Hnd (reflexivity _)).
Defined.

(** ** Names: what [make_job_file] writes and what [clean] looks for *)











(** ** The text of the job scripts *)




Example qsub_script_example :
  written_files (trace (make_job_file home_env "bowtie2 -x ref reads.fq" (AStr "align")
     (AStr "04:00:00") (AInt 8) (AInt 4000) (AStr "long") (PyList [AStr "bowtie2"]) None
     (World "torque" None [] 0 ∅)).2)
  = [("/home/user/align.cluster.qsub",
      "#!/bin/bash
#PBS -q long
#PBS -l nodes=1:ppn=8
#PBS -l walltime=04:00:00
#PBS mem=4000MB
#PBS -o align.cluster.out
#PBS -e align.cluster.err

mkdir -p $LOCAL_SCRATCH
module load bowtie2
cd /home/user
date +'%d-%H:%M:%S'
echo " +:+ dquote +:+ "Running align" +:+ dquote +:+ "
bowtie2 -x ref reads.fq
exitcode=$?
echo Done
date +'%d-%H:%M:%S'
if [[ $exitcode != 0 ]]; then
    echo Exited with code: $? >&2
fi
")].
Proof. vm_compute. reflexivity. Qed.

(** ** Detection *)

(** X23: when [sbatch] is found, [get_cluster_environment] selects slurm,
    whether or not [qsub] is there too; when only [qsub] is found it selects
    torque.  It returns the selected value, logs one debug line naming it,
    and [check_queue] accepts the value afterwards. *)
Theorem X23_detection_prefers_slurm E w :
  which E "sbatch" = true ∨ which E "qsub" = true →
  get_cluster_environment E w
  = (Ok (detected_scheduler E),
     {| QUEUE := detected_scheduler E; POOL := POOL w;
        trace := trace w ++
                 [EvLog (detected_scheduler E +:+ " detected, using for cluster submissions")
                        "debug"];
        nexec := nexec w; cwd := cwd w |}) ∧
  check_queue (get_cluster_environment E w).2
  = (Ok (), (get_cluster_environment E w).2).
Proof.
  intros Hwhich. unfold get_cluster_environment, detected_scheduler.
  destruct (which E "sbatch") eqn:Hs.
  - split; reflexivity.
  - destruct Hwhich as [Hw|Hw]; [discriminate|]. rewrite Hw. split; reflexivity.
Qed.

Lemma X23_detection_prefers_slurm_witness :
  (which (steady_env "") "sbatch" = true ∨ which (steady_env "") "qsub" = true) ∧
  get_cluster_environment (steady_env "") (world_with_queue "normal")
  = (Ok (detected_scheduler (steady_env "")),
     {| QUEUE := detected_scheduler (steady_env ""); POOL := POOL (world_with_queue "normal");
        trace := trace (world_with_queue "normal") ++
                 [EvLog (detected_scheduler (steady_env "") +:+
                         " detected, using for cluster submissions") "debug"];
        nexec := nexec (world_with_queue "normal");
        cwd := cwd (world_with_queue "normal") |}) ∧
  check_queue (get_cluster_environment (steady_env "") (world_with_queue "normal")).2
  = (Ok (), (get_cluster_environment (steady_env "") (world_with_queue "normal")).2) ∧
  detected_scheduler (steady_env "") = "slurm".
Proof.
  split; [by left|].
  destruct (X23_detection_prefers_slurm (steady_env "") (world_with_queue "normal"))
    as [H1 H2]; [by left|].
  split; [exact H1|]. split; [exact H2|]. reflexivity.
Defined.

(** ** Job numbers: printing and reading *)

Lemma digits_of_uint d : ∀ acc b,
  d ≠ Decimal.Nil ∨ b = true →
  PyInt.digits acc b (NilEmpty.string_of_uint d) = Some (uint_value acc d).
Proof.
  induction d as [|d IH|d IH|d IH|d IH|d IH|d IH|d IH|d IH|d IH|d IH]; intros acc b Hb;
    [destruct Hb as [?| ->]; [done|reflexivity]|..];
    cbn [NilEmpty.string_of_uint PyInt.digits uint_value Ascii.is_nat];
    apply IH; by right.
Qed.

Lemma of_uint_acc_value d : ∀ acc,
  Z.pos (Pos.of_uint_acc d acc) = uint_value (Z.pos acc) d.
Proof.
  induction d as [|d IH|d IH|d IH|d IH|d IH|d IH|d IH|d IH|d IH|d IH]; intros acc;
    [reflexivity|..];
    cbn [Pos.of_uint_acc uint_value]; rewrite IH; f_equal; lia.
Qed.

Lemma of_uint_value d : Z.of_N (Pos.of_uint d) = uint_value 0 d.
Proof.
  induction d as [|d IH|d IH|d IH|d IH|d IH|d IH|d IH|d IH|d IH|d IH];
    [reflexivity|exact IH|..];
    cbn [Pos.of_uint uint_value Z.of_N]; apply of_uint_acc_value.
Qed.

Lemma plain_of_uint d : plain (NilEmpty.string_of_uint d) = true.
Proof.
  induction d as [|d IH|d IH|d IH|d IH|d IH|d IH|d IH|d IH|d IH|d IH];
    [reflexivity|..]; cbn [NilEmpty.string_of_uint plain]; by rewrite IH.
Qed.

Lemma rstrip_plain_char c s :
  PyStr.is_py_space c = false → PyStr.rstrip (String c s) = String c (PyStr.rstrip s).
Proof.
  intros Hc. cbn [PyStr.rstrip]. destruct (PyStr.rstrip s); [by rewrite Hc|done].
Qed.

Lemma plain_char_space c : plain_char c = true → PyStr.is_py_space c = false.
Proof. unfold plain_char. by intros [?%negb_true_iff _]%andb_prop. Qed.

Lemma rstrip_plain_prefix a s :
  plain a = true → PyStr.rstrip (a +:+ s) = a +:+ PyStr.rstrip s.
Proof.
  induction a as [|c a IH]; intros Ha; [reflexivity|].
  cbn [plain] in Ha. apply andb_prop in Ha as [Hc Ha].
  rewrite !app_cons, rstrip_plain_char by (by apply plain_char_space).
  by rewrite IH.
Qed.

Lemma rstrip_plain a : plain a = true → PyStr.rstrip a = a.
Proof.
  intros Ha. rewrite <- (str_app_nil_r a) at 1.
  rewrite rstrip_plain_prefix by done. cbn. by rewrite str_app_nil_r.
Qed.

(** The white space of [int()] is white space of [str.strip()]; not the
    other way round. *)
Lemma int_space_py_space c : PyInt.is_space c = true → PyStr.is_py_space c = true.
Proof.
  unfold PyInt.is_space, PyStr.is_py_space.
  intros [H|H%Nat.eqb_eq]%orb_true_iff; [by rewrite H|by rewrite H].
Qed.

Example separator_is_not_int_space :
  PyStr.is_py_space "028"%char = true ∧ PyInt.is_space "028"%char = false ∧
  PyInt.parse (String "028"%char "7") = None ∧
  PyInt.parse (String "7" (String "028"%char "")) = None ∧
  PyInt.parse (String tab_char " -7 " +:+ nl) = Some (-7).
Proof. vm_compute. done. Qed.

Lemma plain_char_int_space c : plain_char c = true → PyInt.is_space c = false.
Proof.
  intros Hc%plain_char_space. destruct (PyInt.is_space c) eqn:Hs; [|done].
  apply int_space_py_space in Hs. congruence.
Qed.

Lemma int_rstrip_plain a : plain a = true → PyInt.rstrip a = a.
Proof.
  induction a as [|c a IH]; [reflexivity|].
  cbn [plain]. intros [Hc Ha]%andb_prop. cbn [PyInt.rstrip]. rewrite (IH Ha).
  destruct a; [by rewrite plain_char_int_space|done].
Qed.

Lemma lstrip_plain a : plain a = true → PyInt.lstrip a = a.
Proof.
  destruct a as [|c a]; [done|]. cbn [plain]. intros [Hc _]%andb_prop.
  cbn [PyInt.lstrip]. by rewrite plain_char_int_space.
Qed.

Lemma parse_digit_string d :
  d ≠ Decimal.Nil →
  PyInt.parse (NilEmpty.string_of_uint d) = Some (uint_value 0 d).
Proof.
  intros Hd. unfold PyInt.parse.
  rewrite (int_rstrip_plain _ (plain_of_uint d)), (lstrip_plain _ (plain_of_uint d)).
  rewrite <- (digits_of_uint d 0 false (or_introl Hd)).
  destruct d; [done|..]; reflexivity.
Qed.

Lemma to_uint_value p : uint_value 0 (Pos.to_uint p) = Z.pos p.
Proof.
  rewrite <- of_uint_value. by rewrite DecimalPos.Unsigned.of_to.
Qed.

Lemma of_Z_pos p : PyStr.of_Z (Z.pos p) = NilEmpty.string_of_uint (Pos.to_uint p).
Proof.
  unfold PyStr.of_Z. cbn [Z.to_int NilZero.string_of_int]. unfold NilZero.string_of_uint.
  pose proof (DecimalPos.Unsigned.to_uint_nonnil p). by destruct (Pos.to_uint p).
Qed.

Lemma of_Z_neg p :
  PyStr.of_Z (Z.neg p) = String "-" (NilEmpty.string_of_uint (Pos.to_uint p)).
Proof.
  unfold PyStr.of_Z. cbn [Z.to_int NilZero.string_of_int]. unfold NilZero.string_of_uint.
  pose proof (DecimalPos.Unsigned.to_uint_nonnil p). by destruct (Pos.to_uint p).
Qed.

Lemma plain_of_Z z : plain (PyStr.of_Z z) = true.
Proof.
  destruct z as [|p|p]; [reflexivity|..].
  - rewrite of_Z_pos. apply plain_of_uint.
  - rewrite of_Z_neg. cbn [plain]. by rewrite plain_of_uint.
Qed.

(** Reading back what [str] prints of an integer gives the integer. *)
Lemma parse_of_Z z : PyInt.parse (PyStr.of_Z z) = Some z.
Proof.
  destruct z as [|p|p]; [reflexivity|..].
  - rewrite of_Z_pos, parse_digit_string by apply DecimalPos.Unsigned.to_uint_nonnil.
    by rewrite to_uint_value.
  - pose proof (plain_of_Z (Z.neg p)) as Hplain. rewrite of_Z_neg in *.
    unfold PyInt.parse. rewrite (int_rstrip_plain _ Hplain), (lstrip_plain _ Hplain).
    cbv beta iota.
    rewrite (digits_of_uint _ 0 false (or_introl (DecimalPos.Unsigned.to_uint_nonnil p))).
    by rewrite to_uint_value.
Qed.

Lemma plain_char_neq c sep :
  plain_char c = true → sep = "."%char ∨ sep = sp_char → c ≠ sep.
Proof.
  unfold plain_char. intros [Hs Hd]%andb_prop [->| ->].
  - by apply bool_decide_eq_true in Hd.
  - intros ->. by apply negb_true_iff in Hs.
Qed.

Lemma split_plain_prefix sep a s :
  plain a = true → sep = "."%char ∨ sep = sp_char →
  PyStr.split sep (a +:+ String sep s) = a :: PyStr.split sep s.
Proof.
  intros Ha Hsep. induction a as [|c a IH].
  - rewrite app_nil. cbn [PyStr.split]. by rewrite decide_True.
  - cbn [plain] in Ha. apply andb_prop in Ha as [Hc Ha].
    rewrite app_cons. cbn [PyStr.split].
    rewrite decide_False by (by apply plain_char_neq). by rewrite IH.
Qed.

Lemma split_plain sep a :
  plain a = true → sep = "."%char ∨ sep = sp_char → PyStr.split sep a = [a].
Proof.
  intros Ha Hsep. induction a as [|c a IH]; [reflexivity|].
  cbn [plain] in Ha. apply andb_prop in Ha as [Hc Ha].
  cbn [PyStr.split]. rewrite decide_False by (by apply plain_char_neq). by rewrite IH.
Qed.

Lemma rstrip_nl : PyStr.rstrip nl = "".
Proof. reflexivity. Qed.

Lemma str_app_empty a b : a +:+ b = "" → b = "".
Proof. destruct a; [done|]. rewrite app_cons. discriminate. Qed.

Lemma rstrip_app a b :
  PyStr.rstrip b ≠ "" → PyStr.rstrip (a +:+ b) = a +:+ PyStr.rstrip b.
Proof.
  intros Hb. induction a as [|c a IH]; [reflexivity|].
  rewrite !app_cons. cbn [PyStr.rstrip]. rewrite IH.
  destruct (a +:+ PyStr.rstrip b) eqn:Hab; [|reflexivity].
  by apply str_app_empty in Hab.
Qed.

Lemma of_Z_nonempty z : PyStr.of_Z z ≠ "".
Proof.
  destruct z as [|p|p]; [done| |by rewrite of_Z_neg].
  rewrite of_Z_pos. pose proof (DecimalPos.Unsigned.to_uint_nonnil p).
  by destruct (Pos.to_uint p).
Qed.

Lemma rstrip_of_Z_nl z : PyStr.rstrip (PyStr.of_Z z +:+ nl) = PyStr.of_Z z.
Proof.
  rewrite rstrip_plain_prefix by apply plain_of_Z.
  rewrite rstrip_nl. apply str_app_nil_r.
Qed.

Lemma parse_int_of_Z z : parse_int (PyStr.of_Z z) = Ok z.
Proof. unfold parse_int. by rewrite parse_of_Z. Qed.

(** X24: [submit_file] reads back the job number the scheduler prints.
    For every integer [z], the reply [Submitted batch job z] of [sbatch]
    and the reply [z.<server>] of [qsub], each ended by a line break, are
    read as [z]. *)
Theorem X24_job_number_is_read_back z server :
  slurm_job_id ("Submitted batch job " +:+ PyStr.of_Z z +:+ nl) = Ok z ∧
  torque_submit_id (PyStr.of_Z z +:+ "." +:+ server +:+ nl) = Ok z.
Proof.
  split.
  - unfold slurm_job_id.
    rewrite rstrip_app by (rewrite rstrip_of_Z_nl; apply of_Z_nonempty).
    rewrite rstrip_of_Z_nl.
    change ("Submitted batch job " +:+ PyStr.of_Z z)
      with ("Submitted" +:+ String sp_char ("batch" +:+ String sp_char ("job" +:+
            String sp_char (PyStr.of_Z z)))).
    rewrite !split_plain_prefix by (reflexivity || by right).
    rewrite split_plain by (apply plain_of_Z || by right).
    cbn [last]. apply parse_int_of_Z.
  - unfold torque_submit_id.
    change ("." +:+ server +:+ nl) with (String "." (server +:+ nl)).
    rewrite rstrip_plain_prefix by apply plain_of_Z.
    rewrite rstrip_plain_char by reflexivity.
    rewrite split_plain_prefix by (apply plain_of_Z || by left).
    cbn [list_item lookup list_lookup bind_pure]. apply parse_int_of_Z.
Qed.

Lemma re_split_spaces_nonempty b s : PyStr.re_split_spaces b s ≠ [].
Proof.
  revert b. induction s as [|c s IH]; intros b; [done|].
  cbn [PyStr.re_split_spaces]. destruct (decide (c = sp_char)).
  - destruct b; [apply IH|done].
  - unfold PyStr.cons_head. by destruct (PyStr.re_split_spaces false s).
Qed.

Lemma re_split_spaces_plain_prefix a s :
  plain a = true →
  PyStr.re_split_spaces false (a +:+ s)
  = match PyStr.re_split_spaces false s with
    | h :: t => (a +:+ h) :: t
    | [] => [a]
    end.
Proof.
  intros Ha. induction a as [|c a IH].
  - rewrite app_nil. destruct (PyStr.re_split_spaces false s) eqn:Hs; [|done].
    by apply re_split_spaces_nonempty in Hs.
  - cbn [plain] in Ha. apply andb_prop in Ha as [Hc Ha].
    rewrite app_cons. cbn [PyStr.re_split_spaces].
    rewrite decide_False by (apply plain_char_neq; [done|by right]).
    rewrite IH by done.
    destruct (PyStr.re_split_spaces false s) eqn:Hs; [|done].
    by apply re_split_spaces_nonempty in Hs.
Qed.

(** X25: the job number [submit_file] returned is the ID [wait] finds in
    the status table.  For every integer [z], the ID that the torque branch
    of [wait] cuts out of a table row beginning [z.<rest of the row>] is the
    string under which [wait] tracks the job [z]. *)
Theorem X25_wait_finds_submitted_job z rest :
  torque_job_id (py_str (AInt z) +:+ "." +:+ rest) = py_str (AInt z).
Proof.
  unfold torque_job_id. cbn [py_str].
  rewrite re_split_spaces_plain_prefix by apply plain_of_Z.
  change ("." +:+ rest) with (String "." rest).
  cbn [PyStr.re_split_spaces]. rewrite decide_False by done.
  destruct (PyStr.re_split_spaces false rest) as [|h t] eqn:Hr.
  { by apply re_split_spaces_nonempty in Hr. }
  cbn [PyStr.cons_head].
  by rewrite split_plain_prefix by (apply plain_of_Z || by left).
Qed.

(** * bin/GetGeneASEbyReads.py *)

Example split_ws_ex :
  GetGeneASE.split_ws ("  chr2L" +:+ String tab_char "0 5390  A|T ") = ["chr2L"; "0"; "5390"; "A|T"]
  ∧ GetGeneASE.split_ws "   " = [] ∧ GetGeneASE.split_ws "" = [].
Proof. vm_compute. done. Qed.

Example get_snps_ex :
  GetGeneASE.get_snps "hets.bed" None
    (Some ["chr2L 0 5390 A|T" +:+ nl; "chr2L 0 5403 C|G" +:+ nl; "chrX 0 77 G|A" +:+ nl])
  = ([], Ok {[ "chr2L" := {[ 5390 := ["A"; "T"]; 5403 := ["C"; "G"] ]};
               "chrX" := {[ 77 := ["G"; "A"] ]} ]}).
Proof. vm_compute. reflexivity. Qed.

Example get_phase_ex :
  GetGeneASE.get_phase
    (GetGeneASE.AlignedRead [(0%nat, 5388); (1%nat, 5389); (2%nat, 5390)] [40; 40; 40] "GAT")
    {[ 5390 := ["A"; "T"] ]} = Ok (Some (-1)) ∧
  GetGeneASE.get_phase
    (GetGeneASE.AlignedRead [(0%nat, 5388); (1%nat, 5389); (2%nat, 5390)] [40; 40; 40] "GTT")
    {[ 5390 := ["A"; "T"] ]} = Ok (Some 1) ∧
  GetGeneASE.get_phase
    (GetGeneASE.AlignedRead [(0%nat, 5388); (1%nat, 5389); (2%nat, 5390)] [40; 20; 40] "GTT")
    {[ 5390 := ["A"; "T"] ]} = Ok None.
Proof. vm_compute. done. Qed.

Section Phase.
Import GetGeneASE GetGeneASEProps.
Context (read : aligned_read) (snps : gmap Z (list string)).

Local Ltac phase_step rp fp i Hs Hq Hb Hi :=
  cbn [get_phase_from];
  destruct (snps !! (fp + 1)) as [alleles|] eqn:Hs; 
  [ unfold list_item; destruct (query_qualities read !! rp) as [quality|] eqn:Hq;
    cbn [bind_pure];
    [ case_bool_decide;
      [ unfold str_item; destruct (PyStr.index (read_seq read) rp) as [base|] eqn:Hb;
        cbn [bind_pure];
        [ destruct (index_of base alleles) as [i|] eqn:Hi | ]
      | ]
    | ]
  | ].

Lemma phase_stays_some (pairs : list (nat * Z)) (p : Z) :
  get_phase_from read snps pairs (Some p) ≠ Ok None.
Proof.
  induction pairs as [|[rp fp] pairs IH]; [done|].
  phase_step rp fp i Hs Hq Hb Hi; try done.
  by case_decide.
Qed.

Lemma phase_none_iff (pairs : list (nat * Z)) :
  get_phase_from read snps pairs None = Ok None ↔
  ∀ pair, pair ∈ pairs → skipped read snps pair.
Proof.
  induction pairs as [|[rp fp] pairs IH].
  { split; [intros _ pair Hin; by apply elem_of_nil in Hin|done]. }
  split.
  - intros Hrun pair Hin. revert Hrun.
    phase_step rp fp i Hs Hq Hb Hi; try done.
    + intros Hrun. by apply phase_stays_some in Hrun.
    + intros Hrun. apply elem_of_cons in Hin as [->|Hin]; [|by apply IH].
      right. exists quality. cbn. split; [done|lia].
    + intros Hrun. apply elem_of_cons in Hin as [->|Hin]; [|by apply IH].
      by left.
  - intros Hall.
    assert (Hhead : skipped read snps (rp, fp)) by (apply Hall; left).
    assert (Htail : get_phase_from read snps pairs None = Ok None).
    { apply IH. intros pair Hin. apply Hall. by right. }
    destruct Hhead as [Hnone|(q & Hq' & Hlow)]; cbn in *.
    + cbn [get_phase_from]. by rewrite Hnone.
    + phase_step rp fp i Hs Hq Hb Hi; try done; simplify_eq; lia.
Qed.

Lemma allele_of_eq (rp : nat) (fp : Z) alleles base :
  snps !! (fp + 1) = Some alleles → PyStr.index (read_seq read) rp = Some base →
  allele_of read snps (rp, fp) = index_of base alleles.
Proof. intros Hs Hb. unfold allele_of. cbn. by rewrite Hs, Hb. Qed.

Lemma informative_inv (rp : nat) (fp : Z) alleles quality :
  snps !! (fp + 1) = Some alleles → query_qualities read !! rp = Some quality →
  informative read snps (rp, fp) → 30 ≤ quality.
Proof. intros Hs Hq (a & q & Hs' & Hq' & Hge). cbn in *. by simplify_eq. Qed.

Lemma phase_kept (pairs : list (nat * Z)) (p0 p : Z) :
  get_phase_from read snps pairs (Some p0) = Ok (Some p) → p ≠ 0 →
  p = p0 ∧
  ∀ pair, pair ∈ pairs → informative read snps pair →
    ∃ i, allele_of read snps pair = Some i ∧ -1 + 2 * Z.of_nat i = p0.
Proof.
  induction pairs as [|[rp fp] pairs IH].
  { cbn. intros [= ->] _. split; [done|]. intros pair Hin. by apply elem_of_nil in Hin. }
  phase_step rp fp i Hs Hq Hb Hi; try (intros; simplify_eq; done).
  - case_decide as Hne; [intros; simplify_eq; done|].
    intros Hrun Hp. destruct (IH Hrun Hp) as [-> Hall]. split; [done|].
    intros pair Hin Hinf. apply elem_of_cons in Hin as [->|Hin]; [|by apply Hall].
    exists i. rewrite (allele_of_eq _ _ _ _ Hs Hb). split; [done|].
    destruct (decide (-1 + 2 * Z.of_nat i = p0)); [done|]. by destruct Hne.
  - intros Hrun Hp. destruct (IH Hrun Hp) as [-> Hall]. split; [done|].
    intros pair Hin Hinf. apply elem_of_cons in Hin as [->|Hin]; [|by apply Hall].
    pose proof (informative_inv _ _ _ _ Hs Hq Hinf). lia.
  - intros Hrun Hp. destruct (IH Hrun Hp) as [-> Hall]. split; [done|].
    intros pair Hin Hinf. apply elem_of_cons in Hin as [->|Hin]; [|by apply Hall].
    destruct Hinf as (a & q & Hs' & _). cbn in Hs'. congruence.
Qed.

Lemma phase_found (pairs : list (nat * Z)) (p : Z) :
  get_phase_from read snps pairs None = Ok (Some p) → p ≠ 0 →
  ∃ i : nat, p = -1 + 2 * Z.of_nat i ∧
    (∃ pair, pair ∈ pairs ∧ informative read snps pair) ∧
    ∀ pair, pair ∈ pairs → informative read snps pair →
      allele_of read snps pair = Some i.
Proof.
  induction pairs as [|[rp fp] pairs IH]; [done|].
  phase_step rp fp i Hs Hq Hb Hi; try (intros; simplify_eq; done).
  - intros Hrun Hp. destruct (phase_kept _ _ _ Hrun Hp) as [-> Hall].
    exists i. split; [done|]. split.
    + exists (rp, fp). split; [by left|]. by exists alleles, quality.
    + intros pair Hin Hinf. apply elem_of_cons in Hin as [->|Hin].
      * by rewrite (allele_of_eq _ _ _ _ Hs Hb).
      * destruct (Hall pair Hin Hinf) as (j & Hj & Heq).
        rewrite Hj. f_equal. lia.
  - intros Hrun Hp. destruct (IH Hrun Hp) as (i & -> & (pr & Hin & Hinf) & Hall).
    exists i. split; [done|]. split; [exists pr; split; [by right|done]|].
    intros pair Hin' Hinf'. apply elem_of_cons in Hin' as [->|Hin']; [|by apply Hall].
    pose proof (informative_inv _ _ _ _ Hs Hq Hinf'). lia.
  - intros Hrun Hp. destruct (IH Hrun Hp) as (i & -> & (pr & Hin & Hinf) & Hall).
    exists i. split; [done|]. split; [exists pr; split; [by right|done]|].
    intros pair Hin' Hinf'. apply elem_of_cons in Hin' as [->|Hin']; [|by apply Hall].
    destruct Hinf' as (a & q & Hs' & _). cbn in Hs'. congruence.
Qed.

Lemma qualities_cover_tail pair pairs :
  qualities_cover read snps (pair :: pairs) → qualities_cover read snps pairs.
Proof. intros H pr Hin. apply H. by right. Qed.

Lemma phase_agreed (pairs : list (nat * Z)) (i : nat) :
  qualities_cover read snps pairs →
  (∀ pair, pair ∈ pairs → informative read snps pair →
     allele_of read snps pair = Some i) →
  get_phase_from read snps pairs (Some (-1 + 2 * Z.of_nat i))
  = Ok (Some (-1 + 2 * Z.of_nat i)).
Proof.
  induction pairs as [|[rp fp] pairs IH]; [done|].
  intros Hcov Hall.
  assert (Htail : get_phase_from read snps pairs (Some (-1 + 2 * Z.of_nat i))
                  = Ok (Some (-1 + 2 * Z.of_nat i))).
  { apply IH; [by eapply qualities_cover_tail|]. intros pair Hin. apply Hall. by right. }
  phase_step rp fp j Hs Hq Hb Hj; try done.
  - assert (Hinf : informative read snps (rp, fp)) by (by exists alleles, quality).
    assert (Ha : allele_of read snps (rp, fp) = Some i) by (apply Hall; [by left|done]).
    rewrite (allele_of_eq _ _ _ _ Hs Hb), Hj in Ha. simplify_eq.
    by rewrite decide_False by (intros Hne; by destruct Hne).
  - assert (Hinf : informative read snps (rp, fp)) by (by exists alleles, quality).
    assert (Ha : allele_of read snps (rp, fp) = Some i) by (apply Hall; [by left|done]).
    rewrite (allele_of_eq _ _ _ _ Hs Hb), Hj in Ha. done.
  - assert (Hinf : informative read snps (rp, fp)) by (by exists alleles, quality).
    assert (Ha : allele_of read snps (rp, fp) = Some i) by (apply Hall; [by left|done]).
    unfold allele_of in Ha. cbn in Ha. by rewrite Hs, Hb in Ha.
  - destruct (Hcov (rp, fp)) as [q Hq']; [by left|cbn; by rewrite Hs|]. cbn in Hq'. congruence.
Qed.

Lemma phase_agreed_from_none (pairs : list (nat * Z)) (i : nat) :
  qualities_cover read snps pairs →
  (∃ pair, pair ∈ pairs ∧ informative read snps pair) →
  (∀ pair, pair ∈ pairs → informative read snps pair →
     allele_of read snps pair = Some i) →
  get_phase_from read snps pairs None = Ok (Some (-1 + 2 * Z.of_nat i)).
Proof.
  induction pairs as [|[rp fp] pairs IH].
  { intros _ (pr & Hin & _). by apply elem_of_nil in Hin. }
  intros Hcov (pr & Hin & Hinf) Hall.
  assert (Hcov' : qualities_cover read snps pairs) by (by eapply qualities_cover_tail).
  assert (Hall' : ∀ pair, pair ∈ pairs → informative read snps pair →
                    allele_of read snps pair = Some i).
  { intros pair Hin'. apply Hall. by right. }
  assert (Hhead : informative read snps (rp, fp) → allele_of read snps (rp, fp) = Some i).
  { apply Hall. by left. }
  assert (Hrest : ¬ informative read snps (rp, fp) →
            get_phase_from read snps pairs None = Ok (Some (-1 + 2 * Z.of_nat i))).
  { intros Hno. apply IH; [done| |done]. exists pr. split; [|done].
    apply elem_of_cons in Hin as [->|Hin]; [done|done]. }
  phase_step rp fp j Hs Hq Hb Hj.
  - assert (Hi : informative read snps (rp, fp)) by (by exists alleles, quality).
    specialize (Hhead Hi). rewrite (allele_of_eq _ _ _ _ Hs Hb), Hj in Hhead.
    simplify_eq. by apply phase_agreed.
  - assert (Hi : informative read snps (rp, fp)) by (by exists alleles, quality).
    specialize (Hhead Hi). rewrite (allele_of_eq _ _ _ _ Hs Hb), Hj in Hhead. done.
  - assert (Hi : informative read snps (rp, fp)) by (by exists alleles, quality).
    specialize (Hhead Hi). unfold allele_of in Hhead. cbn in Hhead.
    by rewrite Hs, Hb in Hhead.
  - apply Hrest. intros Hi. pose proof (informative_inv _ _ _ _ Hs Hq Hi). lia.
  - destruct (Hcov (rp, fp)) as [q Hq']; [by left|cbn; by rewrite Hs|]. cbn in Hq'. congruence.
  - apply Hrest. intros (a & q & Hs' & _). cbn in Hs'. congruence.
Qed.

End Phase.

Section Snps.
Import GetGeneASE GetGeneASEProps.

Lemma true_hets_fold (lines : list string) (m : gmap (list string) bool) :
  all_true m →
  all_true (foldl (λ m line, <[split_ws (strip line) := true]> m) m lines).
Proof.
  revert m. induction lines as [|line lines IH]; [done|].
  intros m Hm. cbn [foldl]. apply IH. intros k b.
  destruct (decide (split_ws (strip line) = k)) as [->|Hne].
  - rewrite lookup_insert_eq. congruence.
  - rewrite lookup_insert_ne by done. apply Hm.
Qed.

Lemma true_hets_dict_true (lines : list string) : all_true (true_hets_dict lines).
Proof. apply true_hets_fold. intros k b. by rewrite lookup_empty. Qed.

Lemma snp_line_hets (h : gmap (list string) bool) snps line :
  all_true h → snp_line h snps line = snp_line ∅ snps line.
Proof.
  intros Hh. unfold snp_line.
  destruct (split_ws (strip line)) as [|chrom [|x [|start [|refalt [|]]]]]; try done.
  rewrite lookup_empty.
  destruct (h !! [chrom; start]) as [b|] eqn:Hk; [|done].
  by rewrite (Hh _ _ Hk).
Qed.

Lemma snp_lines_hets (h : gmap (list string) bool) snps lines :
  all_true h → snp_lines h snps lines = snp_lines ∅ snps lines.
Proof.
  intros Hh. revert snps. induction lines as [|line lines IH]; [done|].
  intros snps. cbn [snp_lines]. rewrite (snp_line_hets h) by done.
  destruct (snp_line ∅ snps line); cbn [bind_pure]; [apply IH|done|done].
Qed.




Lemma get_snps_hets snpfile hets snp_file :
  get_snps snpfile (Some hets) snp_file
  = (["using true hets"], (get_snps snpfile None snp_file).2).
Proof.
  unfold get_snps. destruct (PyStr.endswith snpfile ".bed"); [|done].
  destruct snp_file as [lines|]; [|done]. cbn [snd].
  by rewrite (snp_lines_hets (true_hets_dict hets)) by apply true_hets_dict_true.
Qed.


End Snps.

(** X26: [get_phase] returns [None] exactly for the reads none of whose
    aligned positions counts: every position is off the SNPs or has a base
    quality below 30 (and no index is out of range on the way). *)
Theorem X26_phase_none_iff_nothing_counted
    (read : GetGeneASE.aligned_read) (snps : gmap Z (list string)) :
  GetGeneASE.get_phase read snps = Ok None ↔
  ∀ pair, pair ∈ GetGeneASE.aligned_pairs read → GetGeneASEProps.skipped read snps pair.
Proof. apply (phase_none_iff read snps (GetGeneASE.aligned_pairs read)). Qed.

(** X27: a result of [get_phase] other than [None] and [0] is [-1 + 2*i]
    for one place [i] in the allele lists; the read has a position over a
    SNP with quality 30 or more, and at every such position its base is the
    allele at place [i]. *)
Theorem X27_nonzero_phase_means_agreement
    (read : GetGeneASE.aligned_read) (snps : gmap Z (list string)) (p : Z) :
  GetGeneASE.get_phase read snps = Ok (Some p) → p ≠ 0 →
  ∃ i : nat, p = -1 + 2 * Z.of_nat i ∧
    (∃ pair, pair ∈ GetGeneASE.aligned_pairs read ∧ GetGeneASE.informative read snps pair) ∧
    ∀ pair, pair ∈ GetGeneASE.aligned_pairs read → GetGeneASE.informative read snps pair →
      GetGeneASE.allele_of read snps pair = Some i.
Proof. apply (phase_found read snps (GetGeneASE.aligned_pairs read)). Qed.

Lemma X27_nonzero_phase_means_agreement_witness :
  ∃ i : nat, 1 = -1 + 2 * Z.of_nat i ∧
    (∃ pair, pair ∈ GetGeneASE.aligned_pairs sample_read ∧
             GetGeneASE.informative sample_read sample_snps pair) ∧
    ∀ pair, pair ∈ GetGeneASE.aligned_pairs sample_read →
      GetGeneASE.informative sample_read sample_snps pair →
      GetGeneASE.allele_of sample_read sample_snps pair = Some i.
Proof.
  apply (X27_nonzero_phase_means_agreement sample_read sample_snps 1).
  - vm_compute. reflexivity.
  - lia.
Defined.

(** X28: the converse.  When the read has a quality at each position over a
    SNP, has a position over a SNP with quality 30 or more, and at every
    such position shows the allele at place [i], [get_phase] returns
    [-1 + 2*i]. *)
Theorem X28_agreeing_read_gets_its_phase
    (read : GetGeneASE.aligned_read) (snps : gmap Z (list string)) (i : nat) :
  GetGeneASEProps.qualities_cover read snps (GetGeneASE.aligned_pairs read) →
  (∃ pair, pair ∈ GetGeneASE.aligned_pairs read ∧ GetGeneASE.informative read snps pair) →
  (∀ pair, pair ∈ GetGeneASE.aligned_pairs read → GetGeneASE.informative read snps pair →
     GetGeneASE.allele_of read snps pair = Some i) →
  GetGeneASE.get_phase read snps = Ok (Some (-1 + 2 * Z.of_nat i)).
Proof. apply (phase_agreed_from_none read snps (GetGeneASE.aligned_pairs read)). Qed.

Lemma sample_read_pairs (P : nat * Z → Prop) :
  P (0%nat, 5388) → P (1%nat, 5389) → P (2%nat, 5390) → P (3%nat, 5402) →
  ∀ pair, pair ∈ GetGeneASE.aligned_pairs sample_read → P pair.
Proof.
  intros H0 H1 H2 H3 pair Hin. cbn in Hin.
  repeat (apply elem_of_cons in Hin as [->|Hin]; [done|]).
  by apply elem_of_nil in Hin.
Qed.

Lemma X28_agreeing_read_gets_its_phase_witness :
  GetGeneASE.get_phase sample_read sample_snps = Ok (Some 1).
Proof.
  apply (X28_agreeing_read_gets_its_phase sample_read sample_snps 1).
  - unfold GetGeneASEProps.qualities_cover.
    refine (sample_read_pairs _ _ _ _ _); intros _; vm_compute; eauto.
  - exists (1%nat, 5389). split; [vm_compute; set_solver|].
    exists ["A"; "T"], 40. vm_compute. split; [done|]. split; [done|]. discriminate.
  - refine (sample_read_pairs _ _ _ _ _); intros (a & q & Hs & Hq & Hge);
      vm_compute in Hs, Hq; simplify_eq; try lia; reflexivity.
Defined.

(** X29: the file [true_hets.tsv] never changes what [get_snps] returns:
    every value of the dictionary built from it is [True], and so is the
    default of the look-up.  With the file present the function prints one
    line and returns what it returns without it. *)
Theorem X29_true_hets_file_changes_nothing
    (snpfile : string) (hets : list string) (snp_file : option (list string)) :
  GetGeneASE.get_snps snpfile (Some hets) snp_file
  = (["using true hets"], (GetGeneASE.get_snps snpfile None snp_file).2).
Proof. apply get_snps_hets. Qed.


